(** * Laplace approximations: a shallow embedding of [laplace/baselaplace.py]

    The development follows the class hierarchy of the source:
    [BaseLaplace] (prior, noise, grid search), [ParametricLaplace]
    (fit, marginal likelihood, predictives) with its subclasses
    [FullLaplace], [KronLaplace], [DiagLaplace], and [FunctionalLaplace]
    (the GP dual), with the GGN backend of [laplace/curvature.py].

    Conventions of the embedding.
    - A torch tensor of floats is a list of real numbers ([vec]), a matrix a
      list of rows; arithmetic is the exact arithmetic of [R].  Where the
      source divides by a quantity that its setters allow to be zero, or
      compares losses that may be infinite or [nan], the value is a
      [float]: a real number, an infinity or [nan].
    - A Python object with mutable attributes is a record; a method is a
      function from the record to the updated record and an outcome, which
      is either a returned value or a raised exception.  An exception leaves
      the attributes as they were when it was raised.
    - The operands of an elementwise operation have the shapes the source
      gives them; what torch does on mismatched shapes (broadcasting or an
      error) is not modelled beyond the scalar broadcasts the source
      relies on.
    - What the source imports from modules outside [baselaplace.py] and
      [curvature.py] (the Jacobians of the model, [torch.linalg],
      [torch.distributions], [laplace.utils], the model's forward pass) is
      a parameter of the section that uses it; random draws are such
      parameters too. *)

From Stdlib Require Import Reals Lra Lia String Bool Arith List.
Import ListNotations.

Set Implicit Arguments.
Open Scope string_scope.
Open Scope list_scope.
Open Scope R_scope.

(** ** Python outcomes *)

Module Py.

(** The exception classes the source raises or catches.  In Python
    [NotImplementedError] derives from [RuntimeError], and so does
    [torch.linalg.LinAlgError]. *)
Inductive exn_class : Set :=
| ValueError
| AttributeError
| TypeError
| StopIteration
| IndexError
| AssertionError
| RuntimeError
| NotImplementedError
| LinAlgError
| ZeroDivisionError.

Record exn : Set := Raise { exn_cls : exn_class; exn_msg : string }.

Inductive result (A : Type) : Type :=
| Ok (a : A)
| Err (e : exn).
Arguments Ok {A} a.
Arguments Err {A} e.

(** [isinstance(e, RuntimeError)], as an [except RuntimeError] clause
    tests it. *)
Definition is_RuntimeError (e : exn) : bool :=
  match exn_cls e with
  | RuntimeError | NotImplementedError | LinAlgError => true
  | _ => false
  end.

Definition is_ValueError (e : exn) : bool :=
  match exn_cls e with
  | ValueError => true
  | _ => false
  end.

Definition rbind {A B} (r : result A) (k : A -> result B) : result B :=
  match r with
  | Ok a => k a
  | Err e => Err e
  end.

Definition is_ok {A} (r : result A) : bool :=
  match r with Ok _ => true | Err _ => false end.

(** A method of an object of type [S]: attributes in, attributes and
    outcome out. *)
Definition method (S A : Type) : Type := S -> S * result A.

Definition ret {S A} (a : A) : method S A := fun s => (s, Ok a).
Definition raise {S A} (e : exn) : method S A := fun s => (s, Err e).
Definition bind {S A B} (m : method S A) (k : A -> method S B) : method S B :=
  fun s => match m s with
           | (s', Ok a) => k a s'
           | (s', Err e) => (s', Err e)
           end.
Definition get {S} : method S S := fun s => (s, Ok s).
Definition modify {S} (f : S -> S) : method S unit := fun s => (f s, Ok tt).
(** Reading a property that may raise. *)
Definition read {S A} (p : S -> result A) : method S A := fun s => (s, p s).

End Py.
Import Py.

Declare Scope py_scope.
Delimit Scope py_scope with py.
Notation "x <- m ;; k" := (bind m (fun x => k))
  (at level 61, m at next level, right associativity) : py_scope.
Notation "m ;;; k" := (bind m (fun _ => k))
  (at level 61, right associativity) : py_scope.
Notation "x <-? r ;; k" := (rbind r (fun x => k))
  (at level 61, r at next level, right associativity) : py_scope.
Open Scope py_scope.

(** ** Tensors *)

Definition vec : Type := list R.
Definition matrix : Type := list (list R).

(** A scalar as floating point has it, where the source divides by a
    quantity that may be zero or takes a minimum over values that may be
    infinite: a real number, [inf], [-inf] or [nan].  Rounding and
    overflow of finite values are not modelled, and zero is the positive
    zero. *)
Inductive float : Type :=
| Finite (r : R)
| PInf
| NInf
| NaN.

Module Torch.

Definition ones (n : nat) : vec := repeat 1 n.
Definition zeros (n : nat) : vec := repeat 0 n.
Definition zeros2 (n m : nat) : matrix := repeat (zeros m) n.

(** [s * v] for a zero-dimensional (or one-element) [s]. *)
Definition smul (s : R) (v : vec) : vec := map (Rmult s) v.
(** [s / v], elementwise. *)
Definition sdiv (s : R) (v : vec) : vec := map (fun x => s / x) v.
(** [v.sum()]. *)
Definition sum (v : vec) : R := fold_right Rplus 0 v.
(** [v.log()]. *)
Definition log (v : vec) : vec := map ln v.

(** Elementwise operations on tensors of the same shape. *)
Fixpoint zip_with (f : R -> R -> R) (a b : vec) : vec :=
  match a, b with
  | x :: a', y :: b' => f x y :: zip_with f a' b'
  | _, _ => []
  end.
Definition vadd := zip_with Rplus.
Definition vmul := zip_with Rmult.
(** [a @ b] on two vectors. *)
Definition dot (a b : vec) : R := sum (vmul a b).

Fixpoint mzip_with (f : R -> R -> R) (a b : matrix) : matrix :=
  match a, b with
  | r :: a', s :: b' => zip_with f r s :: mzip_with f a' b'
  | _, _ => []
  end.
Definition madd := mzip_with Rplus.
(** [s * A] for a zero-dimensional [s]. *)
Definition mscale (s : R) (A : matrix) : matrix := map (smul s) A.

(** [torch.diag(v)] of a vector: the square matrix with [v] on its
    diagonal. *)
Fixpoint diag (v : vec) : matrix :=
  match v with
  | [] => []
  | x :: v' => (x :: zeros (length v')) :: map (cons 0) (diag v')
  end.

(** [a - b] on vectors; an operand that holds one element (or is
    zero-dimensional) is broadcast. *)
Definition sub_broadcast (a b : vec) : vec :=
  match a, b with
  | _, [m] => map (fun x => x - m) a
  | [m], _ => map (fun y => m - y) b
  | _, _ => zip_with Rminus a b
  end.

(** [A @ x] for a vector [x]. *)
Definition matvec (A : matrix) (x : vec) : vec := map (fun r => dot r x) A.

(** [torch.eye(n)]. *)
Definition eye (n : nat) : matrix := diag (ones n).

(** [A.T] and [A @ B]. *)
Definition transpose (A : matrix) : matrix :=
  map (fun j => map (fun r => nth j r 0) A) (seq 0 (length (hd [] A))).
Definition matmul (A B : matrix) : matrix :=
  map (fun r => map (fun c => dot r c) (transpose B)) A.

(** [l[a:b] = new], where [new] has the shape of the slice. *)
Definition set_slice {A} (l : list A) (a b : nat) (new : list A) : list A :=
  let b' := Nat.min b (length l) in
  firstn a l ++ firstn (b' - a) new ++ skipn (Nat.max a b') l.

(** [K[r0:r1, c0:c1] = B], where [B] has the shape of the block. *)
Definition set_block (K : matrix) (r0 r1 c0 c1 : nat) (B : matrix) : matrix :=
  let r1' := Nat.min r1 (length K) in
  firstn r0 K
  ++ map (fun '(row, brow) => set_slice row c0 c1 brow)
         (combine (firstn (r1' - r0) (skipn r0 K)) B)
  ++ skipn (Nat.max r0 r1') K.

(** [v[i::step]]. *)
Fixpoint every_from (fuel i step : nat) (v : vec) : vec :=
  match fuel with
  | O => []
  | S fuel' =>
      match nth_error v i with
      | Some x => x :: every_from fuel' (i + step) step v
      | None => []
      end
  end.
Definition strided (i step : nat) (v : vec) : vec :=
  every_from (length v) i step v.

(** [torch.diagonal] of a square matrix. *)
Fixpoint diagonal_from (i : nat) (A : matrix) : vec :=
  match A with
  | [] => []
  | r :: A' => nth i r 0 :: diagonal_from (S i) A'
  end.
Definition diagonal (A : matrix) : vec := diagonal_from 0 A.

(** [torch.softmax(v, dim=-1)] on one row. *)
Definition softmax (v : vec) : vec :=
  let e := map exp v in map (fun x => x / sum e) e.


Definition fdiv (x y : float) : float :=
  match x, y with
  | NaN, _ => NaN
  | _, NaN => NaN
  | Finite a, Finite b =>
      if Req_dec_T b 0
      then if Req_dec_T a 0 then NaN
           else if Rlt_dec 0 a then PInf else NInf
      else Finite (a / b)
  | Finite _, _ => Finite 0
  | PInf, Finite b => if Rlt_dec b 0 then NInf else PInf
  | NInf, Finite b => if Rlt_dec b 0 then PInf else NInf
  | _, _ => NaN
  end.




(** [t.mean(dim=0)] and [t.var(dim=0)] of a stack of matrices; the
    variance divides by [n - 1], which is zero for a single sample, and
    is [nan] then. *)
Definition sum0 (t : list matrix) : matrix :=
  match t with
  | [] => []
  | m :: t' => fold_left madd t' m
  end.
Definition mean0 (t : list matrix) : matrix :=
  map (map (fun x => x / INR (length t))) (sum0 t).
Definition var0 (t : list matrix) : list (list float) :=
  let mu := mean0 t in
  map (map (fun x => fdiv (Finite x) (Finite (INR (length t - 1)))))
    (sum0 (map (fun m => mzip_with (fun x y => Rsqr (x - y)) m mu) t)).

(** The determinant, by expansion along the first row, and
    [torch.logdet]. *)
Fixpoint drop_nth (j : nat) (r : vec) : vec :=
  match j, r with
  | _, [] => []
  | O, _ :: r' => r'
  | S j', x :: r' => x :: drop_nth j' r'
  end.

Fixpoint det_fuel (n : nat) (A : matrix) : R :=
  match n with
  | O => 1
  | S n' =>
      match A with
      | [] => 1
      | r :: A' =>
          fold_right Rplus 0
            (map (fun '(j, x) =>
                    (if Nat.even j then x else - x)
                    * det_fuel n' (map (drop_nth j) A'))
                 (combine (seq 0 (length r)) r))
      end
  end.
Definition det (A : matrix) : R := det_fuel (length A) A.
Definition logdet (A : matrix) : R := ln (det A).

End Torch.

(** ** Values handed to the setters

    The setters of [prior_precision], [prior_mean] and [sigma_noise] branch
    on what kind of Python object they are given. *)
Inductive py_value : Type :=
| PyFloat (r : R)            (* a Python number: [np.isscalar] and [np.isreal] *)
| Tensor0 (r : R)            (* a tensor with [ndim == 0] *)
| Tensor1 (v : vec)          (* a tensor with [ndim == 1] *)
| TensorN (data : vec)       (* a tensor with [ndim >= 2], its elements *)
| PyOther.                   (* anything else: [None], a list, ... *)

(** ** The model

    A [torch.nn.Module] as the source uses it: its parameter tensors, one
    per entry of [model.parameters()], each flattened; the train/eval flag;
    the attribute [output_size] that [fit] attaches. *)
Record Model : Type := mkModel {
  parameters : list vec;
  training : bool;
  output_size : option nat
}.

(** [torch.nn.utils.parameters_to_vector]. *)
Definition parameters_to_vector (ps : list vec) : vec := concat ps.

(** [laplace.utils.parameters_per_layer]: the number of elements of each
    parameter tensor. *)
Definition parameters_per_layer (m : Model) : list nat :=
  map (@length R) (parameters m).

(** ** BaseLaplace *)

Record BaseLaplace : Type := mkBase {
  model : Model;
  n_params : nat;
  n_layers : nat;
  likelihood : string;
  _prior_precision : vec;
  _prior_mean : vec;
  _sigma_noise : R;
  temperature : R;
  loss : R;
  n_outputs : option nat;
  n_data : option nat;
  map_estimate : vec;
  _posterior_scale : option matrix
}.

Module Base.

Definition set_model (m : Model) (s : BaseLaplace) : BaseLaplace :=
  mkBase m (n_params s) (n_layers s) (likelihood s) (_prior_precision s)
    (_prior_mean s) (_sigma_noise s) (temperature s) (loss s) (n_outputs s)
    (n_data s) (map_estimate s) (_posterior_scale s).
Definition set_prior_precision (p : vec) (s : BaseLaplace) : BaseLaplace :=
  mkBase (model s) (n_params s) (n_layers s) (likelihood s) p
    (_prior_mean s) (_sigma_noise s) (temperature s) (loss s) (n_outputs s)
    (n_data s) (map_estimate s) (_posterior_scale s).
Definition set_prior_mean (p : vec) (s : BaseLaplace) : BaseLaplace :=
  mkBase (model s) (n_params s) (n_layers s) (likelihood s)
    (_prior_precision s) p (_sigma_noise s) (temperature s) (loss s)
    (n_outputs s) (n_data s) (map_estimate s) (_posterior_scale s).
Definition set_sigma_noise (x : R) (s : BaseLaplace) : BaseLaplace :=
  mkBase (model s) (n_params s) (n_layers s) (likelihood s)
    (_prior_precision s) (_prior_mean s) x (temperature s) (loss s)
    (n_outputs s) (n_data s) (map_estimate s) (_posterior_scale s).
Definition set_loss (x : R) (s : BaseLaplace) : BaseLaplace :=
  mkBase (model s) (n_params s) (n_layers s) (likelihood s)
    (_prior_precision s) (_prior_mean s) (_sigma_noise s) (temperature s) x
    (n_outputs s) (n_data s) (map_estimate s) (_posterior_scale s).
Definition set_n_outputs (x : option nat) (s : BaseLaplace) : BaseLaplace :=
  mkBase (model s) (n_params s) (n_layers s) (likelihood s)
    (_prior_precision s) (_prior_mean s) (_sigma_noise s) (temperature s)
    (loss s) x (n_data s) (map_estimate s) (_posterior_scale s).
Definition set_n_data (x : option nat) (s : BaseLaplace) : BaseLaplace :=
  mkBase (model s) (n_params s) (n_layers s) (likelihood s)
    (_prior_precision s) (_prior_mean s) (_sigma_noise s) (temperature s)
    (loss s) (n_outputs s) x (map_estimate s) (_posterior_scale s).
Definition set_posterior_scale (x : option matrix) (s : BaseLaplace)
  : BaseLaplace :=
  mkBase (model s) (n_params s) (n_layers s) (likelihood s)
    (_prior_precision s) (_prior_mean s) (_sigma_noise s) (temperature s)
    (loss s) (n_outputs s) (n_data s) (map_estimate s) x.

(** [x in xs] on natural numbers. *)
Definition nat_in (x : nat) (xs : list nat) : bool := existsb (Nat.eqb x) xs.
(** [x in xs] on strings. *)
Definition str_in (x : string) (xs : list string) : bool :=
  existsb (String.eqb x) xs.

(** The [prior_precision] setter. *)
Definition prior_precision_setter (prior_precision : py_value)
  : method BaseLaplace unit :=
  modify (set_posterior_scale None) ;;;
  self <- get ;;
  match prior_precision with
  | PyFloat r => modify (set_prior_precision [r])
  | Tensor0 r => modify (set_prior_precision [r])
  | Tensor1 v =>
      if negb (nat_in (length v) [1%nat; n_layers self; n_params self])
      then raise (Raise ValueError
             "Length of prior precision does not align with architecture.")
      else modify (set_prior_precision v)
  | TensorN _ =>
      raise (Raise ValueError
        "Prior precision needs to be at most one-dimensional tensor.")
  | PyOther =>
      raise (Raise ValueError
        "Prior precision either scalar or torch.Tensor up to 1-dim.")
  end.

(** The [prior_precision_diag] property. *)
Definition prior_precision_diag (self : BaseLaplace) : result vec :=
  let pp := _prior_precision self in
  if (length pp =? 1)%nat then
    Ok (Torch.smul (hd 0 pp) (Torch.ones (n_params self)))
  else if (length pp =? n_params self)%nat then
    Ok pp
  else if (length pp =? n_layers self)%nat then
    Ok (concat (map (fun '(prior, n) => Torch.smul prior (Torch.ones n))
                    (combine pp (parameters_per_layer (model self)))))
  else
    Err (Raise ValueError
      "Mismatch of prior and model. Diagonal, scalar, or per-layer prior.").

(** The [prior_mean] setter. *)
Definition prior_mean_setter (prior_mean : py_value) : method BaseLaplace unit :=
  self <- get ;;
  match prior_mean with
  | PyFloat r => modify (set_prior_mean [r])
  | Tensor0 r => modify (set_prior_mean [r])
  | Tensor1 v =>
      if negb (nat_in (length v) [1%nat; n_params self])
      then raise (Raise ValueError "Invalid length of prior mean.")
      else modify (set_prior_mean v)
  | TensorN _ => raise (Raise ValueError "Prior mean has too many dimensions!")
  | PyOther => raise (Raise ValueError "Invalid argument type of prior mean.")
  end.

(** The [sigma_noise] setter. *)
Definition sigma_noise_setter (sigma_noise : py_value) : method BaseLaplace unit :=
  modify (set_posterior_scale None) ;;;
  match sigma_noise with
  | PyFloat r => modify (set_sigma_noise r)
  | Tensor0 r => modify (set_sigma_noise r)
  | Tensor1 v =>
      if (1 <? length v)%nat
      then raise (Raise ValueError "Only homoscedastic output noise supported.")
      else match v with
           | x :: _ => modify (set_sigma_noise x)
           | [] => raise (Raise IndexError "index 0 is out of bounds")
           end
  | TensorN _ =>
      raise (Raise ValueError "Sigma noise needs to be scalar or 1-dimensional.")
  | PyOther =>
      raise (Raise ValueError
        "Invalid type: sigma noise needs to be torch.Tensor or scalar.")
  end.

(** The [_H_factor] property, over the reals.  This is the value the
    code computes when [sigma_noise] and [temperature] are not zero; the
    setters store a zero unchecked, and the division by it is then that of
    [_H_factor_float] below, not the division of [R]. *)
Definition _H_factor (self : BaseLaplace) : R :=
  let sigma2 := Rsqr (_sigma_noise self) in
  1 / sigma2 / temperature self.


(** [bool(sigma_noise != 1)], the first operand of the test in [__init__];
    the truth value of a tensor that does not hold exactly one element is
    ambiguous. *)
Definition Rneb (a b : R) : bool := if Req_dec_T a b then false else true.

Definition ne_one (sigma_noise : py_value) : result bool :=
  match sigma_noise with
  | PyFloat r => Ok (Rneb r 1)
  | Tensor0 r => Ok (Rneb r 1)
  | Tensor1 [r] => Ok (Rneb r 1)
  | TensorN [r] => Ok (Rneb r 1)
  | Tensor1 _ | TensorN _ =>
      Err (Raise RuntimeError "Boolean value of Tensor is ambiguous")
  | PyOther => Ok true
  end.

Definition set_likelihood (x : string) (s : BaseLaplace) : BaseLaplace :=
  mkBase (model s) (n_params s) (n_layers s) x (_prior_precision s)
    (_prior_mean s) (_sigma_noise s) (temperature s) (loss s) (n_outputs s)
    (n_data s) (map_estimate s) (_posterior_scale s).
Definition set_temperature (x : R) (s : BaseLaplace) : BaseLaplace :=
  mkBase (model s) (n_params s) (n_layers s) (likelihood s)
    (_prior_precision s) (_prior_mean s) (_sigma_noise s) x (loss s)
    (n_outputs s) (n_data s) (map_estimate s) (_posterior_scale s).
Definition set_map_estimate (x : vec) (s : BaseLaplace) : BaseLaplace :=
  mkBase (model s) (n_params s) (n_layers s) (likelihood s)
    (_prior_precision s) (_prior_mean s) (_sigma_noise s) (temperature s)
    (loss s) (n_outputs s) (n_data s) x (_posterior_scale s).

(** The object as [__init__] finds it once [model], [n_params] and
    [n_layers] are assigned; the other attributes do not exist yet and are
    assigned below before they are read. *)
Definition blank (m : Model) : BaseLaplace :=
  mkBase m (length (parameters_to_vector (parameters m)))
    (length (parameters m)) "" [] [] 0 0 0 None None [] None.

(** [next(model.parameters())] returns when the model has a parameter
    tensor. *)
Definition has_parameters (m : Model) : bool :=
  match parameters m with
  | [] => false
  | _ :: _ => true
  end.

(** [BaseLaplace.__init__].  The backend arguments are not attributes of
    the state: the backend is a parameter of the sections that call it.
    [self._device = next(model.parameters()).device] raises
    [StopIteration] on a model without parameters. *)
Definition __init__ (m : Model) (likelihood : string)
    (sigma_noise prior_precision prior_mean : py_value) (temperature : R)
  : result BaseLaplace :=
  if negb (str_in likelihood ["classification"; "regression"])
  then Err (Raise ValueError ("Invalid likelihood type " ++ likelihood))
  else if negb (has_parameters m)
  then Err (Raise StopIteration "")
  else
    let body : method BaseLaplace unit :=
      prior_precision_setter prior_precision ;;;
      prior_mean_setter prior_mean ;;;
      ne <- read (fun _ => ne_one sigma_noise) ;;
      if ne && negb (likelihood =? "regression")%string
      then raise (Raise ValueError
             "Sigma noise != 1 only available for regression.")
      else
        modify (set_likelihood likelihood) ;;;
        sigma_noise_setter sigma_noise ;;;
        modify (set_temperature temperature) ;;;
        modify (set_loss 0) ;;;
        modify (set_n_outputs None) ;;;
        modify (set_n_data None) ;;;
        modify (set_map_estimate (parameters_to_vector (parameters m)))
    in
    match body (blank m) with
    | (self, Ok _) => Ok self
    | (_, Err e) => Err e
    end.

(** The [log_likelihood] property; [_check_fit] is the subclass's.  Over
    the reals this is the value of the code for a positive [sigma_noise]
    and a non-zero [temperature]: for other values the code's logarithm
    and division give [nan] or an infinity, which [ln] and [/] on [R] do
    not. *)
Definition log_likelihood (_check_fit : BaseLaplace -> result unit)
    (self : BaseLaplace) : result R :=
  _ <-? _check_fit self ;;
  let factor := - _H_factor self in
  if (likelihood self =? "regression")%string then
    match n_data self, n_outputs self with
    | Some N, Some C =>
        let c := INR (N * C) * ln (_sigma_noise self * sqrt (2 * PI)) in
        Ok (factor * loss self - c)
    | _, _ =>
        Err (Raise TypeError "unsupported operand type(s) for *: NoneType")
    end
  else
    Ok (factor * loss self).

End Base.

(** ** Grid search

    [BaseLaplace._gridsearch] runs on any instance [Self]: it assigns
    [prior_precision] through the instance's setter and scores the instance
    with [laplace.utils.validate] followed by the caller's [loss]. *)

(** A validation loss is the floating-point value the caller's [loss]
    returns: a number, [inf], [-inf] or [nan]. *)
Definition score : Type := float.

Definition is_nan (a : score) : bool :=
  match a with NaN => true | _ => false end.

(** [a < b] on such values; every comparison with [nan] is false. *)
Definition score_ltb (a b : score) : bool :=
  match a, b with
  | NaN, _ => false
  | _, NaN => false
  | NInf, NInf => false
  | NInf, _ => true
  | Finite _, NInf => false
  | Finite x, Finite y => if Rlt_dec x y then true else false
  | Finite _, PInf => true
  | PInf, _ => false
  end.

(** [np.argmin] of a non-empty sequence, as NumPy scans it:
    [argmin_from best i_best i rest] scans [rest], whose first element has
    index [i]; an element replaces the best one so far unless it is
    greater or equal ([!(x >= best)], which a [nan] satisfies), and the
    scan stops at a [nan].  The result is the index of the first [nan]
    when there is one, and of the first smallest element otherwise. *)
Fixpoint argmin_from (best : score) (i_best i : nat) (rest : list score)
  : nat :=
  match rest with
  | [] => i_best
  | x :: rest' =>
      if is_nan best then i_best
      else if is_nan x || score_ltb x best
      then argmin_from x i (S i) rest'
      else argmin_from best i_best (S i) rest'
  end.

Definition argmin (results : list score) : result nat :=
  match results with
  | [] => Err (Raise ValueError "attempt to get argmin of an empty sequence")
  | x :: rest => Ok (argmin_from x 0%nat 1%nat rest)
  end.

(** [try: body except RuntimeError: result = default]. *)
Definition try_except_RuntimeError {S A} (body : method S A) (default : A)
  : method S A :=
  fun s => match body s with
           | (s', Ok a) => (s', Ok a)
           | (s', Err e) =>
               if is_RuntimeError e then (s', Ok default) else (s', Err e)
           end.

Section GridSearch.

Variable Self : Type.
Variable OutDist Targets : Type.
(** The [prior_precision] setter of the instance. *)
Variable prior_precision_setter : py_value -> method Self unit.
(** [validate(self, val_loader, pred_type, link_approx, n_samples)]. *)
Variable validate : method Self (OutDist * Targets).
(** The caller's [loss(out_dist, targets)]. *)
Variable loss_fn : OutDist -> Targets -> result score.

(** One iteration of the [for] loop, up to the two [append]s. *)
Definition _gridsearch_step (prior_prec : R) : method Self score :=
  prior_precision_setter (Tensor0 prior_prec) ;;;
  try_except_RuntimeError
    (ot <- validate ;;
     read (fun _ => loss_fn (fst ot) (snd ot)))
    PInf.

Fixpoint _gridsearch_loop (interval : list R) (results : list score)
    (prior_precs : list R) : method Self (list score * list R) :=
  match interval with
  | [] => ret (results, prior_precs)
  | prior_prec :: interval' =>
      result <- _gridsearch_step prior_prec ;;
      _gridsearch_loop interval' (results ++ [result])
        (prior_precs ++ [prior_prec])
  end.

Definition _gridsearch (interval : list R) : method Self R :=
  rp <- _gridsearch_loop interval [] [] ;;
  i <- read (fun _ => argmin (fst rp)) ;;
  ret (nth i (snd rp) 0).

End GridSearch.

(** ** KronLaplace: the restricted [prior_precision] setter

    The setter only touches attributes of [BaseLaplace]. *)
Module Kron.

Definition prior_precision_setter (prior_precision : py_value)
  : method BaseLaplace unit :=
  Base.prior_precision_setter prior_precision ;;;
  self <- get ;;
  if negb (Base.nat_in (length (_prior_precision self))
             [1%nat; n_layers self])
  then raise (Raise ValueError
         "Prior precision for Kron either scalar or per-layer.")
  else ret tt.

End Kron.

(** ** ParametricLaplace *)

(** A [torch.utils.data.DataLoader]: the batches it yields on each pass
    (never an empty batch), [len(loader.dataset)] and [loader.batch_size].
    A batch is a list of inputs with the matrix of their targets. *)
Module Data.
Record DataLoader (input : Type) : Type := mkLoader {
  batches : list (list input * list vec);
  dataset_len : nat;
  batch_size : nat
}.
End Data.
Export Data.

(** An instance of a subclass whose curvature [H] is of type [Hty];
    [H = None] before [fit]. *)
Record ParametricLaplace (Hty : Type) : Type := mkPL {
  base : BaseLaplace;
  H : option Hty
}.

(** What the predictive returns: mean and covariance per input for the
    GLM regression, mean and variance per output for sampled regression,
    class probabilities for classification. *)
Inductive prediction : Type :=
| Gaussian (f_mu : list vec) (f_var : list matrix)
| Moments (mean : list vec) (var : list (list float))
| Categorical (probs : list vec).

(** Run a method of [BaseLaplace] on a subclass instance. *)
Definition lift_base {Hty A} (m : method BaseLaplace A)
  : method (ParametricLaplace Hty) A :=
  fun self => let (b, r) := m (base self) in (mkPL b (H self), r).

Definition set_H {Hty} (h : option Hty) (self : ParametricLaplace Hty)
  : ParametricLaplace Hty :=
  mkPL (base self) h.

(** What a subclass of [ParametricLaplace] and its backend provide.
    [sample] stands for the draw from the posterior, whose randomness is
    the implementation's. *)
Class Subclass (input Hty : Type) : Type := {
  _init_H : BaseLaplace -> Hty;
  _curv_closure : ParametricLaplace Hty -> list input -> list vec -> nat
                  -> result (R * Hty);
  H_iadd : Hty -> Hty -> Hty;
  log_det_posterior_precision : ParametricLaplace Hty -> result R;
  functional_variance : list (list vec) -> method (ParametricLaplace Hty)
                                             (list matrix);
  sample : nat -> method (ParametricLaplace Hty) (list vec);
  (** [self.backend.jacobians(self.model, X)] *)
  jacobians : Model -> list input -> result (list (list vec) * list vec)
}.

Section Predictive.

(** [torch.distributions]: the samples of [MultivariateNormal(f_mu, f_var)]
    (or of the [Normal] the source falls back to), [n_samples] matrices;
    the mean of [Dirichlet(alpha)], which refuses a concentration that is
    not positive ([torch.nan_to_num] is the identity on real numbers). *)
Variable mvn_sample : list vec -> list matrix -> nat -> list matrix.
Variable Dirichlet_mean : list vec -> result (list vec).

(** [BaseLaplace._classification_predictive]. *)
Definition _classification_predictive (f_mu : list vec) (f_var : list matrix)
    (link_approx : string) (n_samples : nat) : result (list vec) :=
  if negb (Base.str_in link_approx ["mc"; "probit"; "bridge"])
  then Err (Raise ValueError
         ("Unsupported link approximation " ++ link_approx ++ "."))
  else if (link_approx =? "mc")%string then
    Ok (Torch.mean0
          (map (map Torch.softmax) (mvn_sample f_mu f_var n_samples)))
  else if (link_approx =? "probit")%string then
    let kappa :=
      map (fun V => map (fun d => 1 / sqrt (1 + PI / 8 * d))
                        (Torch.diagonal V)) f_var in
    Ok (map Torch.softmax (Torch.mzip_with Rmult kappa f_mu))
  else
    let K := INR (length (hd [] f_mu)) in
    let f_var_diag := map Torch.diagonal f_var in
    let alpha :=
      map (fun '(mu, vd) =>
             let sum_exp := Torch.sum (map (fun x => exp (- x)) mu) in
             Torch.zip_with
               (fun v m => 1 / v * (1 - 2 / K + exp m / (K * K) * sum_exp))
               vd mu)
          (combine f_mu f_var_diag) in
    Dirichlet_mean alpha.

Variable input Hty : Type.
Context {cls : Subclass input Hty}.
(** [self.model(X)] with the parameters [theta]. *)
Variable forward : list vec -> list input -> result (list vec).

Notation "'PL'" := (ParametricLaplace Hty).

(** [ParametricLaplace._check_fit]. *)
Definition _check_fit (self : PL) : result unit :=
  match H self with
  | None => Err (Raise AttributeError
              "ParametricLaplace not fitted. Run fit() first.")
  | Some _ => Ok tt
  end.

Definition set_training (b : bool) (m : Model) : Model :=
  mkModel (parameters m) b (output_size m).
Definition set_output_size (n : option nat) (m : Model) : Model :=
  mkModel (parameters m) (training m) n.
Definition set_parameters (ps : list vec) (m : Model) : Model :=
  mkModel ps (training m) (output_size m).

(** The body of the [for X, y in train_loader] loop of [fit]. *)
Definition fit_batch (N : nat) (batch : list input * list vec) : method PL unit :=
  lh <- read (fun self => _curv_closure self (fst batch) (snd batch) N) ;;
  lift_base (modify (fun b => Base.set_loss (loss b + fst lh) b)) ;;;
  self <- get ;;
  match H self with
  | Some h => modify (set_H (Some (H_iadd h (snd lh))))
  | None => raise (Raise TypeError "unsupported operand type(s) for +=")
  end.

Fixpoint fit_loop (N : nat) (bs : list (list input * list vec)) : method PL unit :=
  match bs with
  | [] => ret tt
  | b :: bs' => fit_batch N b ;;; fit_loop N bs'
  end.

(** [ParametricLaplace.fit]. *)
Definition fit (train_loader : DataLoader input) : method PL unit :=
  self <- get ;;
  match H self with
  | Some _ => raise (Raise ValueError "Already fit.")
  | None =>
      modify (fun self => set_H (Some (_init_H (base self))) self) ;;;
      lift_base (modify (fun b =>
        Base.set_model (set_training false (model b)) b)) ;;;
      match batches train_loader with
      | [] => raise (Raise StopIteration "")
      | (X, _) :: _ =>
          out <- read (fun self =>
                   forward (parameters (model (base self))) (firstn 1 X)) ;;
          let n_out := length (hd [] out) in
          lift_base (modify (Base.set_n_outputs (Some n_out))) ;;;
          lift_base (modify (fun b =>
            Base.set_model (set_output_size (Some n_out) (model b)) b)) ;;;
          let N := dataset_len train_loader in
          fit_loop N (batches train_loader) ;;;
          lift_base (modify (Base.set_n_data (Some N)))
      end
  end.

(** The [scatter] property. *)
Definition scatter (self : PL) : result R :=
  let delta := Torch.sub_broadcast (map_estimate (base self))
                 (_prior_mean (base self)) in
  ppd <-? Base.prior_precision_diag (base self) ;;
  Ok (Torch.dot (Torch.vmul delta ppd) delta).

(** The [log_det_prior_precision] property. *)
Definition log_det_prior_precision (self : PL) : result R :=
  ppd <-? Base.prior_precision_diag (base self) ;;
  Ok (Torch.sum (Torch.log ppd)).

(** The [log_det_ratio] property. *)
Definition log_det_ratio (self : PL) : result R :=
  post <-? log_det_posterior_precision self ;;
  prior <-? log_det_prior_precision self ;;
  Ok (post - prior).

(** [ParametricLaplace._log_marginal_likelihood]. *)
Definition _log_marginal_likelihood (self : PL) : result R :=
  ll <-? Base.log_likelihood (fun _ => _check_fit self) (base self) ;;
  ldr <-? log_det_ratio self ;;
  sc <-? scatter self ;;
  Ok (ll - 0.5 * (ldr + sc)).

(** [BaseLaplace.log_marginal_likelihood], on a parametric instance. *)
Definition log_marginal_likelihood (prior_precision sigma_noise
    : option py_value) : method PL R :=
  read _check_fit ;;;
  match prior_precision with
  | Some p => lift_base (Base.prior_precision_setter p)
  | None => ret tt
  end ;;;
  match sigma_noise with
  | Some s =>
      self <- get ;;
      if negb (likelihood (base self) =? "regression")%string
      then raise (Raise ValueError "Can only change sigma_noise for regression.")
      else lift_base (Base.sigma_noise_setter s)
  | None => ret tt
  end ;;;
  read _log_marginal_likelihood.

(** [ParametricLaplace._glm_predictive_distribution]. *)
Definition _glm_predictive_distribution (X : list input)
  : method PL (list vec * list matrix) :=
  Jf <- read (fun self => jacobians (model (base self)) X) ;;
  f_var <- functional_variance (fst Jf) ;;
  ret (snd Jf, f_var).

(** [vector_to_parameters(v, self.model.parameters())]: the parameter
    tensors are overwritten one after the other, so that a failure leaves
    the earlier ones overwritten. *)
Fixpoint write_parameters (v : vec) (ps : list vec) : list vec * result unit :=
  match ps with
  | [] => ([], Ok tt)
  | p :: ps' =>
      let n := length p in
      if (length v <? n)%nat
      then (p :: ps', Err (Raise RuntimeError "shape is invalid for input size"))
      else let (rest, r) := write_parameters (skipn n v) ps' in
           (firstn n v :: rest, r)
  end.

Definition vector_to_parameters_m (v : vec) : method PL unit :=
  fun self =>
    let (ps, r) := write_parameters v (parameters (model (base self))) in
    (mkPL (Base.set_model (set_parameters ps (model (base self))) (base self))
          (H self), r).

(** The [for sample in self.sample(n_samples)] loop of
    [_nn_predictive_samples]; [fs] is the list built so far. *)
Fixpoint nn_loop (X : list input) (samples : list vec) (fs : list matrix)
  : method PL (list matrix) :=
  match samples with
  | [] => ret fs
  | sample :: samples' =>
      vector_to_parameters_m sample ;;;
      out <- read (fun self => forward (parameters (model (base self))) X) ;;
      nn_loop X samples' (fs ++ [out])
  end.

(** [ParametricLaplace._nn_predictive_samples]. *)
Definition _nn_predictive_samples (X : list input) (n_samples : nat)
  : method PL (list matrix) :=
  samples <- sample n_samples ;;
  fs <- nn_loop X samples [] ;;
  self <- get ;;
  vector_to_parameters_m (map_estimate (base self)) ;;;
  match fs with
  | [] => raise (Raise RuntimeError "stack expects a non-empty TensorList")
  | _ =>
      if (likelihood (base self) =? "classification")%string
      then ret (map (map Torch.softmax) fs)
      else ret fs
  end.

(** [ParametricLaplace.__call__]. *)
Definition __call__ (x : list input) (pred_type link_approx : string)
    (n_samples : nat) : method PL prediction :=
  read _check_fit ;;;
  if negb (Base.str_in pred_type ["glm"; "nn"])
  then raise (Raise ValueError "Only glm and nn supported as prediction types.")
  else if (pred_type =? "glm")%string then
    mv <- _glm_predictive_distribution x ;;
    self <- get ;;
    if (likelihood (base self) =? "regression")%string
    then ret (Gaussian (fst mv) (snd mv))
    else p <- read (fun _ => _classification_predictive (fst mv) (snd mv)
                               link_approx n_samples) ;;
         ret (Categorical p)
  else
    samples <- _nn_predictive_samples x n_samples ;;
    self <- get ;;
    if (likelihood (base self) =? "regression")%string
    then ret (Moments (Torch.mean0 samples) (Torch.var0 samples))
    else ret (Categorical (Torch.mean0 samples)).

End Predictive.

(** ** The GGN curvature backend ([laplace/curvature.py]) *)

Module Curvature.
Section Curvature.

Variable input : Type.
(** [laplace.jacobians.Jacobians(model, X)]: the Jacobians of the outputs
    in the parameters, one matrix of [C] rows and [P] columns per input,
    and the outputs. *)
Variable Jacobians : Model -> list input
                     -> result (list (list vec) * list vec).
(** [MSELoss(reduction='sum')] and [CrossEntropyLoss(reduction='sum')]. *)
Variable MSELoss CrossEntropyLoss : list vec -> list vec -> R.

(** [self.lossfunc] and [self.factor], as [CurvatureInterface.__init__]
    sets them from the likelihood. *)
Definition lossfunc (likelihood : string) : list vec -> list vec -> R :=
  if (likelihood =? "regression")%string then MSELoss else CrossEntropyLoss.
Definition factor (likelihood : string) : R :=
  if (likelihood =? "regression")%string then 0.5 else 1.

(** The sum over the batch of [P x P] matrices; [P] is the last
    dimension of [Js]. *)
Definition sum_pq (Js : list (list vec)) (terms : list matrix) : matrix :=
  let P := length (hd [] (hd [] Js)) in
  fold_left Torch.madd terms (Torch.zeros2 P P).

(** [torch.einsum('mk,mc->mck', ps, ps)] on one row. *)
Definition outer (p q : vec) : matrix :=
  map (fun pc => map (fun qk => qk * pc) q) p.

(** [CurvatureInterface._get_full_ggn]. *)
Definition _get_full_ggn (likelihood : string) (Js : list (list vec))
    (f y : list vec) : R * matrix :=
  let loss := factor likelihood * lossfunc likelihood f y in
  if (likelihood =? "regression")%string then
    (loss,
     sum_pq Js (map (fun J => Torch.matmul (Torch.transpose J) J) Js))
  else
    let ps := map Torch.softmax f in
    let H_lik :=
      map (fun p => Torch.mzip_with Rminus (Torch.diag p) (outer p p)) ps in
    (loss,
     sum_pq Js
       (map (fun '(J, Hl) =>
               Torch.matmul (Torch.matmul (Torch.transpose J) Hl) J)
            (combine Js H_lik))).

(** [BackPackGGN.full]. *)
Definition full (stochastic : bool) (likelihood : string) (m : Model)
    (X : list input) (y : list vec) : result (R * matrix) :=
  if stochastic
  then Err (Raise ValueError
              "Stochastic approximation not implemented for full GGN.")
  else
    Jf <-? Jacobians m X ;;
    Ok (_get_full_ggn likelihood (fst Jf) (snd Jf) y).

End Curvature.
End Curvature.

(** ** FullLaplace *)

Module Full.
Section Full.

Variable input : Type.
(** [self.backend.full(X, y, N=N)], at the model's current parameters. *)
Variable backend_full : Model -> list input -> list vec -> nat
                        -> result (R * matrix).
Variable backend_jacobians : Model -> list input
                             -> result (list (list vec) * list vec).
(** [laplace.utils.invsqrt_precision]. *)
Variable invsqrt_precision : matrix -> result matrix.
(** [MultivariateNormal(loc, scale_tril=scale).sample((n_samples,))]. *)
Variable mvn_sample_tril : vec -> matrix -> nat -> list vec.

Notation "'FullLaplace'" := (ParametricLaplace matrix).

Definition _init_H (b : BaseLaplace) : matrix :=
  Torch.zeros2 (n_params b) (n_params b).

Definition _curv_closure (self : FullLaplace) (X : list input) (y : list vec)
    (N : nat) : result (R * matrix) :=
  backend_full (model (base self)) X y N.

(** The [posterior_precision] property. *)
Definition posterior_precision (self : FullLaplace) : result matrix :=
  match H self with
  | None => Err (Raise AttributeError
              "ParametricLaplace not fitted. Run fit() first.")
  | Some h =>
      let scaled := Torch.mscale (Base._H_factor (base self)) h in
      ppd <-? Base.prior_precision_diag (base self) ;;
      Ok (Torch.madd scaled (Torch.diag ppd))
  end.


Definition log_det_posterior_precision (self : FullLaplace) : result R :=
  P <-? posterior_precision self ;;
  Ok (Torch.logdet P).

(** The [posterior_scale] property, computed once and kept in
    [_posterior_scale]. *)
Definition posterior_scale : method FullLaplace matrix :=
  self <- get ;;
  match _posterior_scale (base self) with
  | Some scale => ret scale
  | None =>
      P <- read posterior_precision ;;
      scale <- read (fun _ => invsqrt_precision P) ;;
      lift_base (modify (Base.set_posterior_scale (Some scale))) ;;;
      ret scale
  end.

Definition posterior_covariance : method FullLaplace matrix :=
  scale <- posterior_scale ;;
  ret (Torch.matmul scale (Torch.transpose scale)).

(** [torch.einsum('ncp,pq,nkq->nck', Js, cov, Js)]. *)
Definition functional_variance (Js : list (list vec))
  : method FullLaplace (list matrix) :=
  cov <- posterior_covariance ;;
  ret (map (fun J => Torch.matmul (Torch.matmul J cov) (Torch.transpose J))
           Js).

Definition sample (n_samples : nat) : method FullLaplace (list vec) :=
  scale <- posterior_scale ;;
  self <- get ;;
  ret (mvn_sample_tril (map_estimate (base self)) scale n_samples).

(** FullLaplace as a subclass of ParametricLaplace. *)
Definition subclass : Subclass input matrix :=
  Build_Subclass _init_H _curv_closure Torch.madd
    log_det_posterior_precision functional_variance sample
    backend_jacobians.

End Full.
End Full.

(** ** DiagLaplace *)

Module Diag.
Section Diag.

Variable input : Type.
(** [self.backend.diag(X, y, N=N)]. *)
Variable backend_diag : Model -> list input -> list vec -> nat
                        -> result (R * vec).
Variable backend_jacobians : Model -> list input
                             -> result (list (list vec) * list vec).
(** [torch.randn(n_samples, n_params)]. *)
Variable randn : nat -> nat -> list vec.

Notation "'DiagLaplace'" := (ParametricLaplace vec).

Definition _init_H (b : BaseLaplace) : vec := Torch.zeros (n_params b).

Definition _curv_closure (self : DiagLaplace) (X : list input) (y : list vec)
    (N : nat) : result (R * vec) :=
  backend_diag (model (base self)) X y N.

(** The [posterior_precision] property. *)
Definition posterior_precision (self : DiagLaplace) : result vec :=
  match H self with
  | None => Err (Raise AttributeError
              "ParametricLaplace not fitted. Run fit() first.")
  | Some h =>
      let scaled := Torch.smul (Base._H_factor (base self)) h in
      ppd <-? Base.prior_precision_diag (base self) ;;
      Ok (Torch.vadd scaled ppd)
  end.

Definition posterior_scale (self : DiagLaplace) : result vec :=
  P <-? posterior_precision self ;;
  Ok (map (fun p => 1 / sqrt p) P).

Definition posterior_variance (self : DiagLaplace) : result vec :=
  P <-? posterior_precision self ;;
  Ok (map (fun p => 1 / p) P).

Definition log_det_posterior_precision (self : DiagLaplace) : result R :=
  P <-? posterior_precision self ;;
  Ok (Torch.sum (Torch.log P)).

(** [BaseLaplace._check_jacobians], for a tensor on the right device. *)
Definition _check_jacobians (self : DiagLaplace) (Js : list (list vec))
  : result unit :=
  if negb (length (hd [] (hd [] Js)) =? n_params (base self))%nat
  then Err (Raise ValueError
         "Invalid Jacobians shape for Laplace posterior approx.")
  else Ok tt.

(** [torch.einsum('ncp,p,nkp->nck', Js, var, Js)]. *)
Definition functional_variance (Js : list (list vec))
  : method DiagLaplace (list matrix) :=
  read (fun self => _check_jacobians self Js) ;;;
  var <- read posterior_variance ;;
  ret (map (fun J =>
              map (fun Jc => map (fun Jk => Torch.dot (Torch.vmul Jc var) Jk) J)
                  J) Js).

Definition sample (n_samples : nat) : method DiagLaplace (list vec) :=
  scale <- read posterior_scale ;;
  self <- get ;;
  ret (map (fun z => Torch.vadd (map_estimate (base self)) (Torch.vmul z scale))
           (randn n_samples (n_params (base self)))).

(** DiagLaplace as a subclass of ParametricLaplace. *)
Definition subclass : Subclass input vec :=
  Build_Subclass _init_H _curv_closure Torch.vadd
    log_det_posterior_precision functional_variance sample
    backend_jacobians.

End Diag.
End Diag.

(** ** KronLaplace: [fit]

    [laplace.matrix] provides the Kronecker factors, their sum and their
    decomposition; [Hty] stands for both [Kron] and [KronDecomposed]. *)
Record KronLaplace (Hty : Type) : Type := mkKron {
  parametric : ParametricLaplace Hty;
  damping : bool;
  H_facs : option Hty
}.

Section KronFit.

Variable input Hty : Type.
Context {cls : Subclass input Hty}.
Variable forward : list vec -> list input -> result (list vec).
(** [H.decompose(damping=...)]. *)
Variable decompose : bool -> Hty -> Hty.

Definition lift_parametric {A} (m : method (ParametricLaplace Hty) A)
  : method (KronLaplace Hty) A :=
  fun self => let (p, r) := m (parametric self) in
              (mkKron p (damping self) (H_facs self), r).

(** [KronLaplace.fit]. *)
Definition Kron_fit (train_loader : DataLoader input) (keep_factors : bool)
  : method (KronLaplace Hty) unit :=
  lift_parametric (fit forward train_loader) ;;;
  (if keep_factors
   then modify (fun self =>
          mkKron (parametric self) (damping self) (H (parametric self)))
   else ret tt) ;;;
  self <- get ;;
  match H (parametric self) with
  | Some h =>
      modify (fun self =>
        mkKron (set_H (Some (decompose (damping self) h)) (parametric self))
               (damping self) (H_facs self))
  | None => raise (Raise AttributeError "NoneType has no attribute decompose")
  end.

End KronFit.

(** ** FunctionalLaplace *)

Module Functional.

(** [K_MM] and [Sigma_inv]: one matrix of size [M*C], or [C] matrices of
    size [M] when [diagonal_kernel] is set. *)
Inductive kernel : Type :=
| Dense (K : matrix)
| PerChannel (Ks : list matrix).

(** What [_kernel_batch] returns: a matrix, or with [diagonal_kernel] a
    tensor indexed by two batch positions and the output channel. *)
Inductive kernel_batch : Type :=
| BatchDense (K : matrix)
| BatchPerChannel (K : list (list vec)).

Record FunctionalLaplace (input : Type) : Type := mkFL {
  fbase : BaseLaplace;
  M : option nat;
  diagonal_kernel : bool;
  diagonal_L : bool;
  K_MM : option kernel;
  Sigma_inv : option kernel;
  train_loader : option (DataLoader input);
  batch_size : option nat;
  prior_factor_sod : option R;
  mu : option (list vec)
}.

Section Functional.

Variable input : Type.
(** [self.model(X)] with the parameters [theta]. *)
Variable forward : list vec -> list input -> result (list vec).
(** [self.backend.gp_quantities(X, y, H_factor)]: loss, Jacobians, outputs
    and the per-point curvature blocks of the likelihood. *)
Variable gp_quantities : Model -> list input -> list vec -> R
  -> result (R * list (list vec) * list vec * list matrix).
(** [self.backend.jacobians(self.model, X)]. *)
Variable backend_jacobians : Model -> list input
                             -> result (list (list vec) * list vec).
(** [torch.linalg.cholesky], [torch.inverse] and
    [torch.linalg.solve(A, B)] on a matrix [B]. *)
Variable cholesky : matrix -> result matrix.
Variable inverse : matrix -> result matrix.
Variable solve : matrix -> matrix -> result matrix.
(** [torch.distributions], as the classification predictive uses it. *)
Variable mvn_sample : list vec -> list matrix -> nat -> list matrix.
Variable Dirichlet_mean : list vec -> result (list vec).
(** [_get_SoD_data_loader]: the loader over the [M] points that
    [laplace.utils.SoDSampler] selects. *)
Variable SoD_data_loader : nat -> DataLoader input -> DataLoader input.

Notation "'FL'" := (FunctionalLaplace input).

Definition lift_fbase {A} (m : method BaseLaplace A) : method FL A :=
  fun self =>
    let (b, r) := m (fbase self) in
    (mkFL b (M self) (diagonal_kernel self) (diagonal_L self) (K_MM self)
       (Sigma_inv self) (train_loader self) (batch_size self)
       (prior_factor_sod self) (mu self), r).

Definition set_M (x : option nat) (s : FL) : FL :=
  mkFL (fbase s) x (diagonal_kernel s) (diagonal_L s) (K_MM s) (Sigma_inv s)
    (train_loader s) (batch_size s) (prior_factor_sod s) (mu s).
Definition set_K_MM (x : option kernel) (s : FL) : FL :=
  mkFL (fbase s) (M s) (diagonal_kernel s) (diagonal_L s) x (Sigma_inv s)
    (train_loader s) (batch_size s) (prior_factor_sod s) (mu s).
Definition set_Sigma_inv (x : option kernel) (s : FL) : FL :=
  mkFL (fbase s) (M s) (diagonal_kernel s) (diagonal_L s) (K_MM s) x
    (train_loader s) (batch_size s) (prior_factor_sod s) (mu s).
Definition set_train_loader (x : option (DataLoader input)) (s : FL) : FL :=
  mkFL (fbase s) (M s) (diagonal_kernel s) (diagonal_L s) (K_MM s)
    (Sigma_inv s) x (batch_size s) (prior_factor_sod s) (mu s).
Definition set_batch_size (x : option nat) (s : FL) : FL :=
  mkFL (fbase s) (M s) (diagonal_kernel s) (diagonal_L s) (K_MM s)
    (Sigma_inv s) (train_loader s) x (prior_factor_sod s) (mu s).
Definition set_prior_factor_sod (x : option R) (s : FL) : FL :=
  mkFL (fbase s) (M s) (diagonal_kernel s) (diagonal_L s) (K_MM s)
    (Sigma_inv s) (train_loader s) (batch_size s) x (mu s).
Definition set_mu (x : option (list vec)) (s : FL) : FL :=
  mkFL (fbase s) (M s) (diagonal_kernel s) (diagonal_L s) (K_MM s)
    (Sigma_inv s) (train_loader s) (batch_size s) (prior_factor_sod s) x.

(** The [TypeError] of an operation on [None], or on a kernel that has
    not the layout of [diagonal_kernel]; [_init_K_MM], [_init_Sigma_inv]
    and [fit] give the kernels that layout. *)
Definition none_error {A} : result A :=
  Err (Raise TypeError "unsupported operand type(s): NoneType").

(** What Python raises on an attribute that still holds [None]:
    [None.shape], [None[c]] and [range(None)]. *)
Definition no_attribute {A} (name : string) : result A :=
  Err (Raise AttributeError
         ("'NoneType' object has no attribute '" ++ name ++ "'")).
Definition not_subscriptable {A} : result A :=
  Err (Raise TypeError "'NoneType' object is not subscriptable").
Definition not_an_integer {A} : result A :=
  Err (Raise TypeError
         "'NoneType' object cannot be interpreted as an integer").

(** [self.K_MM[c]] and [self.Sigma_inv[c]] on an instance with
    [diagonal_kernel], whose kernels are lists of [n_outputs] matrices. *)
Definition kernel_channel (K : option kernel) (c : nat) : result matrix :=
  match K with
  | None => not_subscriptable
  | Some (PerChannel Ks) =>
      match nth_error Ks c with
      | Some Kc => Ok Kc
      | None => Err (Raise IndexError "list index out of range")
      end
  | Some (Dense _) => none_error
  end.

(** [FunctionalLaplace.__init__], with the one backend it accepts. *)
Definition __init__ (m : Model) (likelihood : string) (M : option nat)
    (sigma_noise prior_precision prior_mean : py_value) (temperature : R)
    (diagonal_kernel diagonal_L : bool) : result FL :=
  b <-? Base.__init__ m likelihood sigma_noise prior_precision prior_mean
          temperature ;;
  if negb diagonal_kernel && (likelihood =? "classification")%string
     && negb diagonal_L
  then Err (Raise AssertionError
    "GP inference without independence for classification necessitates diagonal approximation of L!")
  else Ok (mkFL b M diagonal_kernel diagonal_L None None None None None None).

(** [FunctionalLaplace._check_fit]. *)
Definition _check_fit (self : FL) : result unit :=
  match K_MM self, Sigma_inv self, train_loader self with
  | Some _, Some _, Some _ => Ok tt
  | _, _, _ => Err (Raise AttributeError "Laplace not fitted. Run fit() first.")
  end.

Definition _init_K_MM : method FL unit :=
  self <- get ;;
  match M self, n_outputs (fbase self) with
  | Some m, Some c =>
      if diagonal_kernel self
      then modify (set_K_MM (Some (PerChannel (repeat (Torch.zeros2 m m) c))))
      else modify (set_K_MM (Some (Dense (Torch.zeros2 (m * c) (m * c)))))
  | _, _ => read (fun _ => none_error)
  end.

Definition _init_Sigma_inv : method FL unit :=
  self <- get ;;
  match M self, n_outputs (fbase self) with
  | Some m, Some c =>
      if diagonal_kernel self
      then modify (set_Sigma_inv
                     (Some (PerChannel (repeat (Torch.zeros2 m m) c))))
      else modify (set_Sigma_inv (Some (Dense (Torch.zeros2 (m * c) (m * c)))))
  | _, _ => read (fun _ => none_error)
  end.

Definition _curv_closure (self : FL) (X : list input) (y : list vec)
  : result (R * list (list vec) * list vec * list matrix) :=
  gp_quantities (model (fbase self)) X y (Base._H_factor (fbase self)).

Definition _jacobians (self : FL) (X : list input)
  : result (list (list vec) * list vec) :=
  backend_jacobians (model (fbase self)) X.

(** [_kernel_batch], for the BackPack backend. *)
Definition _kernel_batch (jacobians : list (list vec)) (batch : list input)
    (self : FL) : result kernel_batch :=
  Jf <-? _jacobians self batch ;;
  let jacobians_2 := fst Jf in
  ppd <-? Base.prior_precision_diag (fbase self) ;;
  match prior_factor_sod self with
  | None => none_error
  | Some pfs =>
      let prior := Torch.sdiv pfs ppd in
      if diagonal_kernel self then
        Ok (BatchPerChannel
              (map (fun Jb =>
                      map (fun Je =>
                             map (fun '(r, r2) =>
                                    Torch.dot r (Torch.vmul r2 prior))
                                 (combine Jb Je))
                          jacobians_2)
                   jacobians))
      else
        Ok (BatchDense
              (map (fun a =>
                      map (fun b =>
                             Torch.sum (Torch.vmul (Torch.vmul a prior) b))
                          (concat jacobians_2))
                   (concat jacobians)))
  end.

(** [K[:, :, c]]. *)
Definition channel (c : nat) (K : list (list vec)) : matrix :=
  map (map (fun v => nth c v 0)) K.

(** The loop body [for c in range(self.n_outputs)] of [_store_K_batch]. *)
Definition store_channel (K_batch : list (list vec)) (i j b m : nat)
    (c : nat) (Kc : matrix) : matrix :=
  let Kc' := Torch.set_block Kc (i * b) (Nat.min ((i + 1) * b) m)
               (j * b) (Nat.min ((j + 1) * b) m) (channel c K_batch) in
  if negb (i =? j)%nat
  then Torch.set_block Kc' (j * b) (Nat.min ((j + 1) * b) m)
         (i * b) (Nat.min ((i + 1) * b) m)
         (Torch.transpose (channel c K_batch))
  else Kc'.

(** [_store_K_batch]. *)
Definition _store_K_batch (K_batch : kernel_batch) (i j : nat)
  : method FL unit :=
  self <- get ;;
  match batch_size self, M self, n_outputs (fbase self), K_MM self with
  | Some b, Some m, Some C, Some K =>
      if diagonal_kernel self then
        match K, K_batch with
        | PerChannel Ks, BatchPerChannel Kb =>
            modify (set_K_MM (Some (PerChannel
              (map (fun '(c, Kc) => store_channel Kb i j b m c Kc)
                   (combine (seq 0 C) Ks)
               ++ skipn C Ks))))
        | _, _ => read (fun _ => none_error)
        end
      else
        match K, K_batch with
        | Dense K, BatchDense Kb =>
            let bC := (b * C)%nat in
            let MC := (m * C)%nat in
            let K' := Torch.set_block K (i * bC) (Nat.min ((i + 1) * bC) MC)
                        (j * bC) (Nat.min ((j + 1) * bC) MC) Kb in
            let K'' :=
              if negb (i =? j)%nat
              then Torch.set_block K' (j * bC) (Nat.min ((j + 1) * bC) MC)
                     (i * bC) (Nat.min ((i + 1) * bC) MC) (Torch.transpose Kb)
              else K' in
            modify (set_K_MM (Some (Dense K'')))
        | _, _ => read (fun _ => none_error)
        end
  | _, _, _, _ => read (fun _ => none_error)
  end.

(** [torch.diagonal(torch.cat(lambdas, dim=0), dim1=-2, dim2=-1).reshape(-1)];
    [torch.cat] rejects an empty list. *)
Definition lambdas_diag (lambdas : list (list matrix)) : result vec :=
  match lambdas with
  | [] => Err (Raise RuntimeError "torch.cat(): expected a non-empty list")
  | _ => Ok (concat (map Torch.diagonal (concat lambdas)))
  end.

(** [_build_L_inv]. *)
Definition _build_L_inv (lambdas : list (list matrix)) (self : FL)
  : result kernel :=
  if diagonal_kernel self then
    if diagonal_L self || (likelihood (fbase self) =? "regression")%string
    then
      L_diag <-? lambdas_diag lambdas ;;
      match n_outputs (fbase self) with
      | Some C =>
          Ok (PerChannel
                (map (fun i => Torch.diag
                                 (Torch.sdiv 1 (Torch.strided i C L_diag)))
                     (seq 0 C)))
      | None => none_error
      end
    else Err (Raise NotImplementedError "")
  else
    d <-? lambdas_diag lambdas ;;
    Ok (Dense (Torch.diag (Torch.sdiv 1 d))).

(** [[torch.linalg.cholesky(K + L) for ...]], stopping at the first
    failure. *)
Fixpoint cholesky_all (KL : list (matrix * matrix)) : result (list matrix) :=
  match KL with
  | [] => Ok []
  | (K, L) :: KL' =>
      S <-? cholesky (Torch.madd K L) ;;
      rest <-? cholesky_all KL' ;;
      Ok (S :: rest)
  end.

(** [_build_Sigma_inv]. *)
Definition _build_Sigma_inv (lambdas : list (list matrix)) (self : FL)
  : result kernel :=
  if diagonal_kernel self then
    L <-? _build_L_inv lambdas self ;;
    match K_MM self, L, n_outputs (fbase self) with
    | Some (PerChannel Ks), PerChannel Ls, Some C =>
        S <-? cholesky_all (firstn C (combine Ks Ls)) ;;
        Ok (PerChannel S)
    | _, _, _ => none_error
    end
  else
    match K_MM self with
    | Some (Dense K) =>
        L <-? _build_L_inv lambdas self ;;
        match L with
        | Dense L => S <-? cholesky (Torch.madd K L) ;; Ok (Dense S)
        | _ => none_error
        end
    | _ => none_error
    end.

Definition batch : Type := (list input * list vec)%type.

(** The inner loop [for j, batch_2 in enumerate(train_loader)] of [fit];
    [bs] are the batches from position [j] on. *)
Fixpoint fit_inner (Js_batch : list (list vec)) (i j : nat) (bs : list batch)
  : method FL unit :=
  match bs with
  | [] => ret tt
  | (X2, _) :: bs' =>
      (if (i <=? j)%nat
       then K_batch <- read (_kernel_batch Js_batch X2) ;;
            _store_K_batch K_batch i j
       else ret tt) ;;;
      fit_inner Js_batch i (S j) bs'
  end.

(** The lists [f], [lambdas] and [mu] that [fit] builds. *)
Record fit_locals : Type := mkLocals {
  f_list : list (list vec);
  lambdas_list : list (list matrix);
  mu_list : list (list vec)
}.

(** The outer loop [for i, batch in enumerate(train_loader)] of [fit];
    [all] are the batches of the loader, [bs] those from position [i] on. *)
Fixpoint fit_outer (all : list batch) (diff_mu : vec) (i : nat)
    (bs : list batch) (acc : fit_locals) : method FL fit_locals :=
  match bs with
  | [] => ret acc
  | (X, y) :: bs' =>
      q <- read (fun self => _curv_closure self X y) ;;
      let '(loss_batch, Js_batch, f_batch, lambdas_batch) := q in
      lift_fbase (modify (fun b => Base.set_loss (loss b + loss_batch) b)) ;;;
      self <- get ;;
      let mu' :=
        if (likelihood (fbase self) =? "regression")%string
        then
          let Jd := map (map (fun r => Torch.dot r diff_mu)) Js_batch in
          mu_list acc
          ++ [Torch.mzip_with Rminus y (Torch.madd f_batch Jd)]
        else mu_list acc in
      fit_inner Js_batch i 0 all ;;;
      fit_outer all diff_mu (S i) bs'
        (mkLocals (f_list acc ++ [f_batch])
                  (lambdas_list acc ++ [lambdas_batch]) mu')
  end.

(** [FunctionalLaplace.fit]. *)
Definition fit (train_loader : DataLoader input) : method FL unit :=
  match batches train_loader with
  | [] => raise (Raise StopIteration "")
  | (X, _) :: _ =>
      out <- read (fun self =>
               forward (parameters (model (fbase self))) (firstn 1 X)) ;;
      let n_out := length (hd [] out) in
      lift_fbase (modify (Base.set_n_outputs (Some n_out))) ;;;
      lift_fbase (modify (fun b =>
        Base.set_model (set_output_size (Some n_out) (model b)) b)) ;;;
      modify (set_batch_size (Some (Data.batch_size train_loader))) ;;;
      lift_fbase (modify (fun b =>
        Base.set_model (set_training false (model b)) b)) ;;;
      let N := dataset_len train_loader in
      lift_fbase (modify (Base.set_n_data (Some N))) ;;;
      modify (fun self => match M self with
                          | None => set_M (Some N) self
                          | Some _ => self
                          end) ;;;
      self <- get ;;
      match M self with
      | None => read (fun _ => none_error)
      | Some m =>
          let sod := SoD_data_loader m train_loader in
          modify (set_train_loader (Some sod)) ;;;
          (if (N =? 0)%nat
           then raise (Raise ZeroDivisionError "division by zero")
           else modify (set_prior_factor_sod (Some (INR m / INR N)))) ;;;
          _init_K_MM ;;;
          _init_Sigma_inv ;;;
          self <- get ;;
          let diff_mu := Torch.sub_broadcast (_prior_mean (fbase self))
                           (map_estimate (fbase self)) in
          acc <- fit_outer (batches sod) diff_mu 0 (batches sod)
                   (mkLocals [] [] []) ;;
          S <- read (_build_Sigma_inv (lambdas_list acc)) ;;
          modify (set_Sigma_inv (Some S)) ;;;
          self <- get ;;
          if (likelihood (fbase self) =? "regression")%string
          then match mu_list acc with
               | [] => raise (Raise RuntimeError
                         "torch.cat(): expected a non-empty list")
               | _ => modify (set_mu (Some (concat (mu_list acc))))
               end
          else ret tt
      end
  end.

(** [K + torch.eye(n) * sigma_noise.square()]. *)
Definition add_noise (K : matrix) (self : FL) : matrix :=
  Torch.madd K
    (map (map (fun x => x * Rsqr (_sigma_noise (fbase self))))
         (Torch.eye (length K))).

(** What [_kernel_star] and [_build_K_star_M] return: one [C x C] matrix
    per test point, or with [diagonal_kernel] one value per test point
    and output channel. *)
Inductive kernel_star : Type :=
| StarDense (K : list matrix)
| StarPerChannel (K : list vec).

(** What [_kernel_batch_star] returns: a tensor indexed by the test point,
    the training point and the two outputs, or with [diagonal_kernel] by
    the test point, the training point and the output channel. *)
Inductive kernel_batch_star : Type :=
| BatchStarDense (K : list (list matrix))
| BatchStarPerChannel (K : list (list vec)).

(** [_kernel_star], for the BackPack backend. *)
Definition _kernel_star (jacobians : list (list vec)) (batch : list input)
    (self : FL) : result kernel_star :=
  Jf <-? _jacobians self batch ;;
  let jacobians_2 := fst Jf in
  ppd <-? Base.prior_precision_diag (fbase self) ;;
  match prior_factor_sod self with
  | None => none_error
  | Some pfs =>
      let prior := Torch.sdiv pfs ppd in
      if diagonal_kernel self then
        (* einsum('bcp,bcp->bc', jacobians, jacobians_2 * prior) *)
        Ok (StarPerChannel
              (map (fun '(Jb, Jb2) =>
                      map (fun '(r, r2) => Torch.dot r (Torch.vmul r2 prior))
                          (combine Jb Jb2))
                   (combine jacobians jacobians_2)))
      else
        (* einsum('bcp,p,bep->bce', jacobians, prior, jacobians_2) *)
        Ok (StarDense
              (map (fun '(Jb, Jb2) =>
                      map (fun r =>
                             map (fun r2 =>
                                    Torch.sum
                                      (Torch.vmul (Torch.vmul r prior) r2))
                                 Jb2)
                          Jb)
                   (combine jacobians jacobians_2)))
  end.

(** [_kernel_batch_star], for the BackPack backend: [jacobians] are those
    of the test points, [batch] holds training points. *)
Definition _kernel_batch_star (jacobians : list (list vec))
    (batch : list input) (self : FL) : result kernel_batch_star :=
  Jf <-? _jacobians self batch ;;
  let jacobians_2 := fst Jf in
  ppd <-? Base.prior_precision_diag (fbase self) ;;
  match prior_factor_sod self with
  | None => none_error
  | Some pfs =>
      let prior := Torch.sdiv pfs ppd in
      if diagonal_kernel self then
        (* einsum('bcp,ecp->bec', jacobians, jacobians_2 * prior) *)
        Ok (BatchStarPerChannel
              (map (fun Jb =>
                      map (fun Je =>
                             map (fun '(r, r2) =>
                                    Torch.dot r (Torch.vmul r2 prior))
                                 (combine Jb Je))
                          jacobians_2)
                   jacobians))
      else
        (* einsum('bcp,p,dep->bdce', jacobians, prior, jacobians_2) *)
        Ok (BatchStarDense
              (map (fun Jb =>
                      map (fun Jd =>
                             map (fun r =>
                                    map (fun r2 =>
                                           Torch.sum
                                             (Torch.vmul
                                                (Torch.vmul r prior) r2))
                                        Jd)
                                 Jb)
                          jacobians_2)
                   jacobians))
  end.

(** [torch.cat(K_M_star, dim=1)]: for each test point, the entries of the
    batches one after the other; [torch.cat] rejects an empty list. *)
Definition cat1 {A} (Ks : list (list (list A))) : result (list (list A)) :=
  match Ks with
  | [] => Err (Raise RuntimeError "torch.cat(): expected a non-empty list")
  | K0 :: _ =>
      Ok (map (fun b => concat (map (fun K => nth b K []) Ks))
              (seq 0 (length K0)))
  end.

Fixpoint dense_batches (Ks : list kernel_batch_star)
  : result (list (list (list matrix))) :=
  match Ks with
  | [] => Ok []
  | BatchStarDense K :: Ks' =>
      rest <-? dense_batches Ks' ;; Ok (K :: rest)
  | BatchStarPerChannel _ :: _ => none_error
  end.

Fixpoint per_channel_batches (Ks : list kernel_batch_star)
  : result (list (list (list vec))) :=
  match Ks with
  | [] => Ok []
  | BatchStarPerChannel K :: Ks' =>
      rest <-? per_channel_batches Ks' ;; Ok (K :: rest)
  | BatchStarDense _ :: _ => none_error
  end.

(** A list of outcomes in order, up to the first exception. *)
Fixpoint sequence {A} (rs : list (result A)) : result (list A) :=
  match rs with
  | [] => Ok []
  | r :: rs' => a <-? r ;; rest <-? sequence rs' ;; Ok (a :: rest)
  end.

(** The loop [for c in range(self.n_outputs)] of [_build_K_star_M]:
    [prods] holds one vector over the test points per channel. *)
Fixpoint K_star_M_channels (self : FL) (K_M_star : list (list vec))
    (cs : list nat) (prods : list vec) : result (list vec) :=
  match cs with
  | [] => Ok prods
  | c :: cs' =>
      S <-? kernel_channel (Sigma_inv self) c ;;
      v <-? sequence
              (map (fun Kb => solve S (map (fun row => [nth c row 0]) Kb))
                   K_M_star) ;;
      let v := map (map (fun row => hd 0 row)) v in
      let prod := map (fun vb => Torch.dot vb vb) v in
      K_star_M_channels self K_M_star cs' (prods ++ [prod])
  end.

(** [_build_K_star_M].  Without [diagonal_kernel] the tensor of shape
    [(N_test, M, C, C)] is reshaped to [(N_test, M*C, C)]: for each test
    point the [C x C] blocks of the training points are stacked, rows
    first. *)
Definition _build_K_star_M (K_M_star : list kernel_batch_star) (self : FL)
  : result kernel_star :=
  if diagonal_kernel self then
    Ks <-? per_channel_batches K_M_star ;;
    K <-? cat1 Ks ;;
    match n_outputs (fbase self) with
    | None => not_an_integer
    | Some C =>
        prods <-? K_star_M_channels self K (seq 0 C) [] ;;
        match prods with
        | [] => Err (Raise RuntimeError
                       "torch.cat(): expected a non-empty list")
        | p0 :: _ =>
            (* torch.cat(prods, dim=1) *)
            Ok (StarPerChannel
                  (map (fun b => map (fun p => nth b p 0) prods)
                       (seq 0 (length p0))))
        end
    end
  else
    Ks <-? dense_batches K_M_star ;;
    K <-? cat1 Ks ;;
    let K := map (@concat vec) K in
    match Sigma_inv self with
    | Some (Dense Sigma) =>
        v <-? sequence (map (solve Sigma) K) ;;
        (* einsum('bcm,bcn->bmn', v, v) *)
        Ok (StarDense
              (map (fun vb => Torch.matmul (Torch.transpose vb) vb) v))
    | _ => none_error
    end.

(** [K_star - self._build_K_star_M(K_M_star)]. *)
Definition kernel_star_sub (a b : kernel_star) : result kernel_star :=
  match a, b with
  | StarDense A, StarDense B =>
      Ok (StarDense
            (map (fun '(x, y) => Torch.mzip_with Rminus x y) (combine A B)))
  | StarPerChannel A, StarPerChannel B =>
      Ok (StarPerChannel (Torch.mzip_with Rminus A B))
  | _, _ => none_error
  end.

(** [_gp_posterior_variance]. *)
Definition _gp_posterior_variance (Js_star : list (list vec))
    (X_star : list input) (self : FL) : result kernel_star :=
  _ <-? _check_fit self ;;
  K_star <-? _kernel_star Js_star X_star self ;;
  match train_loader self with
  | None => none_error
  | Some loader =>
      K_M_star <-? sequence
                     (map (fun b => _kernel_batch_star Js_star (fst b) self)
                          (batches loader)) ;;
      K_star_M <-? _build_K_star_M K_M_star self ;;
      kernel_star_sub K_star K_star_M
  end.

(** [gp_posterior]; [torch.diag_embed] turns the per-channel variances
    into diagonal matrices. *)
Definition gp_posterior (X_star : list input) (self : FL)
  : result (list vec * list matrix) :=
  Jf <-? _jacobians self X_star ;;
  f_var <-? _gp_posterior_variance (fst Jf) X_star self ;;
  match f_var with
  | StarPerChannel V =>
      if diagonal_kernel self
      then Ok (snd Jf, map Torch.diag V)
      else none_error
  | StarDense V =>
      if diagonal_kernel self then none_error else Ok (snd Jf, V)
  end.

(** [FunctionalLaplace.__call__]. *)
Definition __call__ (x : list input) (pred_type link_approx : string)
    (n_samples : nat) (self : FL) : result prediction :=
  if negb (Base.str_in pred_type ["gp"])
  then Err (Raise ValueError "Only gp supported as prediction type.")
  else
    _ <-? _check_fit self ;;
    mv <-? gp_posterior x self ;;
    if (likelihood (fbase self) =? "regression")%string
    then Ok (Gaussian (fst mv) (snd mv))
    else
      p <-? _classification_predictive mvn_sample Dirichlet_mean
              (fst mv) (snd mv) link_approx n_samples ;;
      Ok (Categorical p).

(** The loop of [log_det_K] over the output channels. *)
Fixpoint log_det_channels (self : FL) (cs : list nat) (log_det : R)
  : result R :=
  match cs with
  | [] => Ok log_det
  | c :: cs' =>
      Kc <-? kernel_channel (K_MM self) c ;;
      log_det_channels self cs'
        (log_det + Torch.logdet (add_noise Kc self))
  end.

(** The [log_det_K] property. *)
Definition log_det_K (self : FL) : result R :=
  if diagonal_kernel self then
    match n_outputs (fbase self) with
    | None => not_an_integer
    | Some C => log_det_channels self (seq 0 C) 0
    end
  else
    match K_MM self with
    | None => no_attribute "shape"
    | Some (Dense K) => Ok (Torch.logdet (add_noise K self))
    | Some (PerChannel _) => none_error
    end.

(** The loop of [scatter_lml] over the output channels. *)
Fixpoint scatter_channels (self : FL) (cs : list nat) (scatter : R)
  : result R :=
  match cs with
  | [] => Ok scatter
  | c :: cs' =>
      Kc <-? kernel_channel (K_MM self) c ;;
      K_inv <-? inverse (add_noise Kc self) ;;
      match mu self with
      | None => not_subscriptable
      | Some mu =>
          let mu_c := map (fun row => nth c row 0) mu in
          scatter_channels self cs'
            (scatter + Torch.dot mu_c (Torch.matvec K_inv mu_c))
      end
  end.

(** The [scatter_lml] property. *)
Definition scatter_lml (self : FL) : result R :=
  if diagonal_kernel self then
    match n_outputs (fbase self) with
    | None => not_an_integer
    | Some C => scatter_channels self (seq 0 C) 0
    end
  else
    match K_MM self with
    | None => no_attribute "shape"
    | Some (Dense K) =>
        K_inv <-? inverse (add_noise K self) ;;
        match mu self with
        | None => no_attribute "reshape"
        | Some mu =>
            Ok (Torch.dot (concat mu) (Torch.matvec K_inv (concat mu)))
        end
    | Some (PerChannel _) => none_error
    end.

(** [FunctionalLaplace._log_marginal_likelihood]; the likelihood is one of
    the two that [__init__] admits. *)
Definition _log_marginal_likelihood : method FL R :=
  self <- get ;;
  match train_loader self with
  | None => read (fun _ => none_error)
  | Some l => fit l
  end ;;;
  self <- get ;;
  if (likelihood (fbase self) =? "classification")%string
  then raise (Raise NotImplementedError "")
  else
    ld <- read log_det_K ;;
    sc <- read scatter_lml ;;
    match M self, n_outputs (fbase self) with
    | Some m, Some C =>
        ret (- 0.5 * (ld + sc + INR (m * C) * ln (2 * PI)))
    | _, _ => read (fun _ => none_error)
    end.

End Functional.
End Functional.

(** * Invariants, specification-level notions and examples *)

(** [n_layers] and [n_params] are what [__init__] computed from the model,
    whose parameter tensors keep their shapes. *)
Definition wf (self : BaseLaplace) : Prop :=
  n_layers self = length (parameters (model self))
  /\ n_params self = length (parameters_to_vector (parameters (model self))).

(** No parameter tensor of the model is empty. *)
Definition nonempty_layers (self : BaseLaplace) : Prop :=
  Forall (fun n => (1 <= n)%nat) (parameters_per_layer (model self)).

(** The length of the stored prior precision is one the setter accepts. *)
Definition prior_ok (self : BaseLaplace) : Prop :=
  In (length (_prior_precision self)) [1%nat; n_layers self; n_params self].

(** The MAP estimate holds one entry per parameter and the prior mean is a
    scalar or holds one entry per parameter, as [__init__] and the
    [prior_mean] setter leave them. *)
Definition shapes_ok (self : BaseLaplace) : Prop :=
  length (map_estimate self) = n_params self
  /\ In (length (_prior_mean self)) [1%nat; n_params self].

(** The expansion of a per-layer prior, in the words of the specification:
    each layer's value repeated over the layer's parameter count. *)
Definition per_layer_spec (v : vec) (sizes : list nat) : vec :=
  concat (map (fun '(p, n) => repeat p n) (combine v sizes)).

(** The outcome of the assignment [self.prior_precision = v] together with
    what [prior_precision_diag] then returns. *)
Definition set_then_expand (v : py_value) (self : BaseLaplace)
  : result unit * result vec :=
  let (self', out) := Base.prior_precision_setter v self in
  (out, Base.prior_precision_diag self').

(** The quadratic form [x^T A x]: the scatter in the words of the
    specification is the quadratic form of [diag(prior_precision_diag)]. *)
Definition quadratic_form (x : vec) (A : matrix) : R :=
  Torch.dot x (Torch.matvec A x).

(** An instance counts as fitted once its curvature [H] is set; this is
    what [_check_fit] and the guard of [fit] test. *)
Definition fitted {Hty : Type} (self : ParametricLaplace Hty) : Prop :=
  H self <> None.

(** An instance on a model with two parameter tensors of two and one
    elements, used to exercise the statements below. *)
Definition example_model : Model := mkModel [[1; 2]; [3]] true None.

Definition example_base (likelihood : string) : BaseLaplace :=
  mkBase example_model 3 2 likelihood [1] [0] 1 1 0 None None [1; 2; 3] None.

(** A fitted FullLaplace on the example model whose curvature is still the
    zero matrix of [_init_H]. *)
Definition example_full : ParametricLaplace matrix :=
  mkPL (example_base "regression") (Some (Torch.zeros2 3 3)).


(** A loader with one batch of one point, a forward pass with one output,
    a forward pass that fails, and a DiagLaplace on the example model. *)
Definition example_loader : DataLoader unit := mkLoader [([tt], [[0]])] 1 1.

Definition example_forward (theta : list vec) (X : list unit)
  : result (list vec) :=
  Ok (map (fun _ => [0]) X).

Definition failing_forward (theta : list vec) (X : list unit)
  : result (list vec) :=
  Err (Raise RuntimeError "CUDA error: out of memory").

Definition example_jacobians (m : Model) (X : list unit)
  : result (list (list vec) * list vec) :=
  Ok (map (fun _ => [[1; 1; 1]]) X, map (fun _ => [0]) X).

Definition example_cls : Subclass unit vec :=
  Diag.subclass (fun _ _ _ _ => Ok (1, [1; 1; 1])) example_jacobians
    (fun n p => repeat (repeat 1 p) n).

Definition example_unfitted (likelihood : string) : ParametricLaplace vec :=
  mkPL (example_base likelihood) None.

(** The example after [fit]. *)
Definition example_fitted (likelihood : string) : ParametricLaplace vec :=
  fst (fit (cls := example_cls) example_forward example_loader
         (example_unfitted likelihood)).

(** A FunctionalLaplace as it is before any [fit]: the attributes that
    [fit] assigns before it reads them are unset. *)
Definition unfit {input : Type} (self : Functional.FunctionalLaplace input)
  : Functional.FunctionalLaplace input :=
  Functional.mkFL (Functional.fbase self) (Functional.M self)
    (Functional.diagonal_kernel self) (Functional.diagonal_L self)
    None None None None None (Functional.mu self).

(** A FunctionalLaplace on the example model with a regression
    likelihood, and its collaborators on one-output data: every point has
    the Jacobian [[1; 1; 1]], output [0] and curvature block [[H_factor]];
    the Cholesky factor of a one-by-one matrix is its square root. *)
Definition example_gp_quantities (m : Model) (X : list unit) (y : list vec)
    (H_factor : R)
  : result (R * list (list vec) * list vec * list matrix) :=
  Ok (0, map (fun _ => [[1; 1; 1]]) X, map (fun _ => [0]) X,
      map (fun _ => [[H_factor]]) X).

Definition example_cholesky (A : matrix) : result matrix :=
  match A with
  | [[a]] => Ok [[sqrt a]]
  | _ => Err (Raise LinAlgError "the input is not positive-definite")
  end.

Definition example_functional : Functional.FunctionalLaplace unit :=
  Functional.mkFL (example_base "regression") None false true
    None None None None None None.

Definition example_functional_fit
  : method (Functional.FunctionalLaplace unit) unit :=
  Functional.fit example_forward example_gp_quantities example_jacobians
    example_cholesky (fun _ l => l) example_loader.

(** Drawing samples leaves the model and the MAP estimate alone. *)
Definition sample_keeps_model {input Hty : Type} (cls : Subclass input Hty)
  : Prop :=
  forall (n : nat) (self : ParametricLaplace Hty),
    model (base (fst (sample n self))) = model (base self)
    /\ map_estimate (base (fst (sample n self))) = map_estimate (base self).

(** The live parameters of the model, as one vector. *)
Definition live_parameters {Hty : Type} (self : ParametricLaplace Hty) : vec :=
  parameters_to_vector (parameters (model (base self))).

(** [self'] has the MAP estimate, the likelihood and the parameter shapes
    of [self]. *)
Definition same_frame {Hty : Type} (self self' : ParametricLaplace Hty)
  : Prop :=
  map_estimate (base self') = map_estimate (base self)
  /\ likelihood (base self') = likelihood (base self)
  /\ parameters_per_layer (model (base self'))
     = parameters_per_layer (model (base self)).

(** [torch.distributions] for the examples: every draw of the Gaussian is
    its mean; a Dirichlet that accepts its concentration, and one that
    refuses it as [torch] refuses a concentration that is not positive. *)
Definition example_mvn_sample (f_mu : list vec) (f_var : list matrix)
    (n_samples : nat) : list matrix :=
  repeat f_mu n_samples.

Definition example_Dirichlet_mean (alpha : list vec) : result (list vec) :=
  Ok (map (fun a => map (fun x => x / Torch.sum a) a) alpha).

Definition rejecting_Dirichlet_mean (alpha : list vec) : result (list vec) :=
  Err (Raise ValueError
         "Expected parameter concentration to satisfy the constraint").

(** The predictive of the example, with a forward pass that returns. *)
Definition example_call (Dirichlet_mean : list vec -> result (list vec))
    (pred_type link_approx : string)
  : method (ParametricLaplace vec) prediction :=
  __call__ example_mvn_sample Dirichlet_mean (cls := example_cls)
    example_forward [tt] pred_type link_approx 1.

(** ** Grid search in the words of the specification *)

Section GridSearchSpec.

Variable Self : Type.
Variable OutDist Targets : Type.
Variable prior_precision_setter : py_value -> method Self unit.
Variable validate : method Self (OutDist * Targets).
Variable loss_fn : OutDist -> Targets -> result score.

(** Evaluating the instance on the validation set: [validate], then the
    caller's [loss]. *)
Definition evaluate : method Self score :=
  ot <- validate ;; read (fun _ => loss_fn (fst ot) (snd ot)).

(** What the search has done when it leaves its loop: the instance, the
    scores of the candidates it tried, and the exception that ended it,
    if one did.  Each candidate is assigned and evaluated on the instance
    as the earlier candidates left it; a candidate whose evaluation fails
    with a [RuntimeError] scores infinity and the search goes on; any
    other exception, and any exception of the assignment, ends the
    search. *)
Fixpoint search_trace (interval : list R) (self : Self)
  : Self * list score * option exn :=
  match interval with
  | [] => (self, [], None)
  | prior_prec :: interval' =>
      match prior_precision_setter (Tensor0 prior_prec) self with
      | (self1, Err e) => (self1, [], Some e)
      | (self1, Ok _) =>
          match evaluate self1 with
          | (self2, Ok r) =>
              let '(s, l, x) := search_trace interval' self2 in
              (s, r :: l, x)
          | (self2, Err e) =>
              if is_RuntimeError e
              then let '(s, l, x) := search_trace interval' self2 in
                   (s, PInf :: l, x)
              else (self2, [], Some e)
          end
      end
  end.

End GridSearchSpec.

(** [i] is what [np.argmin] returns on [scores]: the index of the first
    [nan] when there is one; otherwise the index of a smallest score, and
    of the first such. *)
Definition is_argmin (scores : list score) (i : nat) : Prop :=
  (i < length scores)%nat
  /\ (forall j, (j < i)%nat -> is_nan (nth j scores PInf) = false)
  /\ (is_nan (nth i scores PInf) = true
      \/ ((forall j, (j < length scores)%nat ->
              is_nan (nth j scores PInf) = false)
          /\ (forall j, (j < length scores)%nat ->
                score_ltb (nth j scores PInf) (nth i scores PInf) = false)
          /\ (forall j, (j < i)%nat ->
                score_ltb (nth i scores PInf) (nth j scores PInf) = true))).

(** A [validate] for the examples that, like [laplace.utils.validate],
    calls the instance on the validation inputs; here the GLM predictive
    with the bridge link and a Dirichlet that refuses its concentration. *)
Definition example_validate
  : method (ParametricLaplace vec) (prediction * list vec) :=
  out <- example_call rejecting_Dirichlet_mean "glm" "bridge" ;;
  ret (out, [[0]]).

Definition example_gridsearch : method (ParametricLaplace vec) R :=
  _gridsearch (fun p => lift_base (Base.prior_precision_setter p))
    example_validate (fun _ _ => Ok (Finite 0)) [1; 10].

(** An [invsqrt_precision] for the examples that fails numerically, as the
    Cholesky factorisation does on an ill-conditioned matrix: with a
    [LinAlgError] when the first diagonal entry of the precision is below
    one; otherwise it returns the scale of a diagonal precision. *)
Definition guarded_invsqrt (P : matrix) : result matrix :=
  if Rlt_dec (nth 0 (nth 0 P []) 0) 1
  then Err (Raise LinAlgError
              "linalg.cholesky: the input is not positive-definite")
  else Ok (map (map (fun x => if Req_dec_T x 0 then 0 else 1 / sqrt x)) P).

(** FullLaplace on the example model with that [invsqrt_precision], a
    validation that calls the GLM predictive of the instance on one
    point, and a grid search over three candidates with a constant
    loss. *)
Definition guarded_cls : Subclass unit matrix :=
  Full.subclass (fun _ _ _ _ => Ok (1, Torch.zeros2 3 3)) example_jacobians
    guarded_invsqrt (fun loc _ n => repeat loc n).

Definition guarded_validate
  : method (ParametricLaplace matrix) (prediction * list vec) :=
  out <- __call__ example_mvn_sample example_Dirichlet_mean
           (cls := guarded_cls) example_forward [tt] "glm" "probit" 1 ;;
  ret (out, [[0]]).

Definition guarded_gridsearch : method (ParametricLaplace matrix) R :=
  _gridsearch (fun p => lift_base (Base.prior_precision_setter p))
    guarded_validate (fun _ _ => Ok (Finite 0)) [1 / 2; 3; 2].

(** [b'] has the configuration of [b]: the parameters of the model, the
    prior, the noise scale, the temperature and the MAP estimate. *)
Definition same_config (b b' : BaseLaplace) : Prop :=
  parameters (model b') = parameters (model b)
  /\ n_params b' = n_params b /\ n_layers b' = n_layers b
  /\ likelihood b' = likelihood b
  /\ _prior_precision b' = _prior_precision b
  /\ _prior_mean b' = _prior_mean b
  /\ _sigma_noise b' = _sigma_noise b
  /\ temperature b' = temperature b
  /\ map_estimate b' = map_estimate b.

(** A model whose first parameter tensor holds no element (as
    [torch.nn.Parameter(torch.empty(0))] does), so that it has as many
    parameter tensors as parameters, and an instance on it. *)
Definition empty_layer_model : Model := mkModel [[]; [1; 2]] true None.

Definition empty_layer_base : BaseLaplace :=
  mkBase empty_layer_model 2 2 "regression" [1] [0] 1 1 0 None None [1; 2]
    None.

(** ** A model with two outputs that share one parameter

    The model [f(x; theta) = theta * x] on inputs [x] of two components:
    one scalar parameter, two outputs, linear in its parameter.  Its
    Jacobian at [x] is the column [x], its forward pass multiplies by the
    parameter. *)
Definition scale_model : Model := mkModel [[1]] true None.

Definition scale_forward (theta : list vec) (X : list vec)
  : result (list vec) :=
  Ok (map (map (Rmult (hd 0 (concat theta)))) X).

Definition scale_jacobians (m : Model) (X : list vec)
  : result (list (list vec) * list vec) :=
  Ok (map (map (fun xc => [xc])) X,
      map (map (Rmult (hd 0 (concat (parameters m))))) X).

(** The instances that [FullLaplace(model, 'regression')] and
    [FunctionalLaplace(model, 'regression', M=1, diagonal_kernel=False)]
    build on it, with the default noise scale, prior precision, prior mean
    and temperature. *)
Definition scale_base : BaseLaplace :=
  mkBase scale_model 1 1 "regression" [1] [0] 1 1 0 None None [1] None.

Definition scale_full : ParametricLaplace matrix := mkPL scale_base None.

Definition scale_functional : Functional.FunctionalLaplace vec :=
  Functional.mkFL scale_base (Some 1%nat) false true
    None None None None None None.

(** A training set of the one point [x = (1, 0)] with target [(1, 0)], in
    one batch. *)
Definition scale_loader : DataLoader vec :=
  mkLoader [([[1; 0]], [[1; 0]])] 1 1.

(** FullLaplace on the GGN backend of [laplace/curvature.py]. *)
Definition GGN_FullLaplace {input : Type}
    (Jacobians : Model -> list input -> result (list (list vec) * list vec))
    (MSELoss CrossEntropyLoss : list vec -> list vec -> R)
    (likelihood : string)
    (backend_jacobians : Model -> list input
                         -> result (list (list vec) * list vec))
    (invsqrt_precision : matrix -> result matrix)
    (mvn_sample_tril : vec -> matrix -> nat -> list vec)
  : Subclass input matrix :=
  Full.subclass
    (fun m X y _ =>
       Curvature.full Jacobians MSELoss CrossEntropyLoss false likelihood
         m X y)
    backend_jacobians invsqrt_precision mvn_sample_tril.

(** What [gp_quantities] returns on the model above for the Gaussian
    likelihood: the loss of the backend, the Jacobians and outputs, and
    per point the curvature [H_factor * I] of the likelihood in the
    outputs. *)
Definition scale_gp_quantities (MSELoss : list vec -> list vec -> R)
    (m : Model) (X : list vec) (y : list vec) (H_factor : R)
  : result (R * list (list vec) * list vec * list matrix) :=
  Jf <-? scale_jacobians m X ;;
  Ok (0.5 * MSELoss (snd Jf) y, fst Jf, snd Jf,
      map (fun f => Torch.mscale H_factor (Torch.eye (length f))) (snd Jf)).

(** The solution of [diag(d) X = B]: row [i] of [B] divided by [d_i]. *)
Definition diag_solve (d : vec) (B : matrix) : matrix :=
  map (fun '(di, row) => map (fun x => x / di) row) (combine d B).

(** The numerical routines on diagonal matrices: the Cholesky factor, the
    solution of a linear system and the inverse square root of a positive
    diagonal matrix are taken entry by entry on the diagonal. *)
Definition diag_cholesky (A : matrix) : result matrix :=
  Ok (Torch.diag (map sqrt (Torch.diagonal A))).
Definition diag_linalg_solve (A B : matrix) : result matrix :=
  Ok (diag_solve (Torch.diagonal A) B).
Definition diag_invsqrt_precision (P : matrix) : result matrix :=
  Ok (Torch.diag (map (fun x => 1 / sqrt x) (Torch.diagonal P))).

(** The sum of squared errors. *)
Definition sum_squared_error (f y : list vec) : R :=
  Torch.sum (concat (Torch.mzip_with (fun a b => Rsqr (a - b)) f y)).

(** The GP posterior variance at one test point in the words of the
    docstring of [gp_posterior],
    [K_** - K_*M (K_MM + L_MM^-1)^-1 K_M*], computed like the source from
    the Cholesky factor [Sigma_chol] of [K_MM + L_MM^-1]: [K_M*] has one
    row per training point and training output and one column per test
    output, so that the block of each training point, whose rows are the
    test outputs, is transposed. *)
Definition gp_variance_docstring (solve : matrix -> matrix -> result matrix)
    (Sigma_chol K_star : matrix) (K_star_M : list matrix) : result matrix :=
  let K_M_star := concat (map Torch.transpose K_star_M) in
  v <-? solve Sigma_chol K_M_star ;;
  Ok (Torch.mzip_with Rminus K_star (Torch.matmul (Torch.transpose v) v)).

(** * Properties *)

Ltac run_method :=
  unfold bind, modify, get, raise, ret, read; simpl.

Lemma smul_ones (p : R) (n : nat) : Torch.smul p (Torch.ones n) = repeat p n.
Proof.
  unfold Torch.smul, Torch.ones.
  induction n as [|n IH]; simpl; [reflexivity|].
  rewrite IH, Rmult_1_r. reflexivity.
Qed.

Lemma nat_in_In (x : nat) (xs : list nat) :
  Base.nat_in x xs = true <-> In x xs.
Proof.
  unfold Base.nat_in. rewrite existsb_exists. split.
  - intros [y [Hy Heq]]. apply Nat.eqb_eq in Heq. now subst.
  - intros Hin. exists x. split; [assumption | apply Nat.eqb_refl].
Qed.

Lemma nat_in_false (x : nat) (xs : list nat) :
  Base.nat_in x xs = false <-> ~ In x xs.
Proof.
  rewrite <- nat_in_In. destruct (Base.nat_in x xs); split; intros; congruence.
Qed.

Lemma length_concat_sizes (ps : list vec) :
  length (concat ps) = fold_right Nat.add 0%nat (map (@length R) ps).
Proof.
  induction ps as [|p ps IH]; simpl; [reflexivity|].
  rewrite length_app, IH. reflexivity.
Qed.

Lemma per_layer_spec_length (v : vec) (sizes : list nat) :
  length v = length sizes ->
  length (per_layer_spec v sizes) = fold_right Nat.add 0%nat sizes.
Proof.
  unfold per_layer_spec. revert sizes.
  induction v as [|x v IH]; intros [|n sizes] Hlen; simpl in *;
    try discriminate; [reflexivity|].
  rewrite length_app, repeat_length, IH by lia. reflexivity.
Qed.

(** When there are as many parameters as layers and no layer is empty,
    every layer holds one parameter. *)
Lemma sizes_all_one (sizes : list nat) :
  Forall (fun n => (1 <= n)%nat) sizes ->
  fold_right Nat.add 0%nat sizes = length sizes ->
  Forall (fun n => n = 1%nat) sizes.
Proof.
  intros Hpos Hsum.
  assert (Hge : forall l, Forall (fun n => (1 <= n)%nat) l ->
                          (length l <= fold_right Nat.add 0%nat l)%nat).
  { induction 1; simpl; lia. }
  induction Hpos as [|n sizes Hn Hpos IH]; simpl in *; [constructor|].
  pose proof (Hge _ Hpos) as Hle.
  constructor; [lia|]. apply IH. lia.
Qed.

Lemma per_layer_spec_ones (v : vec) (sizes : list nat) :
  length v = length sizes ->
  Forall (fun n => n = 1%nat) sizes ->
  per_layer_spec v sizes = v.
Proof.
  unfold per_layer_spec. revert sizes.
  induction v as [|x v IH]; intros [|n sizes] Hlen Hone; simpl in *;
    try discriminate; [reflexivity|].
  inversion Hone; subst. simpl. f_equal. apply IH; [lia | assumption].
Qed.

Lemma per_layer_code_spec (v : vec) (sizes : list nat) :
  concat (map (fun '(prior, n) => Torch.smul prior (Torch.ones n))
              (combine v sizes))
  = per_layer_spec v sizes.
Proof.
  unfold per_layer_spec. f_equal. apply map_ext.
  intros [p n]. apply smul_ones.
Qed.

(** What [prior_precision_diag] returns for each accepted length. *)
Lemma prior_precision_diag_expand (self : BaseLaplace) :
  wf self -> nonempty_layers self ->
  let v := _prior_precision self in
  let P := n_params self in
  let sizes := parameters_per_layer (model self) in
  (length v = 1%nat ->
   Base.prior_precision_diag self = Ok (repeat (hd 0 v) P))
  /\ (length v = n_layers self ->
      Base.prior_precision_diag self = Ok (per_layer_spec v sizes))
  /\ (length v = P -> Base.prior_precision_diag self = Ok v).
Proof.
  intros [HL HP] Hne. cbv zeta.
  remember (_prior_precision self) as v eqn:Ev.
  remember (n_params self) as P eqn:EP0.
  remember (parameters_per_layer (model self)) as sizes eqn:Es.
  assert (Hsizes : length sizes = n_layers self).
  { subst sizes. unfold parameters_per_layer. now rewrite length_map. }
  assert (Hsum : fold_right Nat.add 0%nat sizes = P).
  { subst sizes P. unfold parameters_per_layer. rewrite HP.
    unfold parameters_to_vector. now rewrite length_concat_sizes. }
  unfold nonempty_layers in Hne. rewrite <- Es in Hne.
  assert (H1 : length v = 1%nat ->
               Base.prior_precision_diag self = Ok (repeat (hd 0 v) P)).
  { intros Hlen. unfold Base.prior_precision_diag.
    rewrite <- Ev, <- EP0, Hlen. simpl. now rewrite smul_ones. }
  assert (HPc : length v = P -> Base.prior_precision_diag self = Ok v).
  { intros Hlen. unfold Base.prior_precision_diag. rewrite <- Ev, <- EP0.
    destruct (Nat.eqb_spec (length v) 1) as [E1|E1].
    - rewrite smul_ones. f_equal.
      destruct v as [|x [|y v']]; simpl in *; try discriminate.
      rewrite <- Hlen. reflexivity.
    - rewrite Hlen, Nat.eqb_refl. reflexivity. }
  repeat split; try assumption.
  intros Hlen.
  destruct (Nat.eq_dec (length v) 1) as [E1|E1].
  { rewrite (H1 E1). f_equal. clear Ev Es H1 HPc.
    destruct v as [|x [|y v']]; simpl in *; try discriminate.
    destruct sizes as [|n [|n' sizes']]; simpl in *; try lia.
    unfold per_layer_spec. simpl. rewrite app_nil_r.
    replace n with P by lia. reflexivity. }
  destruct (Nat.eq_dec (length v) P) as [EP|EP].
  { rewrite (HPc EP). f_equal. symmetry.
    apply per_layer_spec_ones; [lia|].
    apply sizes_all_one; [exact Hne | lia]. }
  unfold Base.prior_precision_diag. rewrite <- Ev, <- EP0, <- Es.
  destruct (Nat.eqb_spec (length v) 1); [contradiction|].
  destruct (Nat.eqb_spec (length v) P); [contradiction|].
  rewrite Hlen, Nat.eqb_refl, per_layer_code_spec. reflexivity.
Qed.

(** The order of the tests in [prior_precision_diag]: one element, then
    [n_params] elements, then [n_layers] elements. *)
Lemma prior_precision_diag_precedence (self : BaseLaplace) :
  wf self ->
  let v := _prior_precision self in
  let P := n_params self in
  let sizes := parameters_per_layer (model self) in
  (length v = 1%nat ->
   Base.prior_precision_diag self = Ok (repeat (hd 0 v) P))
  /\ (length v = P -> Base.prior_precision_diag self = Ok v)
  /\ (length v = n_layers self -> length v <> P ->
      Base.prior_precision_diag self = Ok (per_layer_spec v sizes)).
Proof.
  intros [HL HP]. cbv zeta.
  remember (_prior_precision self) as v eqn:Ev.
  remember (n_params self) as P eqn:EP0.
  remember (parameters_per_layer (model self)) as sizes eqn:Es.
  assert (Hsizes : length sizes = n_layers self).
  { subst sizes. unfold parameters_per_layer. now rewrite length_map. }
  assert (Hsum : fold_right Nat.add 0%nat sizes = P).
  { subst sizes P. unfold parameters_per_layer. rewrite HP.
    unfold parameters_to_vector. now rewrite length_concat_sizes. }
  assert (H1 : length v = 1%nat ->
               Base.prior_precision_diag self = Ok (repeat (hd 0 v) P)).
  { intros Hlen. unfold Base.prior_precision_diag.
    rewrite <- Ev, <- EP0, Hlen. simpl. now rewrite smul_ones. }
  split; [exact H1|]. split.
  - intros Hlen. unfold Base.prior_precision_diag. rewrite <- Ev, <- EP0.
    destruct (Nat.eqb_spec (length v) 1) as [E1|E1].
    + rewrite smul_ones. f_equal.
      destruct v as [|x [|y v']]; simpl in *; try discriminate.
      rewrite <- Hlen. reflexivity.
    + rewrite Hlen, Nat.eqb_refl. reflexivity.
  - intros Hlen HnP.
    destruct (Nat.eq_dec (length v) 1) as [E1|E1].
    { rewrite (H1 E1). f_equal. clear Ev Es H1.
      destruct v as [|x [|y v']]; simpl in *; try discriminate.
      destruct sizes as [|n [|n' sizes']]; simpl in *; try lia.
      unfold per_layer_spec. simpl. rewrite app_nil_r.
      replace n with P by lia. reflexivity. }
    unfold Base.prior_precision_diag. rewrite <- Ev, <- EP0, <- Es.
    destruct (Nat.eqb_spec (length v) 1); [contradiction|].
    destruct (Nat.eqb_spec (length v) P); [contradiction|].
    rewrite Hlen, Nat.eqb_refl, per_layer_code_spec. reflexivity.
Qed.

Lemma prior_precision_diag_length (self : BaseLaplace) (d : vec) :
  wf self -> Base.prior_precision_diag self = Ok d ->
  length d = n_params self.
Proof.
  intros [HL HP]. unfold Base.prior_precision_diag.
  destruct (Nat.eqb_spec (length (_prior_precision self)) 1) as [E1|E1].
  { intros [= <-]. rewrite smul_ones. apply repeat_length. }
  destruct (Nat.eqb_spec (length (_prior_precision self)) (n_params self))
    as [EP|EP].
  { intros [= <-]. exact EP. }
  destruct (Nat.eqb_spec (length (_prior_precision self)) (n_layers self))
    as [EL|EL]; [|discriminate].
  intros [= <-]. rewrite per_layer_code_spec, per_layer_spec_length.
  - rewrite HP. unfold parameters_to_vector, parameters_per_layer.
    now rewrite length_concat_sizes.
  - unfold parameters_per_layer. rewrite length_map, EL. exact HL.
Qed.

Lemma prior_precision_diag_ok (self : BaseLaplace) :
  prior_ok self -> exists d, Base.prior_precision_diag self = Ok d.
Proof.
  unfold prior_ok, Base.prior_precision_diag. simpl.
  intros [E|[E|[E|[]]]].
  - rewrite <- E. simpl. eauto.
  - destruct (_ =? 1)%nat; [eauto|].
    destruct (_ =? n_params self)%nat; [eauto|].
    rewrite <- E, Nat.eqb_refl. eauto.
  - destruct (_ =? 1)%nat; [eauto|].
    rewrite <- E, Nat.eqb_refl. eauto.
Qed.

(** The setter stores an accepted vector and drops the cached scale. *)
Lemma prior_precision_setter_accepts (self : BaseLaplace) (v : vec) :
  In (length v) [1%nat; n_layers self; n_params self] ->
  Base.prior_precision_setter (Tensor1 v) self
  = (Base.set_prior_precision v (Base.set_posterior_scale None self), Ok tt).
Proof.
  intros Hin. unfold Base.prior_precision_setter. run_method.
  apply nat_in_In in Hin. simpl in Hin. unfold Base.nat_in in Hin.
  simpl in Hin. rewrite Hin. reflexivity.
Qed.

Lemma prior_precision_setter_rejects (self : BaseLaplace) (v : vec) :
  ~ In (length v) [1%nat; n_layers self; n_params self] ->
  Base.prior_precision_setter (Tensor1 v) self
  = (Base.set_posterior_scale None self,
     Err (Raise ValueError
            "Length of prior precision does not align with architecture.")).
Proof.
  intros Hin. unfold Base.prior_precision_setter. run_method.
  apply nat_in_false in Hin. unfold Base.nat_in in Hin.
  simpl in Hin. rewrite Hin. reflexivity.
Qed.

(** ** The invariants hold for what [__init__] builds *)

Lemma prior_precision_setter_ok (p : py_value) (self self' : BaseLaplace) :
  Base.prior_precision_setter p self = (self', Ok tt) ->
  prior_ok self'
  /\ model self' = model self /\ n_layers self' = n_layers self
  /\ n_params self' = n_params self
  /\ map_estimate self' = map_estimate self
  /\ _prior_mean self' = _prior_mean self.
Proof.
  unfold Base.prior_precision_setter, prior_ok, bind, modify, get, raise,
    ret.
  destruct p as [r|r|v|d|]; cbv beta iota; try discriminate;
    try (intros [= <-]; simpl; tauto).
  destruct (Base.nat_in (length v) _) eqn:Hin; cbv beta iota;
    [|discriminate].
  intros [= <-]. apply nat_in_In in Hin. simpl in *. tauto.
Qed.

Lemma prior_mean_setter_ok (p : py_value) (self self' : BaseLaplace) :
  Base.prior_mean_setter p self = (self', Ok tt) ->
  In (length (_prior_mean self')) [1%nat; n_params self]
  /\ model self' = model self /\ n_layers self' = n_layers self
  /\ n_params self' = n_params self
  /\ map_estimate self' = map_estimate self
  /\ _prior_precision self' = _prior_precision self.
Proof.
  unfold Base.prior_mean_setter, bind, modify, get, raise, ret.
  destruct p as [r|r|v|d|]; cbv beta iota; try discriminate;
    try (intros [= <-]; simpl; tauto).
  destruct (Base.nat_in (length v) _) eqn:Hin; cbv beta iota;
    [|discriminate].
  intros [= <-]. apply nat_in_In in Hin. simpl in *. tauto.
Qed.

Lemma sigma_noise_setter_frame (p : py_value) (self self' : BaseLaplace)
    (r : result unit) :
  Base.sigma_noise_setter p self = (self', r) ->
  model self' = model self /\ n_layers self' = n_layers self
  /\ n_params self' = n_params self
  /\ map_estimate self' = map_estimate self
  /\ _prior_mean self' = _prior_mean self
  /\ _prior_precision self' = _prior_precision self.
Proof.
  unfold Base.sigma_noise_setter. run_method.
  destruct p as [x|x|v|d|]; simpl; try (intros [= <- _]; simpl; tauto).
  destruct (1 <? length v)%nat; simpl; [intros [= <- _]; simpl; tauto|].
  destruct v; intros [= <- _]; simpl; tauto.
Qed.

(** An instance that [__init__] returns satisfies the invariants the
    statements below assume, and its MAP estimate is the parameter vector
    of the model. *)
Lemma init_establishes_invariants (m : Model) (lik : string)
    (sigma_noise prior_precision prior_mean : py_value) (T : R)
    (self : BaseLaplace) :
  Base.__init__ m lik sigma_noise prior_precision prior_mean T = Ok self ->
  wf self /\ prior_ok self /\ shapes_ok self
  /\ model self = m
  /\ map_estimate self = parameters_to_vector (parameters m)
  /\ In lik ["classification"; "regression"].
Proof.
  unfold Base.__init__.
  destruct (Base.str_in lik ["classification"; "regression"]) eqn:Hlik;
    simpl; [|discriminate].
  destruct (Base.has_parameters m); simpl; [|discriminate].
  assert (Hin : In lik ["classification"; "regression"]).
  { unfold Base.str_in in Hlik. apply existsb_exists in Hlik.
    destruct Hlik as [x [Hx Heq]]. apply String.eqb_eq in Heq. now subst. }
  unfold bind at 1.
  destruct (Base.prior_precision_setter prior_precision (Base.blank m))
    as [s1 [[]|e]] eqn:H1; [|discriminate].
  apply prior_precision_setter_ok in H1.
  destruct H1 as [Hpo [Hm1 [Hl1 [Hp1 [_ _]]]]].
  unfold bind at 1.
  destruct (Base.prior_mean_setter prior_mean s1) as [s2 [[]|e]] eqn:H2;
    [|discriminate].
  apply prior_mean_setter_ok in H2.
  destruct H2 as [Hpm [Hm2 [Hl2 [Hp2 [_ Hpp2]]]]].
  unfold bind at 1, read.
  destruct (Base.ne_one sigma_noise) as [ne|e]; [|discriminate].
  destruct (ne && negb (lik =? "regression")%string); [discriminate|].
  unfold bind at 1, modify at 1.
  unfold bind at 1.
  destruct (Base.sigma_noise_setter sigma_noise (Base.set_likelihood lik s2))
    as [s3 [[]|e]] eqn:H3; [|discriminate].
  apply sigma_noise_setter_frame in H3. simpl in H3.
  destruct H3 as [Hm3 [Hl3 [Hp3 [_ [Hpm3 Hpp3]]]]].
  run_method. intros [= <-]. simpl.
  unfold wf, prior_ok, shapes_ok. simpl.
  rewrite Hm3, Hl3, Hp3, Hpm3, Hpp3, Hm2, Hl2, Hp2, Hm1, Hl1, Hp1.
  unfold prior_ok in Hpo. rewrite Hl1, Hp1, <- Hpp2 in Hpo.
  rewrite Hp1 in Hpm. simpl in *. tauto.
Qed.

(** ** Prior precision: setting and expanding *)

Lemma set_then_expand_vector (self : BaseLaplace) (v : vec) :
  In (length v) [1%nat; n_layers self; n_params self] ->
  set_then_expand (Tensor1 v) self
  = (Ok tt, Base.prior_precision_diag
              (Base.set_prior_precision v (Base.set_posterior_scale None self))).
Proof.
  intros Hin. unfold set_then_expand.
  now rewrite prior_precision_setter_accepts.
Qed.

Lemma wf_set_prior (self : BaseLaplace) (v : vec) :
  wf self ->
  wf (Base.set_prior_precision v (Base.set_posterior_scale None self)).
Proof. intros H. exact H. Qed.

Lemma example_base_wf (lik : string) : wf (example_base lik).
Proof. split; reflexivity. Qed.

Lemma example_base_nonempty (lik : string) :
  nonempty_layers (example_base lik).
Proof. repeat constructor. Qed.

(** C8.  Setting the prior precision and reading [prior_precision_diag]
    back gives a vector of length [P]: a scalar (a number, a
    zero-dimensional tensor or a one-element vector) is broadcast to all
    [P] entries; a vector of length [n_params] comes back unchanged; a
    vector of length [n_layers] that is not of length [n_params] has each
    value repeated over its layer's parameter count.  The length is tested
    against [n_params] before [n_layers]: a vector of both lengths comes
    back unchanged, which is its per-layer expansion whenever no parameter
    tensor of the model is empty.  A one-dimensional tensor of any other
    length is refused by the setter with a [ValueError], and so is the
    expansion of a stored vector of any other length. *)
Theorem prior_precision_roundtrip (self : BaseLaplace) :
  wf self ->
  let P := n_params self in
  let sizes := parameters_per_layer (model self) in
  (forall r,
      set_then_expand (PyFloat r) self = (Ok tt, Ok (repeat r P))
      /\ set_then_expand (Tensor0 r) self = (Ok tt, Ok (repeat r P))
      /\ set_then_expand (Tensor1 [r]) self = (Ok tt, Ok (repeat r P)))
  /\ (forall v, length v = P ->
        set_then_expand (Tensor1 v) self = (Ok tt, Ok v))
  /\ (forall v, length v = n_layers self ->
        (length v <> P ->
         set_then_expand (Tensor1 v) self
         = (Ok tt, Ok (per_layer_spec v sizes))
         /\ length (per_layer_spec v sizes) = P)
        /\ (length v = P ->
            set_then_expand (Tensor1 v) self = (Ok tt, Ok v)
            /\ (nonempty_layers self -> per_layer_spec v sizes = v)))
  /\ (forall v, ~ In (length v) [1%nat; n_layers self; P] ->
        exists msg,
          snd (Base.prior_precision_setter (Tensor1 v) self)
          = Err (Raise ValueError msg))
  /\ (forall other : BaseLaplace,
        ~ In (length (_prior_precision other))
             [1%nat; n_layers other; n_params other] ->
        exists msg,
          Base.prior_precision_diag other = Err (Raise ValueError msg)).
Proof.
  intros Hwf P sizes.
  assert (Hscalar : forall r,
    Base.prior_precision_diag
      (Base.set_prior_precision [r] (Base.set_posterior_scale None self))
    = Ok (repeat r P)).
  { intros r.
    destruct (prior_precision_diag_precedence (wf_set_prior [r] Hwf))
      as [H1 _].
    apply H1. reflexivity. }
  assert (Hdiag : forall v, length v = P ->
    set_then_expand (Tensor1 v) self = (Ok tt, Ok v)).
  { intros v Hlen.
    rewrite set_then_expand_vector by (simpl; auto).
    destruct (prior_precision_diag_precedence (wf_set_prior v Hwf))
      as [_ [HP _]].
    simpl in HP. now rewrite (HP Hlen). }
  split; [|split; [|split; [|split]]].
  - intros r. repeat split.
    + unfold set_then_expand, Base.prior_precision_setter. run_method.
      now rewrite <- Hscalar.
    + unfold set_then_expand, Base.prior_precision_setter. run_method.
      now rewrite <- Hscalar.
    + rewrite set_then_expand_vector by (simpl; auto).
      now rewrite Hscalar.
  - exact Hdiag.
  - intros v Hlen. split.
    + intros HnP.
      rewrite set_then_expand_vector by (simpl; auto).
      destruct (prior_precision_diag_precedence (wf_set_prior v Hwf))
        as [_ [_ HL]].
      simpl in HL. rewrite (HL Hlen HnP). split; [reflexivity|].
      eapply (@prior_precision_diag_length
                (Base.set_prior_precision v
                   (Base.set_posterior_scale None self))).
      * exact Hwf.
      * apply HL; assumption.
    + intros HP. split; [now apply Hdiag|].
      intros Hne. destruct Hwf as [HwL HwP].
      assert (Hsizes : length sizes = n_layers self).
      { unfold sizes, parameters_per_layer. now rewrite length_map. }
      apply per_layer_spec_ones; [congruence|].
      apply sizes_all_one; [exact Hne|].
      unfold sizes, parameters_per_layer. rewrite length_map.
      rewrite <- length_concat_sizes.
      fold (parameters_to_vector (parameters (model self))).
      etransitivity; [symmetry; exact HwP|].
      etransitivity; [|exact HwL]. unfold P in HP. congruence.
  - intros v Hnot. rewrite prior_precision_setter_rejects by exact Hnot.
    simpl. eauto.
  - intros other Hnot. unfold Base.prior_precision_diag.
    simpl in Hnot.
    destruct (Nat.eqb_spec (length (_prior_precision other)) 1);
      [exfalso; auto|].
    destruct (Nat.eqb_spec (length (_prior_precision other))
                (n_params other)); [exfalso; auto|].
    destruct (Nat.eqb_spec (length (_prior_precision other))
                (n_layers other)); [exfalso; auto|].
    eauto.
Qed.

(** On the example (layers of two and one parameters): the per-layer prior
    [[5; 7]] expands to [[5; 5; 7]]. *)
Lemma prior_precision_roundtrip_witness :
  wf (example_base "regression")
  /\ set_then_expand (Tensor1 [5; 7]) (example_base "regression")
     = (Ok tt, Ok [5; 5; 7]).
Proof.
  split; [apply example_base_wf|].
  destruct (@prior_precision_roundtrip (example_base "regression")
              (example_base_wf _))
    as [_ [_ [Hlayer _]]].
  destruct (Hlayer [5; 7] eq_refl) as [Heq _].
  destruct (Heq ltac:(simpl; lia)) as [Hexp _].
  exact Hexp.
Defined.

(** On a model whose first parameter tensor is empty and whose second
    holds two elements, [n_layers = n_params = 2]: the vector [[5; 7]],
    read per layer, would expand to [[7; 7]], but it is read per parameter
    and comes back unchanged. *)
Lemma prior_precision_per_layer_shadowed :
  wf empty_layer_base
  /\ length [5; 7] = n_layers empty_layer_base
  /\ set_then_expand (Tensor1 [5; 7]) empty_layer_base = (Ok tt, Ok [5; 7])
  /\ per_layer_spec [5; 7] (parameters_per_layer (model empty_layer_base))
     = [7; 7]
  /\ [5; 7] <> [7; 7].
Proof.
  split; [split; reflexivity|]. split; [reflexivity|].
  split; [reflexivity|]. split; [reflexivity|].
  intros [= E]. lra.
Qed.

(** ** KronLaplace only takes a scalar or per-layer prior *)

Lemma Kron_setter_unfold (self : BaseLaplace) (v : vec) :
  In (length v) [1%nat; n_layers self; n_params self] ->
  snd (Kron.prior_precision_setter (Tensor1 v) self)
  = if negb (Base.nat_in (length v) [1%nat; n_layers self])
    then Err (Raise ValueError
           "Prior precision for Kron either scalar or per-layer.")
    else Ok tt.
Proof.
  intros Hin. unfold Kron.prior_precision_setter, bind.
  rewrite prior_precision_setter_accepts by exact Hin.
  unfold get. simpl.
  destruct (negb _); reflexivity.
Qed.

(** C10.  On a KronLaplace instance, assigning a prior precision vector of
    length [n_params], when [n_params] differs from [1] and from
    [n_layers], raises a [ValueError], although the setter of the base
    class accepts the same vector; a vector of length [1] or [n_layers] is
    accepted, and no vector of another length is. *)
Theorem Kron_prior_precision_stricter (self : BaseLaplace) (v : vec) :
  (length v = n_params self ->
   n_params self <> 1%nat -> n_params self <> n_layers self ->
   snd (Kron.prior_precision_setter (Tensor1 v) self)
   = Err (Raise ValueError
            "Prior precision for Kron either scalar or per-layer.")
   /\ snd (Base.prior_precision_setter (Tensor1 v) self) = Ok tt)
  /\ (In (length v) [1%nat; n_layers self] ->
      snd (Kron.prior_precision_setter (Tensor1 v) self) = Ok tt)
  /\ (~ In (length v) [1%nat; n_layers self] ->
      exists msg, snd (Kron.prior_precision_setter (Tensor1 v) self)
                  = Err (Raise ValueError msg)).
Proof.
  assert (Hacc : In (length v) [1%nat; n_layers self] ->
                 snd (Kron.prior_precision_setter (Tensor1 v) self) = Ok tt).
  { intros Hin. rewrite Kron_setter_unfold by (simpl in *; tauto).
    apply nat_in_In in Hin. now rewrite Hin. }
  assert (Hrej : In (length v) [1%nat; n_layers self; n_params self] ->
                 ~ In (length v) [1%nat; n_layers self] ->
                 snd (Kron.prior_precision_setter (Tensor1 v) self)
                 = Err (Raise ValueError
                          "Prior precision for Kron either scalar or per-layer.")).
  { intros Hin Hnot. rewrite Kron_setter_unfold by exact Hin.
    apply nat_in_false in Hnot. now rewrite Hnot. }
  split; [|split].
  - intros Hlen H1 HL. split.
    + apply Hrej; simpl; [auto | intros [E|[E|[]]]; congruence].
    + rewrite prior_precision_setter_accepts by (simpl; auto). reflexivity.
  - exact Hacc.
  - intros Hnot.
    destruct (in_dec Nat.eq_dec (length v)
                [1%nat; n_layers self; n_params self]) as [Hin|Hout].
    + rewrite (Hrej Hin Hnot). eauto.
    + unfold Kron.prior_precision_setter, bind.
      rewrite prior_precision_setter_rejects by exact Hout. simpl. eauto.
Qed.

(** On the example (three parameters in two layers), a KronLaplace refuses
    the per-parameter prior [[1; 2; 3]] that the base setter accepts. *)
Lemma Kron_prior_precision_stricter_witness :
  snd (Kron.prior_precision_setter (Tensor1 [1; 2; 3])
         (example_base "regression"))
  = Err (Raise ValueError
           "Prior precision for Kron either scalar or per-layer.")
  /\ snd (Base.prior_precision_setter (Tensor1 [1; 2; 3])
            (example_base "regression")) = Ok tt.
Proof.
  destruct (@Kron_prior_precision_stricter (example_base "regression")
              [1; 2; 3]) as [H _].
  apply H; simpl; [reflexivity | lia | lia].
Defined.

(** ** Tensor algebra *)

Section TensorAlgebra.


Lemma diag_length (v : vec) : length (Torch.diag v) = length v.
Proof.
  induction v as [|x v IH]; simpl; [reflexivity|].
  now rewrite length_map, IH.
Qed.






Lemma dot_zeros_l (n : nat) (d : vec) : Torch.dot (Torch.zeros n) d = 0.
Proof.
  unfold Torch.dot, Torch.vmul, Torch.zeros, Torch.sum.
  revert d. induction n as [|n IH]; intros [|y d]; simpl; try reflexivity.
  rewrite IH. lra.
Qed.

Lemma dot_cons (x y : R) (a b : vec) :
  Torch.dot (x :: a) (y :: b) = x * y + Torch.dot a b.
Proof. reflexivity. Qed.

(** [diag(p) @ d] is the elementwise product. *)
Lemma matvec_diag (p d : vec) :
  length p = length d -> Torch.matvec (Torch.diag p) d = Torch.vmul p d.
Proof.
  revert d. induction p as [|x p IH]; intros [|y d] Hlen; simpl in *;
    try discriminate; [reflexivity|].
  unfold Torch.matvec in *. simpl. rewrite dot_cons, dot_zeros_l.
  rewrite map_map. change (Torch.vmul (x :: p) (y :: d))
    with (x * y :: Torch.vmul p d).
  rewrite <- (IH d) by lia. f_equal; [lra|].
  apply map_ext. intros r. rewrite dot_cons. lra.
Qed.

Lemma dot_vmul_assoc (a b c : vec) :
  Torch.dot (Torch.vmul a b) c = Torch.dot a (Torch.vmul b c).
Proof.
  unfold Torch.dot, Torch.vmul, Torch.sum.
  revert b c. induction a as [|x a IH]; intros [|y b] [|z c]; simpl;
    try reflexivity.
  rewrite IH. lra.
Qed.

Lemma vmul_comm (a b : vec) : Torch.vmul a b = Torch.vmul b a.
Proof.
  unfold Torch.vmul. revert b.
  induction a as [|x a IH]; intros [|y b]; simpl; try reflexivity.
  now rewrite IH, Rmult_comm.
Qed.

(** The scatter as the source computes it, [(delta * p) @ delta], is the
    quadratic form of [diag(p)]. *)
Lemma scatter_quadratic_form (delta p : vec) :
  length delta = length p ->
  Torch.dot (Torch.vmul delta p) delta = quadratic_form delta (Torch.diag p).
Proof.
  intros Hlen. unfold quadratic_form.
  rewrite matvec_diag by lia. apply dot_vmul_assoc.
Qed.

(** *** The determinant of a diagonal matrix *)

Lemma sum_zero_terms (f : nat -> R) (l : list (nat * R)) :
  (forall j x, In (j, x) l -> x = 0) ->
  fold_right Rplus 0
    (map (fun '(j, x) => (if Nat.even j then x else - x) * f j) l) = 0.
Proof.
  induction l as [|[j x] l IH]; intros Hz; simpl; [reflexivity|].
  rewrite IH by (intros; eapply Hz; right; eassumption).
  rewrite (Hz j x) by (left; reflexivity).
  destruct (Nat.even j); lra.
Qed.

Lemma det_fuel_diag (v : vec) :
  Torch.det_fuel (length v) (Torch.diag v) = fold_right Rmult 1 v.
Proof.
  induction v as [|x v IH]; simpl; [reflexivity|].
  rewrite map_map. simpl.
  rewrite map_id, IH.
  rewrite (sum_zero_terms
             (fun j => Torch.det_fuel (length v)
                         (map (Torch.drop_nth j)
                              (map (cons 0) (Torch.diag v))))).
  - lra.
  - intros j y Hin. apply in_combine_r in Hin.
    unfold Torch.zeros in Hin. now apply repeat_spec in Hin.
Qed.

Lemma det_diag (v : vec) : Torch.det (Torch.diag v) = fold_right Rmult 1 v.
Proof. unfold Torch.det. rewrite diag_length. apply det_fuel_diag. Qed.

Lemma prod_pos (v : vec) :
  Forall (fun x => 0 < x) v -> 0 < fold_right Rmult 1 v.
Proof.
  induction 1 as [|x v Hx Hv IH]; simpl; [lra|].
  now apply Rmult_lt_0_compat.
Qed.

(** The log-determinant of a positive diagonal matrix is the sum of the
    logarithms of its entries. *)
Lemma logdet_diag (v : vec) :
  Forall (fun x => 0 < x) v ->
  Torch.logdet (Torch.diag v) = Torch.sum (Torch.log v).
Proof.
  intros Hpos. unfold Torch.logdet. rewrite det_diag.
  induction Hpos as [|x v Hx Hv IH]; simpl; [apply ln_1|].
  rewrite ln_mult; [|assumption|now apply prod_pos].
  unfold Torch.sum, Torch.log in IH. now rewrite IH.
Qed.

End TensorAlgebra.

(** ** The posterior precision of FullLaplace *)

Lemma H_factor_formula (b : BaseLaplace) :
  Base._H_factor b = 1 / (Rsqr (_sigma_noise b) * temperature b).
Proof.
  unfold Base._H_factor, Rdiv. rewrite Rinv_mult. ring.
Qed.

Lemma prior_precision_diag_total (b : BaseLaplace) :
  wf b -> prior_ok b ->
  exists ppd, Base.prior_precision_diag b = Ok ppd
              /\ length ppd = n_params b.
Proof.
  intros Hwf Hok. destruct (prior_precision_diag_ok Hok) as [d Hd].
  exists d. split; [exact Hd|]. now apply prior_precision_diag_length.
Qed.






Lemma example_base_prior_ok (lik : string) : prior_ok (example_base lik).
Proof. left. reflexivity. Qed.




(** ** The log marginal likelihood of a parametric instance *)

Lemma per_layer_spec_Forall (Q : R -> Prop) (v : vec) (sizes : list nat) :
  Forall Q v -> Forall Q (per_layer_spec v sizes).
Proof.
  unfold per_layer_spec. intros Hv. revert sizes.
  induction Hv as [|x v Hx Hv IH]; intros [|n sizes]; simpl;
    try constructor.
  apply Forall_app. split; [|apply IH].
  apply Forall_forall. intros y Hy. apply repeat_spec in Hy. now subst.
Qed.

(** The expansion only holds values of the stored prior precision. *)
Lemma prior_precision_diag_Forall (Q : R -> Prop) (b : BaseLaplace) (d : vec) :
  Forall Q (_prior_precision b) ->
  Base.prior_precision_diag b = Ok d -> Forall Q d.
Proof.
  intros HQ. unfold Base.prior_precision_diag.
  destruct (Nat.eqb_spec (length (_prior_precision b)) 1) as [E1|E1].
  { intros [= <-]. rewrite smul_ones.
    apply Forall_forall. intros y Hy. apply repeat_spec in Hy. subst y.
    destruct (_prior_precision b) as [|x [|? ?]]; try discriminate.
    now inversion HQ. }
  destruct (_ =? n_params b)%nat; [now intros [= <-]|].
  destruct (_ =? n_layers b)%nat; [|discriminate].
  intros [= <-]. rewrite per_layer_code_spec.
  now apply per_layer_spec_Forall.
Qed.

Lemma zip_with_length (f : R -> R -> R) (a b : vec) :
  length a = length b -> length (Torch.zip_with f a b) = length a.
Proof.
  revert b. induction a as [|x a IH]; intros [|y b] Hlen; simpl in *;
    try discriminate; [reflexivity|].
  now rewrite IH by lia.
Qed.

Lemma sub_broadcast_length (a b : vec) :
  In (length b) [1%nat; length a] ->
  length (Torch.sub_broadcast a b) = length a.
Proof.
  intros Hin. unfold Torch.sub_broadcast.
  destruct b as [|m [|m' b']].
  - destruct Hin as [E|[E|[]]]; [discriminate|].
    destruct a; [reflexivity | discriminate].
  - destruct a as [|x [|x' a']]; simpl; now rewrite ?length_map.
  - destruct Hin as [E|[E|[]]]; [discriminate|].
    destruct a as [|x [|x' a']]; try discriminate.
    apply zip_with_length. simpl in *. lia.
Qed.

(** The posterior log-determinant of the two subclasses whose curvature
    is a tensor is the log-determinant of their posterior precision. *)
Lemma Full_log_det_posterior (self : ParametricLaplace matrix) (P : matrix) :
  Full.posterior_precision self = Ok P ->
  Full.log_det_posterior_precision self = Ok (Torch.logdet P).
Proof.
  intros HP. unfold Full.log_det_posterior_precision. now rewrite HP.
Qed.

Lemma Diag_log_det_posterior (self : ParametricLaplace vec) (P : vec) :
  Diag.posterior_precision self = Ok P ->
  Forall (fun p => 0 < p) P ->
  Diag.log_det_posterior_precision self = Ok (Torch.logdet (Torch.diag P)).
Proof.
  intros HP Hpos. unfold Diag.log_det_posterior_precision.
  rewrite HP. simpl. now rewrite logdet_diag.
Qed.

Section MarginalLikelihood.

Variable input Hty : Type.
Context {cls : Subclass input Hty}.

Lemma log_marginal_likelihood_unfold (self : ParametricLaplace Hty) (h : Hty) :
  H self = Some h ->
  log_marginal_likelihood None None self
  = (self, _log_marginal_likelihood self).
Proof.
  intros HH. unfold log_marginal_likelihood, bind, read, ret, _check_fit.
  rewrite HH. reflexivity.
Qed.

(** The marginal likelihood in terms of the posterior log-determinant
    [ldp] that the subclass returns. *)
Lemma log_marginal_likelihood_of_log_det
    (self : ParametricLaplace Hty) (h : Hty) (N C : nat) (ldp : R) :
  let b := base self in
  wf b -> prior_ok b -> shapes_ok b ->
  Forall (fun p => 0 < p) (_prior_precision b) ->
  H self = Some h -> n_data b = Some N -> n_outputs b = Some C ->
  log_det_posterior_precision self = Ok ldp ->
  exists ppd,
    Base.prior_precision_diag b = Ok ppd
    /\ let H_factor := 1 / (Rsqr (_sigma_noise b) * temperature b) in
       let delta := Torch.sub_broadcast (map_estimate b) (_prior_mean b) in
       let scatter := quadratic_form delta (Torch.diag ppd) in
       let log_det_ratio := ldp - Torch.logdet (Torch.diag ppd) in
       (likelihood b = "regression" ->
        log_marginal_likelihood None None self
        = (self,
           Ok (- H_factor * loss b
               - INR N * INR C * ln (_sigma_noise b * sqrt (2 * PI))
               - 1 / 2 * (log_det_ratio + scatter))))
       /\ (likelihood b = "classification" ->
           log_marginal_likelihood None None self
           = (self, Ok (- H_factor * loss b
                        - 1 / 2 * (log_det_ratio + scatter)))).
Proof.
  intros b Hwf Hok [Hmap Hmean] Hpos HH HN HC Hldp.
  destruct (prior_precision_diag_total Hwf Hok) as [ppd [Hd Hlen]].
  exists ppd. split; [exact Hd|]. cbv zeta.
  assert (Hppos : Forall (fun p => 0 < p) ppd)
    by (eapply prior_precision_diag_Forall; eassumption).
  assert (Hdelta : length (Torch.sub_broadcast (map_estimate b)
                             (_prior_mean b)) = length ppd).
  { rewrite sub_broadcast_length; [congruence|]. now rewrite Hmap. }
  rewrite <- (scatter_quadratic_form _ _ Hdelta), (logdet_diag Hppos).
  rewrite <- H_factor_formula.
  rewrite (log_marginal_likelihood_unfold _ HH).
  unfold _log_marginal_likelihood, Base.log_likelihood, _check_fit,
    log_det_ratio, log_det_prior_precision, scatter.
  fold b. rewrite HH, Hldp, Hd, HN, HC. simpl.
  assert (Hhalf : 0.5 = 1 / 2) by lra.
  split; intros Hlik; rewrite Hlik; simpl; rewrite Hhalf, ?mult_INR;
    reflexivity.
Qed.

End MarginalLikelihood.

Lemma example_fit_ok (lik : string) :
  fit (cls := example_cls) example_forward example_loader
    (example_unfitted lik)
  = (example_fitted lik, Ok tt).
Proof. reflexivity. Qed.

Lemma example_fitted_regression :
  example_fitted "regression"
  = mkPL (mkBase (mkModel [[1; 2]; [3]] false (Some 1%nat)) 3 2 "regression"
            [1] [0] 1 1 (0 + 1) (Some 1%nat) (Some 1%nat) [1; 2; 3] None)
         (Some [0 + 1; 0 + 1; 0 + 1]).
Proof. reflexivity. Qed.

(** C2.  On a fitted parametric instance with a positive noise scale, a
    non-zero temperature and a positive prior precision,
    [log_marginal_likelihood()] returns
    [log_likelihood - 1/2 * (log_det_ratio + scatter)], where
    [log_likelihood] is [- H_factor * loss - N * C * log(sigma * sqrt(2 pi))]
    for regression and [- H_factor * loss] for classification, [scatter] is
    the quadratic form of [diag(prior_precision_diag)] at
    [MAP - prior_mean], and [log_det_ratio] is the posterior
    log-determinant [ldp] of the subclass minus the log-determinant of
    [diag(prior_precision_diag)]; the instance is left as it was.  For
    FullLaplace [ldp] is the log-determinant of its posterior precision
    [H_factor * H + diag(prior_precision_diag)] when that determinant is
    positive, and for DiagLaplace it is the log-determinant of the
    diagonal matrix of its posterior precision
    [H_factor * H + prior_precision_diag] when that is positive. *)
Theorem log_marginal_likelihood_formula :
  (forall (input Hty : Type) (cls : Subclass input Hty)
          (self : ParametricLaplace Hty) (h : Hty) (N C : nat) (ldp : R),
     let b := base self in
     wf b -> prior_ok b -> shapes_ok b ->
     Forall (fun p => 0 < p) (_prior_precision b) ->
     0 < _sigma_noise b -> temperature b <> 0 ->
     H self = Some h -> n_data b = Some N -> n_outputs b = Some C ->
     log_det_posterior_precision self = Ok ldp ->
     exists ppd,
       Base.prior_precision_diag b = Ok ppd
       /\ let H_factor := 1 / (Rsqr (_sigma_noise b) * temperature b) in
          let delta :=
            Torch.sub_broadcast (map_estimate b) (_prior_mean b) in
          let scatter := quadratic_form delta (Torch.diag ppd) in
          let log_det_ratio := ldp - Torch.logdet (Torch.diag ppd) in
          (likelihood b = "regression" ->
           log_marginal_likelihood None None self
           = (self,
              Ok (- H_factor * loss b
                  - INR N * INR C * ln (_sigma_noise b * sqrt (2 * PI))
                  - 1 / 2 * (log_det_ratio + scatter))))
          /\ (likelihood b = "classification" ->
              log_marginal_likelihood None None self
              = (self, Ok (- H_factor * loss b
                           - 1 / 2 * (log_det_ratio + scatter)))))
  /\ (forall (input : Type) backend_full backend_jacobians invsqrt_precision
             mvn_sample_tril (self : ParametricLaplace matrix) (h : matrix),
        let b := base self in
        wf b -> prior_ok b ->
        0 < _sigma_noise b -> temperature b <> 0 ->
        H self = Some h ->
        exists ppd,
          Base.prior_precision_diag b = Ok ppd
          /\ let H_factor := 1 / (Rsqr (_sigma_noise b) * temperature b) in
             let P := Torch.madd (Torch.mscale H_factor h) (Torch.diag ppd) in
             Full.posterior_precision self = Ok P
             /\ (0 < Torch.det P ->
                 log_det_posterior_precision
                   (Subclass := @Full.subclass input backend_full
                                  backend_jacobians invsqrt_precision
                                  mvn_sample_tril) self
                 = Ok (Torch.logdet P)))
  /\ (forall (input : Type) backend_diag backend_jacobians randn
             (self : ParametricLaplace vec) (h : vec),
        let b := base self in
        wf b -> prior_ok b ->
        0 < _sigma_noise b -> temperature b <> 0 ->
        H self = Some h ->
        exists ppd,
          Base.prior_precision_diag b = Ok ppd
          /\ let H_factor := 1 / (Rsqr (_sigma_noise b) * temperature b) in
             let P := Torch.vadd (Torch.smul H_factor h) ppd in
             Diag.posterior_precision self = Ok P
             /\ (Forall (fun p => 0 < p) P ->
                 log_det_posterior_precision
                   (Subclass := @Diag.subclass input backend_diag
                                  backend_jacobians randn) self
                 = Ok (Torch.logdet (Torch.diag P)))).
Proof.
  split; [|split].
  - intros input Hty cls self h N C ldp b Hwf Hok Hsh Hpos _ _ HH HN HC Hldp.
    exact (log_marginal_likelihood_of_log_det self Hwf Hok Hsh Hpos
             HH HN HC Hldp).
  - intros input bf bj inv mvn self h b Hwf Hok _ _ HH.
    destruct (prior_precision_diag_total Hwf Hok) as [ppd [Hd _]].
    exists ppd. split; [exact Hd|]. cbv zeta.
    assert (HP : Full.posterior_precision self
                 = Ok (Torch.madd
                         (Torch.mscale
                            (1 / (Rsqr (_sigma_noise b) * temperature b)) h)
                         (Torch.diag ppd))).
    { unfold Full.posterior_precision. fold b.
      rewrite HH, Hd, H_factor_formula. reflexivity. }
    split; [exact HP|]. intros _. now apply Full_log_det_posterior.
  - intros input bd bj randn self h b Hwf Hok _ _ HH.
    destruct (prior_precision_diag_total Hwf Hok) as [ppd [Hd _]].
    exists ppd. split; [exact Hd|]. cbv zeta.
    assert (HP : Diag.posterior_precision self
                 = Ok (Torch.vadd
                         (Torch.smul
                            (1 / (Rsqr (_sigma_noise b) * temperature b)) h)
                         ppd)).
    { unfold Diag.posterior_precision. fold b.
      rewrite HH, Hd, H_factor_formula. reflexivity. }
    split; [exact HP|]. intros Hpos.
    exact (Diag_log_det_posterior self HP Hpos).
Qed.

(** The fitted example, a DiagLaplace, satisfies the hypotheses: its
    posterior precision is positive, its posterior log-determinant is the
    log-determinant of that precision, and its marginal likelihood is
    defined. *)
Lemma log_marginal_likelihood_formula_witness :
  let self := example_fitted "regression" in
  let P := Torch.vadd (Torch.smul (1 / (Rsqr 1 * 1)) [0 + 1; 0 + 1; 0 + 1])
             [1; 1; 1] in
  wf (base self) /\ prior_ok (base self) /\ shapes_ok (base self)
  /\ Forall (fun p => 0 < p) (_prior_precision (base self))
  /\ 0 < _sigma_noise (base self) /\ temperature (base self) <> 0
  /\ H self = Some [0 + 1; 0 + 1; 0 + 1]
  /\ n_data (base self) = Some 1%nat /\ n_outputs (base self) = Some 1%nat
  /\ Forall (fun p => 0 < p) P
  /\ log_det_posterior_precision (Subclass := example_cls) self
     = Ok (Torch.logdet (Torch.diag P))
  /\ exists v, log_marginal_likelihood (cls := example_cls) None None self
               = (self, Ok v).
Proof.
  assert (Hpos : Forall (fun p => 0 < p)
                   (_prior_precision (base (example_fitted "regression")))).
  { repeat constructor. simpl. lra. }
  assert (Hs : 0 < _sigma_noise (base (example_fitted "regression")))
    by (simpl; lra).
  assert (Ht : temperature (base (example_fitted "regression")) <> 0)
    by (simpl; lra).
  assert (HP : Forall (fun p => 0 < p)
                 (Torch.vadd
                    (Torch.smul (1 / (Rsqr 1 * 1)) [0 + 1; 0 + 1; 0 + 1])
                    [1; 1; 1])).
  { unfold Rsqr. repeat constructor; simpl; lra. }
  destruct log_marginal_likelihood_formula as [Hgen [_ Hdiag]].
  destruct (Hdiag unit (fun _ _ _ _ => Ok (1, [1; 1; 1])) example_jacobians
              (fun n p => repeat (repeat 1 p) n)
              (example_fitted "regression") [0 + 1; 0 + 1; 0 + 1]
              (example_base_wf _) (example_base_prior_ok _) Hs Ht eq_refl)
    as [ppd [Hd [_ Hld]]].
  assert (Hd' : Base.prior_precision_diag
                  (base (example_fitted "regression")) = Ok [1; 1; 1]).
  { unfold Base.prior_precision_diag. simpl. now rewrite Rmult_1_r. }
  rewrite Hd' in Hd. injection Hd as <-.
  specialize (Hld HP). fold example_cls in Hld.
  cbv zeta.
  split; [apply example_base_wf|].
  split; [apply example_base_prior_ok|].
  split; [exact (conj eq_refl (or_introl eq_refl))|].
  split; [exact Hpos|].
  split; [exact Hs|]. split; [exact Ht|].
  do 3 (split; [reflexivity|]).
  split; [exact HP|].
  split; [exact Hld|].
  destruct (Hgen unit vec example_cls
              (example_fitted "regression") _ 1%nat 1%nat _
              (example_base_wf _) (example_base_prior_ok _)
              (conj eq_refl (or_introl eq_refl))
              Hpos Hs Ht eq_refl eq_refl eq_refl Hld)
    as [ppd [_ [Hreg _]]].
  eexists. apply Hreg. reflexivity.
Defined.

(** ** Fitting twice *)

Lemma bind_fst_preserves {S A B} (Q : S -> Prop) (m : method S A)
    (k : A -> method S B) (s : S) :
  Q (fst (m s)) ->
  (forall a s', Q s' -> Q (fst (k a s'))) ->
  Q (fst (bind m k s)).
Proof.
  intros Hm Hk. unfold bind. destruct (m s) as [s' [a|e]]; simpl in *.
  - now apply Hk.
  - exact Hm.
Qed.

Section FitTwice.

Variable input Hty : Type.
Context {cls : Subclass input Hty}.
Variable forward : list vec -> list input -> result (list vec).
Variable decompose : bool -> Hty -> Hty.

Lemma lift_base_fitted {A} (m : method BaseLaplace A)
    (self : ParametricLaplace Hty) :
  fitted self -> fitted (fst (lift_base m self)).
Proof.
  unfold fitted, lift_base. destruct (m (base self)). exact (fun h => h).
Qed.

Lemma fit_batch_fitted (N : nat) (b : list input * list vec)
    (self : ParametricLaplace Hty) :
  fitted self -> fitted (fst (fit_batch N b self)).
Proof.
  intros Hf. unfold fit_batch.
  apply bind_fst_preserves; [exact Hf|]. intros lh s1 H1.
  apply bind_fst_preserves; [now apply lift_base_fitted|]. intros _ s2 H2.
  apply bind_fst_preserves; [exact H2|]. intros s3 s4 H4.
  destruct (H s3); [discriminate | exact H4].
Qed.

Lemma fit_loop_fitted (N : nat) (bs : list (list input * list vec))
    (self : ParametricLaplace Hty) :
  fitted self -> fitted (fst (fit_loop N bs self)).
Proof.
  revert self. induction bs as [|b bs IH]; intros self Hf; simpl.
  - exact Hf.
  - apply bind_fst_preserves; [now apply fit_batch_fitted|].
    intros _ s' Hs'. now apply IH.
Qed.

(** Whatever its outcome, a call of [fit] leaves [H] set. *)
Lemma fit_leaves_fitted (l : DataLoader input) (self : ParametricLaplace Hty) :
  fitted (fst (fit forward l self)).
Proof.
  unfold fit, bind at 1, get.
  destruct (H self) as [h|] eqn:HH.
  { simpl. unfold fitted. now rewrite HH. }
  apply bind_fst_preserves; [discriminate|]. intros _ s1 H1.
  apply bind_fst_preserves; [now apply lift_base_fitted|]. intros _ s2 H2.
  destruct (batches l) as [|[X y] bs]; [exact H2|].
  apply bind_fst_preserves; [exact H2|]. intros out s3 H3.
  apply bind_fst_preserves; [now apply lift_base_fitted|]. intros _ s4 H4.
  apply bind_fst_preserves; [now apply lift_base_fitted|]. intros _ s5 H5.
  apply bind_fst_preserves; [now apply fit_loop_fitted|]. intros _ s6 H6.
  now apply lift_base_fitted.
Qed.

Lemma same_config_refl (b : BaseLaplace) : same_config b b.
Proof. repeat split. Qed.

Lemma same_config_trans (b1 b2 b3 : BaseLaplace) :
  same_config b1 b2 -> same_config b2 b3 -> same_config b1 b3.
Proof.
  unfold same_config. intros H12 H23.
  repeat match goal with
         | Hc : _ /\ _ |- _ => destruct Hc
         end.
  repeat split; congruence.
Qed.

Lemma same_config_invariants (b b' : BaseLaplace) :
  same_config b b' ->
  (wf b -> wf b') /\ (prior_ok b -> prior_ok b')
  /\ (shapes_ok b -> shapes_ok b')
  /\ (nonempty_layers b -> nonempty_layers b').
Proof.
  unfold same_config, wf, prior_ok, shapes_ok, nonempty_layers,
    parameters_per_layer.
  intros [Hp [Hn [Hl [_ [Hpp [Hpm [_ [_ Hmap]]]]]]]].
  rewrite Hp, Hn, Hl, Hpp, Hpm, Hmap. tauto.
Qed.

(** [fit] only touches the loss, the curvature, the counts and the flags
    of the model. *)
Lemma fit_batch_config (N : nat) (b : list input * list vec)
    (self : ParametricLaplace Hty) :
  let self' := fst (fit_batch N b self) in
  same_config (base self) (base self')
  /\ n_outputs (base self') = n_outputs (base self).
Proof.
  unfold fit_batch, bind, read, modify, get, raise, lift_base.
  destruct (_curv_closure self (fst b) (snd b) N) as [lh|e]; simpl;
    [|split; [apply same_config_refl | reflexivity]].
  destruct (H self); simpl; split; try reflexivity; repeat split.
Qed.

Lemma fit_loop_config (N : nat) (bs : list (list input * list vec))
    (self : ParametricLaplace Hty) :
  let self' := fst (fit_loop N bs self) in
  same_config (base self) (base self')
  /\ n_outputs (base self') = n_outputs (base self).
Proof.
  revert self. induction bs as [|b bs IH]; intros self; simpl.
  { split; [apply same_config_refl | reflexivity]. }
  apply (bind_fst_preserves
           (fun s => same_config (base self) (base s)
                     /\ n_outputs (base s) = n_outputs (base self))).
  { apply fit_batch_config. }
  intros _ s1 [C1 O1]. destruct (IH s1) as [C2 O2].
  split; [eapply same_config_trans; eassumption | congruence].
Qed.

Lemma fit_config (l : DataLoader input) (self : ParametricLaplace Hty) :
  same_config (base self) (base (fst (fit forward l self))).
Proof.
  unfold fit, bind at 1, get.
  destruct (H self) as [h|]; [apply same_config_refl|].
  apply (bind_fst_preserves (fun s => same_config (base self) (base s))).
  { apply same_config_refl. }
  intros _ s1 C1.
  apply (bind_fst_preserves (fun s => same_config (base self) (base s))).
  { eapply same_config_trans; [exact C1 | repeat split]. }
  intros _ s2 C2.
  destruct (batches l) as [|[X y] bs]; [exact C2|].
  apply (bind_fst_preserves (fun s => same_config (base self) (base s)));
    [exact C2|].
  intros out s3 C3.
  apply (bind_fst_preserves (fun s => same_config (base self) (base s))).
  { eapply same_config_trans; [exact C3 | repeat split]. }
  intros _ s4 C4.
  apply (bind_fst_preserves (fun s => same_config (base self) (base s))).
  { eapply same_config_trans; [exact C4 | repeat split]. }
  intros _ s5 C5.
  apply (bind_fst_preserves (fun s => same_config (base self) (base s))).
  { eapply same_config_trans; [exact C5 | apply fit_loop_config]. }
  intros _ s6 C6.
  eapply same_config_trans; [exact C6 | repeat split].
Qed.

(** A [fit] that returns leaves the instance fitted, with the size of the
    data set and the number of outputs recorded. *)
Lemma fit_returns (l : DataLoader input) (self self' : ParametricLaplace Hty) :
  fit forward l self = (self', Ok tt) ->
  fitted self'
  /\ same_config (base self) (base self')
  /\ n_data (base self') = Some (dataset_len l)
  /\ exists C, n_outputs (base self') = Some C.
Proof.
  intros Hfit.
  pose proof (fit_leaves_fitted l self) as Hf.
  pose proof (fit_config l self) as Hc.
  rewrite Hfit in Hf, Hc. simpl in Hf, Hc.
  split; [exact Hf|]. split; [exact Hc|].
  revert Hfit. unfold fit, bind at 1, get.
  destruct (H self) as [h|]; [discriminate|].
  unfold bind at 1, modify at 1. unfold bind at 1, lift_base at 1,
    modify at 1.
  destruct (batches l) as [|[X y] bs]; [discriminate|].
  unfold bind at 1, read.
  match goal with
  | |- context [forward ?t ?x] => destruct (forward t x) as [out|e]
  end; [|discriminate].
  unfold bind at 1, lift_base at 1, modify at 1.
  unfold bind at 1, lift_base at 1, modify at 1.
  unfold bind at 1.
  match goal with
  | |- context [fit_loop ?N ?b ?s] =>
      pose proof (fit_loop_config N b s) as [_ Hout];
      destruct (fit_loop N b s) as [s6 [[]|e]]
  end; [|discriminate].
  unfold lift_base, modify. intros [= <-]. simpl in *.
  split; [reflexivity|]. eexists. exact Hout.
Qed.

(** An instance built by [__init__] and fitted by a [fit] that returns
    satisfies what the statements on fitted instances assume. *)
Lemma fitted_instance_invariants (m : Model) (lik : string)
    (sigma_noise prior_precision prior_mean : py_value) (T : R)
    (b : BaseLaplace) (l : DataLoader input) (self : ParametricLaplace Hty) :
  Base.__init__ m lik sigma_noise prior_precision prior_mean T = Ok b ->
  fit forward l (mkPL b None) = (self, Ok tt) ->
  wf (base self) /\ prior_ok (base self) /\ shapes_ok (base self)
  /\ fitted self
  /\ n_data (base self) = Some (dataset_len l)
  /\ (exists C, n_outputs (base self) = Some C)
  /\ live_parameters self = map_estimate (base self).
Proof.
  intros Hinit Hfit.
  apply init_establishes_invariants in Hinit.
  destruct Hinit as [Hwf [Hpo [Hsh [Hm [Hmap _]]]]].
  apply fit_returns in Hfit. destruct Hfit as [Hf [Hc [Hn Ho]]].
  destruct (same_config_invariants Hc) as [I1 [I2 [I3 _]]]. simpl in *.
  repeat split; auto; try (destruct (I3 Hsh); assumption).
  - now apply I1.
  - now apply I1.
  - unfold live_parameters.
    destruct Hc as [Hp [_ [_ [_ [_ [_ [_ [_ Hme]]]]]]]].
    simpl in *. rewrite Hp, Hme, Hmap, Hm. reflexivity.
Qed.

Lemma fit_rejects_fitted (l : DataLoader input)
    (self : ParametricLaplace Hty) :
  fitted self ->
  fit forward l self = (self, Err (Raise ValueError "Already fit.")).
Proof.
  unfold fitted, fit, bind, get. destruct (H self); [reflexivity | congruence].
Qed.

Lemma Kron_fit_rejects_fitted (l : DataLoader input) (keep_factors : bool)
    (self : KronLaplace Hty) :
  fitted (parametric self) ->
  Kron_fit forward decompose l keep_factors self
  = (self, Err (Raise ValueError "Already fit.")).
Proof.
  intros Hf. unfold Kron_fit, bind at 1 2, lift_parametric.
  rewrite (fit_rejects_fitted l Hf). destruct self; reflexivity.
Qed.

Lemma Kron_fit_leaves_fitted (l : DataLoader input) (keep_factors : bool)
    (self : KronLaplace Hty) :
  fitted (parametric (fst (Kron_fit forward decompose l keep_factors self))).
Proof.
  unfold Kron_fit.
  apply (bind_fst_preserves (fun s => fitted (parametric s))).
  { unfold lift_parametric.
    pose proof (fit_leaves_fitted l (parametric self)) as Hf.
    destruct (fit forward l (parametric self)). exact Hf. }
  intros _ s1 H1.
  apply (bind_fst_preserves (fun s => fitted (parametric s))).
  { destruct keep_factors; exact H1. }
  intros _ s2 H2.
  apply (bind_fst_preserves (fun s => fitted (parametric s)));
    [exact H2|].
  intros s3 s4 H4. destruct (H (parametric s3)); [discriminate | exact H4].
Qed.

End FitTwice.

Section FunctionalRefit.

Variable input : Type.
Variable forward : list vec -> list input -> result (list vec).
Variable gp_quantities : Model -> list input -> list vec -> R
  -> result (R * list (list vec) * list vec * list matrix).
Variable backend_jacobians : Model -> list input
                             -> result (list (list vec) * list vec).
Variable cholesky : matrix -> result matrix.
Variable SoD_data_loader : nat -> DataLoader input -> DataLoader input.

Notation "'FL_fit'" :=
  (Functional.fit forward gp_quantities backend_jacobians cholesky
     SoD_data_loader).

(** [FunctionalLaplace.fit] does not look at what an earlier [fit] left:
    on a fitted instance it has the outcome, and when it returns the
    final attributes, that it has on the instance with the kernel, its
    factor, the loader, the batch size and the subset factor unset. *)
Lemma Functional_fit_ignores_earlier_fit (l : DataLoader input)
    (self : Functional.FunctionalLaplace input) :
  snd (FL_fit l self) = snd (FL_fit l (unfit self))
  /\ (snd (FL_fit l self) = Ok tt ->
      fst (FL_fit l self) = fst (FL_fit l (unfit self))).
Proof.
  destruct self as [b M dk dl K S tl bs pfs mu].
  unfold Functional.fit, unfit. simpl.
  destruct (batches l) as [|[X y] rest].
  { split; [reflexivity | discriminate]. }
  unfold bind, modify, get, read, raise, ret, Functional.lift_fbase,
    Functional._init_K_MM, Functional._init_Sigma_inv. simpl.
  match goal with
  | |- context [forward ?theta ?x] => destruct (forward theta x) as [out|e]
  end.
  2:{ split; [reflexivity | discriminate]. }
  simpl.
  destruct M as [m|]; simpl;
    (destruct (dataset_len l =? 0)%nat; simpl;
     [split; [reflexivity | discriminate]
     | destruct dk; split; reflexivity]).
Qed.

End FunctionalRefit.

(** A FunctionalLaplace that has been fitted is fitted again by a second
    call: the call returns instead of raising. *)
Lemma Functional_fit_twice_returns :
  let self1 := fst (example_functional_fit example_functional) in
  snd (example_functional_fit example_functional) = Ok tt
  /\ Functional._check_fit self1 = Ok tt
  /\ snd (example_functional_fit self1) = Ok tt.
Proof. cbv zeta. repeat split; reflexivity. Qed.

Section FitOnce.

Variable input Hty : Type.
Context {cls : Subclass input Hty}.
Variable forward : list vec -> list input -> result (list vec).
Variable decompose : bool -> Hty -> Hty.
Variable gp_quantities : Model -> list input -> list vec -> R
  -> result (R * list (list vec) * list vec * list matrix).
Variable backend_jacobians : Model -> list input
                             -> result (list (list vec) * list vec).
Variable cholesky : matrix -> result matrix.
Variable SoD_data_loader : nat -> DataLoader input -> DataLoader input.

Notation "'FL_fit'" :=
  (Functional.fit forward gp_quantities backend_jacobians cholesky
     SoD_data_loader).
Notation "'already_fit'" := (Err (Raise ValueError "Already fit.")).

(** C4, as the code has it.  On every parametric instance (FullLaplace,
    DiagLaplace and, through its own [fit], KronLaplace) a call of [fit] on
    a fitted instance raises [ValueError('Already fit.')] and changes
    nothing; every call of [fit] leaves the instance fitted, so a second
    call is always refused.  [FunctionalLaplace.fit] has no such guard: on
    a fitted instance it has the outcome it has on the instance with its
    kernel state unset, and when it returns it leaves the same
    attributes. *)
Theorem fit_twice_parametric_rejected :
  (forall (self : ParametricLaplace Hty) (l : DataLoader input),
      fitted self -> fit forward l self = (self, already_fit))
  /\ (forall (self : ParametricLaplace Hty) (l1 l2 : DataLoader input),
        let self1 := fst (fit forward l1 self) in
        fit forward l2 self1 = (self1, already_fit))
  /\ (forall (self : KronLaplace Hty) (l1 l2 : DataLoader input)
             (keep1 keep2 : bool),
        let self1 := fst (Kron_fit forward decompose l1 keep1 self) in
        Kron_fit forward decompose l2 keep2 self1 = (self1, already_fit))
  /\ (forall (self : Functional.FunctionalLaplace input)
             (l : DataLoader input),
        snd (FL_fit l self) = snd (FL_fit l (unfit self))
        /\ (snd (FL_fit l self) = Ok tt ->
            fst (FL_fit l self) = fst (FL_fit l (unfit self)))).
Proof.
  split; [|split; [|split]].
  - intros self l Hf. now apply fit_rejects_fitted.
  - intros self l1 l2 self1. apply fit_rejects_fitted.
    apply fit_leaves_fitted.
  - intros self l1 l2 keep1 keep2 self1. apply Kron_fit_rejects_fitted.
    apply Kron_fit_leaves_fitted.
  - intros self l. apply Functional_fit_ignores_earlier_fit.
Qed.

End FitOnce.

(** ** Sampling-based prediction and the live parameters *)

Lemma write_parameters_sizes (v : vec) (ps : list vec) :
  map (@length R) (fst (write_parameters v ps)) = map (@length R) ps.
Proof.
  revert v. induction ps as [|p ps IH]; intros v; simpl; [reflexivity|].
  destruct (Nat.ltb_spec (length v) (length p)) as [Hlt|Hge];
    [reflexivity|].
  specialize (IH (skipn (length p) v)).
  destruct (write_parameters (skipn (length p) v) ps) as [rest r].
  simpl in *. rewrite IH, length_firstn. f_equal. lia.
Qed.

Lemma write_parameters_concat (v : vec) (ps ps' : list vec) :
  write_parameters v ps = (ps', Ok tt) ->
  concat ps' = firstn (length (concat ps)) v.
Proof.
  revert v ps'. induction ps as [|p ps IH]; intros v ps'; simpl.
  - intros [= <-]. reflexivity.
  - destruct (length v <? length p)%nat; [discriminate|].
    destruct (write_parameters (skipn (length p) v) ps) as [rest r] eqn:Hw.
    intros [= <- ->]. simpl. rewrite (IH _ _ Hw), length_app.
    rewrite <- (firstn_skipn (length p) v) at 3.
    rewrite firstn_app, length_firstn.
    destruct (Nat.ltb_spec (length v) (length p)) as [Hlt|Hge].
    + rewrite (firstn_all2 (n := length p + _)) by
        (rewrite length_firstn; lia).
      f_equal. rewrite skipn_all2 by lia. now rewrite !firstn_nil.
    + rewrite Nat.min_l by lia.
      rewrite (firstn_all2 (n := length p + _)) by
        (rewrite length_firstn; lia).
      f_equal. f_equal. lia.
Qed.

Section NNPredictive.

Variable input Hty : Type.
Context {cls : Subclass input Hty}.
Variable forward : list vec -> list input -> result (list vec).

Notation "'PL'" := (ParametricLaplace Hty).

Lemma same_frame_trans (s1 s2 s3 : PL) :
  same_frame s1 s2 -> same_frame s2 s3 -> same_frame s1 s3.
Proof.
  unfold same_frame. intros [A1 [A2 A3]] [B1 [B2 B3]].
  repeat split; congruence.
Qed.

Lemma vector_to_parameters_m_frame (v : vec) (self : PL) :
  same_frame self (fst (vector_to_parameters_m v self)).
Proof.
  unfold same_frame, vector_to_parameters_m, parameters_per_layer.
  pose proof (write_parameters_sizes v (parameters (model (base self)))) as Hs.
  destruct (write_parameters v (parameters (model (base self)))) as [ps r].
  simpl in *. auto.
Qed.

Lemma nn_loop_frame (X : list input) (samples : list vec) (fs : list matrix)
    (self : PL) :
  same_frame self (fst (nn_loop forward X samples fs self)).
Proof.
  revert fs self. induction samples as [|s samples IH]; intros fs self;
    simpl.
  { repeat split. }
  apply (bind_fst_preserves (same_frame self)).
  { apply vector_to_parameters_m_frame. }
  intros _ s1 H1.
  apply (bind_fst_preserves (same_frame self)); [exact H1|].
  intros out s2 H2.
  eapply same_frame_trans; [exact H2 | apply IH].
Qed.

(** Writing the MAP estimate back gives it as the live parameters when it
    holds one entry per parameter. *)
Lemma write_back_restores (self : PL) :
  length (map_estimate (base self)) = length (live_parameters self) ->
  let out := vector_to_parameters_m (map_estimate (base self)) self in
  snd out = Ok tt /\ live_parameters (fst out) = map_estimate (base self).
Proof.
  unfold live_parameters, parameters_to_vector, vector_to_parameters_m.
  intros Hlen.
  destruct (write_parameters (map_estimate (base self))
              (parameters (model (base self)))) as [ps r] eqn:Hw.
  simpl.
  assert (Hr : r = Ok tt).
  { clear - Hlen Hw. revert Hlen Hw.
    generalize (map_estimate (base self)) as v.
    generalize (parameters (model (base self))) as qs.
    intros qs. revert ps r.
    induction qs as [|q qs IH]; intros ps r v Hlen; simpl.
    - now intros [= <- <-].
    - simpl in Hlen. rewrite length_app in Hlen.
      destruct (Nat.ltb_spec (length v) (length q)) as [Hlt|Hge]; [lia|].
      destruct (write_parameters (skipn (length q) v) qs) as [rest r'] eqn:Hw.
      intros [= <- <-]. eapply IH; [|exact Hw].
      rewrite length_skipn. lia. }
  subst r. split; [reflexivity|].
  rewrite (write_parameters_concat _ _ Hw), <- Hlen. apply firstn_all.
Qed.

Lemma live_parameters_length (s s' : PL) :
  parameters_per_layer (model (base s')) = parameters_per_layer (model (base s)) ->
  length (live_parameters s') = length (live_parameters s).
Proof.
  unfold live_parameters, parameters_to_vector, parameters_per_layer.
  intros Hs. now rewrite !length_concat_sizes, Hs.
Qed.

(** What [_nn_predictive_samples] does once the samples are drawn and the
    loop over them has completed. *)
Lemma nn_predictive_after_loop (X : list input) (n : nat) (self s1 s2 : PL)
    (samples : list vec) (fs : list matrix) :
  sample n self = (s1, Ok samples) ->
  nn_loop forward X samples [] s1 = (s2, Ok fs) ->
  _nn_predictive_samples forward X n self
  = let (s3, r) := vector_to_parameters_m (map_estimate (base s2)) s2 in
    match r with
    | Err e => (s3, Err e)
    | Ok _ =>
        match fs with
        | [] => (s3, Err (Raise RuntimeError
                            "stack expects a non-empty TensorList"))
        | _ => if (likelihood (base s2) =? "classification")%string
               then (s3, Ok (map (map Torch.softmax) fs))
               else (s3, Ok fs)
        end
    end.
Proof.
  intros Hs Hl. unfold _nn_predictive_samples, bind at 1. rewrite Hs.
  unfold bind at 1. rewrite Hl. unfold bind at 1, get.
  unfold bind. 
  destruct (vector_to_parameters_m (map_estimate (base s2)) s2)
    as [s3 [[]|e]]; [|reflexivity].
  destruct fs; [reflexivity|].
  destruct (likelihood (base s2) =? "classification")%string; reflexivity.
Qed.

(** C5, as the code has it.  [_nn_predictive_samples] overwrites the live
    parameters with each sample and writes the MAP estimate back after the
    loop: when the samples are drawn and every write and model evaluation
    of the loop returns, the live parameters equal the MAP estimate when
    control leaves the method, whether it returns or [torch.stack] raises
    on an empty list; in particular they do whenever the method returns.
    When drawing the samples raises, the model is untouched. *)
Theorem nn_predictive_restores_MAP
    (X : list input) (n : nat) (self : PL) :
  sample_keeps_model cls ->
  length (map_estimate (base self)) = length (live_parameters self) ->
  let out := _nn_predictive_samples forward X n self in
  (forall s1 e, sample n self = (s1, Err e) ->
      snd out = Err e /\ model (base (fst out)) = model (base self))
  /\ (forall s1 samples s2 fs,
        sample n self = (s1, Ok samples) ->
        nn_loop forward X samples [] s1 = (s2, Ok fs) ->
        live_parameters (fst out) = map_estimate (base self)
        /\ (fs = [] -> exists e, snd out = Err e))
  /\ (forall fs, snd out = Ok fs ->
        live_parameters (fst out) = map_estimate (base self)).
Proof.
  intros Hkeep Hlen out.
  assert (Hloop : forall s1 samples s2 fs,
    sample n self = (s1, Ok samples) ->
    nn_loop forward X samples [] s1 = (s2, Ok fs) ->
    live_parameters (fst out) = map_estimate (base self)
    /\ (fs = [] -> exists e, snd out = Err e)).
  { intros s1 samples s2 fs Hs Hl. subst out.
    rewrite (@nn_predictive_after_loop X n self s1 s2 samples fs Hs Hl).
    destruct (Hkeep n self) as [Hm Hmap]. rewrite Hs in Hm, Hmap.
    simpl in Hm, Hmap.
    pose proof (nn_loop_frame X samples [] s1) as Hf. rewrite Hl in Hf.
    destruct Hf as [F1 [F2 F3]]. simpl in F1, F2, F3.
    assert (Hlen2 : length (map_estimate (base s2))
                    = length (live_parameters s2)).
    { rewrite F1, Hmap, Hlen. symmetry.
      rewrite (live_parameters_length s1 s2 F3).
      unfold live_parameters. now rewrite Hm. }
    destruct (write_back_restores s2 Hlen2) as [Hok Hlive].
    destruct (vector_to_parameters_m (map_estimate (base s2)) s2)
      as [s3 r]. simpl in Hok, Hlive. subst r.
    assert (Hgoal : live_parameters s3 = map_estimate (base self))
      by congruence.
    destruct fs as [|f fs].
    - split; [exact Hgoal | intros _; simpl; eauto].
    - destruct (likelihood (base s2) =? "classification")%string;
        (split; [exact Hgoal | discriminate]). }
  split; [|split].
  - intros s1 e Hs.
    assert (Hout : out = (s1, Err e)).
    { subst out. unfold _nn_predictive_samples, bind at 1.
      now rewrite Hs. }
    rewrite Hout. simpl. split; [reflexivity|].
    destruct (Hkeep n self) as [Hm _]. now rewrite Hs in Hm.
  - exact Hloop.
  - intros fs Hout.
    destruct (sample n self) as [s1 [samples|e]] eqn:Hs.
    2:{ subst out. unfold _nn_predictive_samples, bind at 1 in Hout.
        rewrite Hs in Hout. discriminate. }
    destruct (nn_loop forward X samples [] s1) as [s2 [fs'|e]] eqn:Hl.
    2:{ subst out. unfold _nn_predictive_samples, bind at 1 in Hout.
        rewrite Hs in Hout. unfold bind at 1 in Hout.
        rewrite Hl in Hout. discriminate. }
    apply (Hloop _ _ _ _ eq_refl Hl).
Qed.

End NNPredictive.

Lemma Diag_sample_keeps_model (input : Type)
    (backend_diag : Model -> list input -> list vec -> nat -> result (R * vec))
    (backend_jacobians : Model -> list input
                         -> result (list (list vec) * list vec))
    (randn : nat -> nat -> list vec) :
  sample_keeps_model (Diag.subclass backend_diag backend_jacobians randn).
Proof.
  intros n self. simpl. unfold Diag.sample, bind, read, get, ret.
  destruct (Diag.posterior_scale self); simpl; auto.
Qed.

Lemma Full_sample_keeps_model (input : Type)
    (backend_full : Model -> list input -> list vec -> nat
                    -> result (R * matrix))
    (backend_jacobians : Model -> list input
                         -> result (list (list vec) * list vec))
    (invsqrt_precision : matrix -> result matrix)
    (mvn_sample_tril : vec -> matrix -> nat -> list vec) :
  sample_keeps_model
    (Full.subclass backend_full backend_jacobians invsqrt_precision
       mvn_sample_tril).
Proof.
  intros n self. simpl.
  unfold Full.sample, Full.posterior_scale, bind, read, get, ret, modify,
    lift_base.
  destruct (_posterior_scale (base self)); simpl; [auto|].
  destruct (Full.posterior_precision self); simpl; [|auto].
  destruct (invsqrt_precision a); simpl; auto.
Qed.

(** With a forward pass that returns, the fitted example returns from
    [_nn_predictive_samples] with its parameters equal to the MAP
    estimate. *)
Lemma nn_predictive_restores_MAP_witness :
  let self := example_fitted "regression" in
  let out := _nn_predictive_samples (cls := example_cls) example_forward
               [tt] 1 self in
  sample_keeps_model example_cls
  /\ length (map_estimate (base self)) = length (live_parameters self)
  /\ is_ok (snd out) = true
  /\ live_parameters (fst out) = [1; 2; 3].
Proof.
  cbv zeta.
  split; [apply Diag_sample_keeps_model|].
  split; [reflexivity|].
  split; [reflexivity|].
  destruct (@nn_predictive_restores_MAP unit vec example_cls example_forward
              [tt] 1%nat (example_fitted "regression")
              (Diag_sample_keeps_model _ _ _) eq_refl) as [_ [_ Hret]].
  eapply Hret. reflexivity.
Defined.

(** When the forward pass raises on the first sample, the exception leaves
    [_nn_predictive_samples] with the sample, not the MAP estimate, as the
    live parameters of the model. *)
Lemma nn_predictive_failure_keeps_sample :
  let self := example_fitted "regression" in
  let out := _nn_predictive_samples (cls := example_cls) failing_forward
               [tt] 1 self in
  live_parameters self = map_estimate (base self)
  /\ snd out = Err (Raise RuntimeError "CUDA error: out of memory")
  /\ live_parameters (fst out) <> map_estimate (base (fst out)).
Proof.
  cbv zeta. split; [reflexivity|]. split; [reflexivity|].
  intros Heq. cbn in Heq. injection Heq as H1 _ _.
  match type of H1 with
  | context [sqrt ?x] =>
      assert (Hx : 0 < x) by (unfold Base._H_factor, Rsqr; cbn; lra);
      pose proof (sqrt_lt_R0 x Hx) as Hs;
      assert (Hinv : 0 < 1 / sqrt x) by (apply Rdiv_lt_0_compat; lra)
  end.
  lra.
Qed.

(** ** The predictive and the link approximation *)

Section LinkApprox.

Variable mvn_sample : list vec -> list matrix -> nat -> list matrix.
Variable Dirichlet_mean : list vec -> result (list vec).
Variable input Hty : Type.
Context {cls : Subclass input Hty}.
Variable forward : list vec -> list input -> result (list vec).

Notation "'call'" := (__call__ mvn_sample Dirichlet_mean forward).

(** C6, as the code has it.  On a fitted instance the predictive with
    [pred_type='nn'] does not look at [link_approx]: with any value it does
    what it does with ['mc'], and for a classification likelihood it
    returns the mean of the soft-maxed samples whenever
    [_nn_predictive_samples] returns.  An unsupported [link_approx] is a
    [ValueError] for the ['glm'] predictive of a classification
    likelihood only. *)
Theorem nn_predictive_ignores_link_approx
    (x : list input) (n_samples : nat) (link_approx : string)
    (self : ParametricLaplace Hty) :
  call x "nn" link_approx n_samples self = call x "nn" "mc" n_samples self
  /\ (forall self' samples,
        fitted self ->
        _nn_predictive_samples forward x n_samples self
        = (self', Ok samples) ->
        likelihood (base self') = "classification" ->
        call x "nn" link_approx n_samples self
        = (self', Ok (Categorical (Torch.mean0 samples))))
  /\ (forall self' f_mu f_var,
        fitted self ->
        _glm_predictive_distribution x self = (self', Ok (f_mu, f_var)) ->
        likelihood (base self') = "classification" ->
        Base.str_in link_approx ["mc"; "probit"; "bridge"] = false ->
        call x "glm" link_approx n_samples self
        = (self', Err (Raise ValueError
                         ("Unsupported link approximation "
                          ++ link_approx ++ ".")))).
Proof.
  split; [reflexivity|]. split.
  - intros self' samples Hf Hs Hlik.
    unfold __call__, bind at 1, read, _check_fit.
    destruct (H self) as [h|] eqn:HH; [|now elim Hf].
    simpl. unfold bind at 1. rewrite Hs.
    unfold bind, get. rewrite Hlik. reflexivity.
  - intros self' f_mu f_var Hf Hg Hlik Hlink.
    unfold __call__, bind at 1, read, _check_fit.
    destruct (H self) as [h|] eqn:HH; [|now elim Hf].
    simpl. unfold bind at 1. rewrite Hg.
    unfold bind, get, read. rewrite Hlik. simpl.
    unfold _classification_predictive. rewrite Hlink. reflexivity.
Qed.

End LinkApprox.

(** On the fitted classification example, [pred_type='nn'] with
    [link_approx='mc'] returns class probabilities. *)
Lemma nn_predictive_ignores_link_approx_witness :
  let self := example_fitted "classification" in
  fitted self
  /\ exists self' p,
       example_call example_Dirichlet_mean "nn" "mc" self
       = (self', Ok (Categorical p)).
Proof.
  cbv zeta. split; [discriminate|].
  destruct (@nn_predictive_ignores_link_approx example_mvn_sample
              example_Dirichlet_mean unit vec example_cls example_forward
              [tt] 1%nat "mc" (example_fitted "classification"))
    as [_ [Hnn _]].
  do 2 eexists. unfold example_call. apply Hnn.
  - discriminate.
  - reflexivity.
  - reflexivity.
Defined.

(** On the fitted classification example, [pred_type='nn'] with
    [link_approx='probit'] returns class probabilities: no error is
    raised. *)
Lemma nn_predictive_accepts_probit :
  is_ok (snd (example_call example_Dirichlet_mean "nn" "probit"
                (example_fitted "classification"))) = true.
Proof. reflexivity. Qed.

(** ** The noise scale of a classification model *)

Lemma Rneb_true (r : R) : r <> 1 -> Base.Rneb r 1 = true.
Proof. unfold Base.Rneb. destruct (Req_dec_T r 1); congruence. Qed.

Lemma Rneb_refl (r : R) : Base.Rneb r r = false.
Proof. unfold Base.Rneb. destruct (Req_dec_T r r); congruence. Qed.

(** [__init__] refuses a noise scale other than one for a classification
    likelihood, whatever the other arguments are. *)
Lemma init_rejects_noise_on_classification
    (m : Model) (r : R) (prior_precision prior_mean : py_value) (T : R) :
  Base.has_parameters m = true ->
  r <> 1 ->
  exists e,
    Base.__init__ m "classification" (PyFloat r) prior_precision prior_mean T
    = Err e
    /\ is_ValueError e = true.
Proof.
  intros Hm Hr. unfold Base.__init__. rewrite Hm. simpl.
  unfold Base.prior_precision_setter, Base.prior_mean_setter.
  run_method. rewrite (Rneb_true Hr).
  destruct prior_precision as [p|p|v|d|], prior_mean as [q|q|w|d'|]; simpl;
    repeat match goal with
           | |- context [if negb ?c then _ else _] => destruct c; simpl
           end;
    eexists; split; reflexivity.
Qed.

(** [log_marginal_likelihood(sigma_noise=...)] refuses to change the noise
    scale of a fitted classification instance. *)
Lemma log_marginal_likelihood_rejects_noise_on_classification
    (input Hty : Type) (cls : Subclass input Hty)
    (self : ParametricLaplace Hty) (sigma_noise : py_value) :
  fitted self -> likelihood (base self) = "classification" ->
  log_marginal_likelihood None (Some sigma_noise) self
  = (self, Err (Raise ValueError
                  "Can only change sigma_noise for regression.")).
Proof.
  intros Hf Hlik. unfold log_marginal_likelihood, bind, read, get, ret,
    raise, _check_fit.
  destruct (H self) eqn:HH; [|now elim Hf]. now rewrite Hlik.
Qed.

(** C7, where the setter departs from its siblings.  For a classification
    likelihood [__init__] refuses the noise scale [2], and so does
    [log_marginal_likelihood(sigma_noise=2)] on the fitted instance; the
    [sigma_noise] setter stores it without complaint. *)
Theorem sigma_noise_setter_unguarded :
  (exists e,
      Base.__init__ example_model "classification" (PyFloat 2) (PyFloat 1)
        (PyFloat 0) 1 = Err e
      /\ is_ValueError e = true)
  /\ Base.__init__ example_model "classification" (PyFloat 1) (PyFloat 1)
       (PyFloat 0) 1 = Ok (example_base "classification")
  /\ snd (log_marginal_likelihood (cls := example_cls) None
            (Some (PyFloat 2)) (example_fitted "classification"))
     = Err (Raise ValueError "Can only change sigma_noise for regression.")
  /\ (let out := Base.sigma_noise_setter (PyFloat 2)
                   (example_base "classification") in
      snd out = Ok tt
      /\ _sigma_noise (fst out) = 2
      /\ likelihood (fst out) = "classification").
Proof.
  split; [apply init_rejects_noise_on_classification; [reflexivity | lra]|].
  split.
  { unfold Base.__init__. simpl.
    unfold Base.prior_precision_setter, Base.prior_mean_setter,
      Base.sigma_noise_setter.
    run_method. rewrite Rneb_refl. reflexivity. }
  split.
  { rewrite log_marginal_likelihood_rejects_noise_on_classification;
      [reflexivity | discriminate | reflexivity]. }
  cbv zeta. repeat split.
Qed.

(** ** Grid search over the prior precision *)

Lemma score_ltb_irrefl (x : score) : score_ltb x x = false.
Proof.
  destruct x as [r| | |]; simpl; try reflexivity.
  destruct (Rlt_dec r r); [lra | reflexivity].
Qed.

(** [p >= b > x] gives [p >= x]. *)
Lemma score_ltb_below (p b x : score) :
  score_ltb x b = true -> score_ltb p b = false -> is_nan p = false ->
  score_ltb p x = false.
Proof.
  destruct p as [p| | |], b as [b| | |], x as [x| | |]; simpl;
    try congruence;
    repeat match goal with
           | |- context [Rlt_dec ?a ?c] => destruct (Rlt_dec a c)
           end; try congruence; intros; lra.
Qed.

(** [x < b <= p] gives [x < p]. *)
Lemma score_ltb_above (p b x : score) :
  score_ltb x b = true -> score_ltb p b = false -> is_nan p = false ->
  score_ltb x p = true.
Proof.
  destruct p as [p| | |], b as [b| | |], x as [x| | |]; simpl;
    try congruence;
    repeat match goal with
           | |- context [Rlt_dec ?a ?c] => destruct (Rlt_dec a c)
           end; try congruence; intros; lra.
Qed.

Lemma score_ltb_not_nan (a b : score) :
  score_ltb a b = true -> is_nan a = false /\ is_nan b = false.
Proof. destruct a, b; simpl; intros; try discriminate; auto. Qed.

Lemma is_argmin_nan (scores : list score) (i : nat) :
  (i < length scores)%nat ->
  (forall j, (j < i)%nat -> is_nan (nth j scores PInf) = false) ->
  is_nan (nth i scores PInf) = true ->
  forall rest, is_argmin (scores ++ rest) i.
Proof.
  intros Hi Hpre Hnan rest. unfold is_argmin.
  rewrite length_app. split; [lia|]. split.
  - intros j Hj. rewrite app_nth1 by lia. now apply Hpre.
  - left. now rewrite app_nth1 by lia.
Qed.

(** The scan of [argmin_from]: [pre] are the entries already seen, among
    which [np.argmin] would return [ib], where [best] stands. *)
Lemma argmin_from_spec (rest pre : list score) (best : score) (ib : nat) :
  is_argmin pre ib ->
  nth ib pre PInf = best ->
  is_argmin (pre ++ rest) (argmin_from best ib (length pre) rest).
Proof.
  revert pre best ib.
  induction rest as [|x rest IH]; intros pre best ib Harg Hbest; simpl.
  - now rewrite app_nil_r.
  - destruct Harg as [Hib [Hbefore Hcase]].
    destruct (is_nan best) eqn:Hnb.
    { apply is_argmin_nan; [exact Hib | exact Hbefore | now rewrite Hbest]. }
    destruct Hcase as [Hnan | [Hnone [Hmin Hfirst]]];
      [rewrite Hbest in Hnan; congruence|].
    rewrite Hbest in Hmin, Hfirst.
    replace (pre ++ x :: rest) with ((pre ++ [x]) ++ rest)
      by (rewrite <- app_assoc; reflexivity).
    replace (S (length pre)) with (length (pre ++ [x]))
      by (rewrite length_app; simpl; lia).
    assert (Hnth_pre : forall j, (j < length pre)%nat ->
                         nth j (pre ++ [x]) PInf = nth j pre PInf).
    { intros j Hj. now apply app_nth1. }
    assert (Hnth_x : nth (length pre) (pre ++ [x]) PInf = x).
    { rewrite app_nth2 by lia. now rewrite Nat.sub_diag. }
    assert (Hlen : length (pre ++ [x]) = S (length pre)).
    { rewrite length_app. simpl. lia. }
    destruct (is_nan x) eqn:Hnx; cbn [orb].
    + replace (length pre) with (length (pre ++ [x]) - 1)%nat at 1 by lia.
      replace (length (pre ++ [x]) - 1)%nat with (length pre) by lia.
      apply IH; [|exact Hnth_x].
      split; [lia|]. split.
      * intros j Hj. rewrite Hnth_pre by lia. apply Hnone. lia.
      * left. now rewrite Hnth_x.
    + destruct (score_ltb x best) eqn:Hx.
      * replace (length pre) with (length (pre ++ [x]) - 1)%nat at 1 by lia.
        replace (length (pre ++ [x]) - 1)%nat with (length pre) by lia.
        apply IH; [|exact Hnth_x].
        split; [lia|]. split.
        -- intros j Hj. rewrite Hnth_pre by lia. apply Hnone. lia.
        -- right. rewrite Hnth_x. split; [|split].
           ++ intros j Hj. rewrite Hlen in Hj.
              destruct (Nat.eq_dec j (length pre)) as [->|Hne].
              ** now rewrite Hnth_x.
              ** rewrite Hnth_pre by lia. apply Hnone. lia.
           ++ intros j Hj. rewrite Hlen in Hj.
              destruct (Nat.eq_dec j (length pre)) as [->|Hne].
              ** rewrite Hnth_x. apply score_ltb_irrefl.
              ** rewrite Hnth_pre by lia.
                 eapply score_ltb_below;
                   [exact Hx | apply Hmin; lia | apply Hnone; lia].
           ++ intros j Hj. rewrite Hnth_pre by lia.
              eapply score_ltb_above;
                [exact Hx | apply Hmin; lia | apply Hnone; lia].
      * apply IH; [|rewrite Hnth_pre by lia; exact Hbest].
        split; [lia|]. split.
        -- intros j Hj. rewrite Hnth_pre by lia. now apply Hbefore.
        -- right. rewrite (Hnth_pre ib) by lia. rewrite Hbest.
           split; [|split].
           ++ intros j Hj. rewrite Hlen in Hj.
              destruct (Nat.eq_dec j (length pre)) as [->|Hne].
              ** now rewrite Hnth_x.
              ** rewrite Hnth_pre by lia. apply Hnone. lia.
           ++ intros j Hj. rewrite Hlen in Hj.
              destruct (Nat.eq_dec j (length pre)) as [->|Hne].
              ** rewrite Hnth_x. exact Hx.
              ** rewrite Hnth_pre by lia. apply Hmin. lia.
           ++ intros j Hj. rewrite Hnth_pre by lia. now apply Hfirst.
Qed.

(** [np.argmin] returns the index of the first [nan], or without one the
    first index of a smallest element. *)
Lemma argmin_spec (results : list score) :
  results <> [] ->
  exists i, argmin results = Ok i /\ is_argmin results i.
Proof.
  destruct results as [|x rest]; [congruence|]. intros _.
  exists (argmin_from x 0%nat 1%nat rest). split; [reflexivity|].
  apply (@argmin_from_spec rest [x] x 0%nat); [|reflexivity].
  split; [simpl; lia|]. split; [intros j Hj; lia|].
  destruct (is_nan x) eqn:Hx; [left; exact Hx|].
  right. split; [|split].
  - intros j Hj. simpl in Hj. replace j with 0%nat by lia. exact Hx.
  - intros j Hj. simpl in Hj. replace j with 0%nat by lia.
    apply score_ltb_irrefl.
  - intros j Hj. lia.
Qed.

Section GridSearchProperties.

Variable Self : Type.
Variable OutDist Targets : Type.
Variable prior_precision_setter : py_value -> method Self unit.
Variable validate : method Self (OutDist * Targets).
Variable loss_fn : OutDist -> Targets -> result score.

Notation "'eval'" := (evaluate validate loss_fn).
Notation "'trace'" := (search_trace prior_precision_setter validate loss_fn).
Notation "'step'" := (_gridsearch_step prior_precision_setter validate loss_fn).

(** One iteration of the loop: the assignment is outside the [try], the
    evaluation inside. *)
Lemma gridsearch_step_spec (p : R) (self : Self) :
  step p self
  = match prior_precision_setter (Tensor0 p) self with
    | (self1, Err e) => (self1, Err e)
    | (self1, Ok _) =>
        match eval self1 with
        | (self2, Ok r) => (self2, Ok r)
        | (self2, Err e) =>
            if is_RuntimeError e then (self2, Ok PInf) else (self2, Err e)
        end
    end.
Proof.
  unfold _gridsearch_step, bind at 1.
  destruct (prior_precision_setter (Tensor0 p) self) as [s1 [[]|e]];
    [|reflexivity].
  unfold try_except_RuntimeError, evaluate, bind, read.
  destruct (validate s1) as [s2 [[o t]|e]]; simpl.
  - destruct (loss_fn o t); reflexivity.
  - reflexivity.
Qed.

Lemma gridsearch_loop_spec (interval : list R) (results : list score)
    (prior_precs : list R) (self : Self) :
  _gridsearch_loop prior_precision_setter validate loss_fn interval results
    prior_precs self
  = match trace interval self with
    | (s', _, Some e) => (s', Err e)
    | (s', scores, None) =>
        (s', Ok (results ++ scores, prior_precs ++ interval))
    end.
Proof.
  revert results prior_precs self.
  induction interval as [|p interval IH]; intros results precs self; simpl.
  - now rewrite !app_nil_r.
  - unfold bind at 1. rewrite gridsearch_step_spec.
    destruct (prior_precision_setter (Tensor0 p) self) as [s1 [[]|e]];
      [|reflexivity].
    destruct (eval s1) as [s2 [r|e]].
    + rewrite IH. destruct (trace interval s2) as [[s' l] [x|]];
        [reflexivity|]. now rewrite <- !app_assoc.
    + destruct (is_RuntimeError e); [|reflexivity].
      rewrite IH. destruct (trace interval s2) as [[s' l] [x|]];
        [reflexivity|]. now rewrite <- !app_assoc.
Qed.

Lemma search_trace_length (interval : list R) (self s' : Self)
    (scores : list score) :
  trace interval self = (s', scores, None) ->
  length scores = length interval.
Proof.
  revert self s' scores.
  induction interval as [|p interval IH]; intros self s' scores; simpl.
  - now intros [= _ <-].
  - destruct (prior_precision_setter (Tensor0 p) self) as [s1 [[]|e]];
      [|discriminate].
    destruct (eval s1) as [s2 [r|e]].
    + destruct (trace interval s2) as [[s l] x] eqn:Ht.
      intros [= <- <- ->]. simpl. f_equal. eapply IH. exact Ht.
    + destruct (is_RuntimeError e); [|discriminate].
      destruct (trace interval s2) as [[s l] x] eqn:Ht.
      intros [= <- <- ->]. simpl. f_equal. eapply IH. exact Ht.
Qed.

Lemma search_trace_app (pre post : list R) (self : Self) :
  trace (pre ++ post) self
  = match trace pre self with
    | (s1, l1, Some e) => (s1, l1, Some e)
    | (s1, l1, None) =>
        let '(s, l, x) := trace post s1 in (s, l1 ++ l, x)
    end.
Proof.
  revert self. induction pre as [|p pre IH]; intros self; simpl.
  - now destruct (trace post self) as [[s l] x].
  - destruct (prior_precision_setter (Tensor0 p) self) as [s1 [[]|e]];
      [|reflexivity].
    destruct (eval s1) as [s2 [r|e]].
    + rewrite IH. destruct (trace pre s2) as [[s l] [x|]]; [reflexivity|].
      now destruct (trace post s) as [[s3 l3] x3].
    + destruct (is_RuntimeError e); [|reflexivity].
      rewrite IH. destruct (trace pre s2) as [[s l] [x|]]; [reflexivity|].
      now destruct (trace post s) as [[s3 l3] x3].
Qed.

(** C9, as the code has it.  Grid search assigns each candidate and
    evaluates the instance on the validation set.  A candidate whose
    evaluation raises a [RuntimeError] (or an exception derived from it)
    scores infinity and the search goes on with the remaining candidates;
    an exception of any other class, at whichever candidate it occurs,
    leaves the search and reaches the caller.  When no such exception
    occurs, the search over a non-empty interval returns the candidate
    that [np.argmin] selects among the scores: the first whose score is
    [nan] when there is one, otherwise the first with the smallest
    score. *)
Theorem gridsearch_RuntimeError_is_infinite_loss :
  (forall interval self,
     match search_trace prior_precision_setter validate loss_fn interval self
     with
     | (s', _, Some e) =>
         _gridsearch prior_precision_setter validate loss_fn interval self
         = (s', Err e)
     | (s', scores, None) =>
         length scores = length interval
         /\ match interval with
            | [] =>
                _gridsearch prior_precision_setter validate loss_fn
                  interval self
                = (s', Err (Raise ValueError
                              "attempt to get argmin of an empty sequence"))
            | _ :: _ =>
                exists i,
                  is_argmin scores i
                  /\ _gridsearch prior_precision_setter validate loss_fn
                       interval self
                     = (s', Ok (nth i interval 0))
            end
     end)
  /\ (forall pre p post self s1 l1 s1' s2 e,
        search_trace prior_precision_setter validate loss_fn pre self
        = (s1, l1, None) ->
        prior_precision_setter (Tensor0 p) s1 = (s1', Ok tt) ->
        evaluate validate loss_fn s1' = (s2, Err e) ->
        (is_RuntimeError e = true ->
         search_trace prior_precision_setter validate loss_fn
           (pre ++ p :: post) self
         = let '(s, l, x) :=
             search_trace prior_precision_setter validate loss_fn post s2 in
           (s, l1 ++ PInf :: l, x))
        /\ (is_RuntimeError e = false ->
            _gridsearch prior_precision_setter validate loss_fn
              (pre ++ p :: post) self
            = (s2, Err e))).
Proof.
  split.
  - intros interval self.
    destruct (trace interval self) as [[s' scores] [e|]] eqn:Ht.
    + unfold _gridsearch, bind at 1. rewrite gridsearch_loop_spec, Ht.
      reflexivity.
    + pose proof (search_trace_length _ _ Ht) as Hlen.
      split; [exact Hlen|].
      destruct interval as [|p interval].
      * simpl in Ht. injection Ht as <- <-. reflexivity.
      * assert (Hne : scores <> []).
        { intros ->. discriminate. }
        destruct (argmin_spec Hne) as [i [Harg Hi]].
        exists i. split; [exact Hi|].
        unfold _gridsearch, bind at 1. rewrite gridsearch_loop_spec, Ht.
        unfold bind, read, ret. cbn [fst snd app]. rewrite Harg. reflexivity.
  - intros pre p post self s1 l1 s1' s2 e Hpre Hset Hev.
    assert (Htr : trace (p :: post) s1
                  = if is_RuntimeError e
                    then let '(s, l, x) := trace post s2 in (s, PInf :: l, x)
                    else (s2, [], Some e)).
    { simpl. rewrite Hset, Hev. reflexivity. }
    split; intros Hr; rewrite Hr in Htr.
    + rewrite search_trace_app, Hpre, Htr.
      now destruct (trace post s2) as [[s l] x].
    + unfold _gridsearch, bind at 1.
      rewrite gridsearch_loop_spec, search_trace_app, Hpre, Htr.
      reflexivity.
Qed.

End GridSearchProperties.

(** Evaluation of the examples up to the arithmetic of [R]. *)
Ltac eval_reals :=
  cbv -[Rplus Rmult Rdiv Rinv Rminus Ropp sqrt Rlt_dec Req_dec_T Rsqr IZR
        exp ln].

(** On FullLaplace with an [invsqrt_precision] that fails below a
    threshold, the first of three candidates fails inside the GLM
    predictive with a [LinAlgError] and scores infinity; the other two tie
    and the search returns the first of them. *)
Lemma gridsearch_RuntimeError_is_infinite_loss_witness :
  snd (guarded_validate
         (fst (lift_base (Base.prior_precision_setter (Tensor0 (1 / 2)))
                 example_full)))
  = Err (Raise LinAlgError
           "linalg.cholesky: the input is not positive-definite")
  /\ snd (guarded_gridsearch example_full) = Ok 3.
Proof.
  split.
  - eval_reals.
    destruct (Rlt_dec _ 1) as [_|Hn]; [reflexivity|].
    exfalso. apply Hn. unfold Rsqr. lra.
  - pose proof (proj1 (@gridsearch_RuntimeError_is_infinite_loss
                         _ _ _
                         (fun p => lift_base (Base.prior_precision_setter p))
                         guarded_validate (fun _ _ => Ok (Finite 0)))
                  [1 / 2; 3; 2] example_full) as Hs.
    set (tr := search_trace _ _ _ _ _) in Hs.
    assert (Htr : snd (fst tr) = [PInf; Finite 0; Finite 0]
                  /\ snd tr = None).
    { subst tr. eval_reals.
      repeat match goal with
             | |- context [Rlt_dec ?a 1] =>
                 destruct (Rlt_dec a 1); [try (exfalso; unfold Rsqr in *; lra)
                                         | try (exfalso; unfold Rsqr in *; lra)]
             end.
      split; reflexivity. }
    destruct tr as [[s' scores] x]. simpl in Htr. destruct Htr as [-> ->].
    destruct Hs as [_ [i [Hi Hg]]].
    fold guarded_gridsearch in Hg. rewrite Hg. cbn [snd].
    destruct Hi as [Hlt [_ [Hnan | [_ [Hmin Hfirst]]]]].
    + destruct i as [|[|[|i]]]; simpl in Hnan, Hlt; try discriminate; lia.
    + destruct i as [|[|[|i]]]; simpl in Hlt; [| reflexivity | | lia];
        exfalso.
      * specialize (Hmin 1%nat ltac:(simpl; lia)). simpl in Hmin. discriminate.
      * specialize (Hfirst 1%nat ltac:(lia)). simpl in Hfirst.
        destruct (Rlt_dec 0 0); [lra | discriminate].
Defined.

(** The evaluation of the first candidate raises a [ValueError] (the
    Dirichlet of the bridge link refuses its concentration), which is not
    a [RuntimeError]: grid search lets it through to its caller. *)
Lemma gridsearch_propagates_ValueError :
  snd (example_gridsearch (example_fitted "classification"))
  = Err (Raise ValueError
           "Expected parameter concentration to satisfy the constraint").
Proof. reflexivity. Qed.

(** ** The GP predictive against the GLM predictive *)

Lemma diagonal_from_diag (d : vec) (pre : nat) :
  Torch.diagonal_from pre (map (fun r => repeat 0 pre ++ r) (Torch.diag d))
  = d.
Proof.
  revert pre. induction d as [|x d IH]; intros pre; [reflexivity|].
  simpl. f_equal.
  - rewrite app_nth2 by (rewrite repeat_length; lia).
    rewrite repeat_length, Nat.sub_diag. reflexivity.
  - rewrite map_map.
    rewrite <- (IH (S pre)) at 2. f_equal. apply map_ext. intros r.
    change (repeat 0 (S pre)) with (0 :: repeat 0 pre).
    rewrite (repeat_cons pre 0) at 1. rewrite <- app_assoc. reflexivity.
Qed.

Lemma diagonal_diag (d : vec) : Torch.diagonal (Torch.diag d) = d.
Proof.
  unfold Torch.diagonal. rewrite <- (diagonal_from_diag d 0) at 2.
  f_equal. simpl. now rewrite map_id.
Qed.

Section GPEquivalence.

(** The backends: [laplace.jacobians.Jacobians] of [curvature.py],
    [backend.jacobians] and [backend.gp_quantities]. *)
Variable Jacobians backend_jacobians
  : Model -> list vec -> result (list (list vec) * list vec).
Variable MSELoss CrossEntropyLoss : list vec -> list vec -> R.
Variable gp_quantities : Model -> list vec -> list vec -> R
  -> result (R * list (list vec) * list vec * list matrix).
(** [torch.linalg.cholesky], [torch.linalg.solve],
    [laplace.utils.invsqrt_precision], [torch.distributions] and the
    subset-of-data loader. *)
Variable cholesky : matrix -> result matrix.
Variable solve : matrix -> matrix -> result matrix.
Variable invsqrt_precision : matrix -> result matrix.
Variable mvn_sample_tril : vec -> matrix -> nat -> list vec.
Variable mvn_sample : list vec -> list matrix -> nat -> list matrix.
Variable Dirichlet_mean : list vec -> result (list vec).
Variable SoD_data_loader : nat -> DataLoader vec -> DataLoader vec.

(** The backends differentiate the model [f(x; theta) = theta * x]. *)
Hypothesis Jacobians_exact :
  forall m X, Jacobians m X = scale_jacobians m X.
Hypothesis jacobians_exact :
  forall m X, backend_jacobians m X = scale_jacobians m X.
Hypothesis gp_quantities_exact :
  forall m X y H_factor,
    gp_quantities m X y H_factor = scale_gp_quantities MSELoss m X y H_factor.
(** With [M] the size of the training set, the subset of the one-point
    training set is that training set. *)
Hypothesis SoD_all : SoD_data_loader 1 scale_loader = scale_loader.
(** The numerical routines are exact on diagonal matrices. *)
Hypothesis cholesky_diag :
  forall d, Forall (fun x => 0 < x) d ->
    cholesky (Torch.diag d) = Ok (Torch.diag (map sqrt d)).
Hypothesis solve_diag :
  forall d B, Forall (fun x => x <> 0) d -> length B = length d ->
    solve (Torch.diag d) B = Ok (diag_solve d B).
Hypothesis invsqrt_precision_diag :
  forall d, Forall (fun x => 0 < x) d ->
    invsqrt_precision (Torch.diag d)
    = Ok (Torch.diag (map (fun x => 1 / sqrt x) d)).

Notation "'full_cls'" :=
  (GGN_FullLaplace Jacobians MSELoss CrossEntropyLoss "regression"
     backend_jacobians invsqrt_precision mvn_sample_tril).

Ltac reals := cbv -[Rplus Rmult Rdiv Rinv Rminus Ropp IZR sqrt].

Ltac gp_step :=
  first [ rewrite SoD_all | rewrite gp_quantities_exact
        | rewrite jacobians_exact | rewrite Jacobians_exact
        | progress (unfold bind, modify, get, ret, read, raise, rbind,
            lift_base, fit_batch, Curvature.full, Full._curv_closure,
            Curvature._get_full_ggn, Full.functional_variance,
            Full.posterior_covariance, Full.posterior_scale,
            Full.posterior_precision,
            Functional.lift_fbase, Functional._init_K_MM,
            Functional._init_Sigma_inv, Functional._curv_closure,
            Functional._kernel_batch, Functional._jacobians,
            Functional._store_K_batch, Functional._build_Sigma_inv,
            Functional._build_L_inv, Functional.lambdas_diag,
            Base.prior_precision_diag, scale_gp_quantities,
            scale_jacobians)
        | progress simpl ].

Lemma sqrt_2_neq_0 : sqrt 2 <> 0.
Proof. intros E. apply sqrt_eq_0 in E; lra. Qed.

Lemma inv_sqrt_2_sqr : 1 / sqrt 2 * (1 / sqrt 2) = 1 / 2.
Proof.
  assert (Hss : sqrt 2 * sqrt 2 = 2) by (apply sqrt_sqrt; lra).
  unfold Rdiv. rewrite !Rmult_1_l, <- Rinv_mult, Hss. reflexivity.
Qed.

(** The fit of the functional instance and its kernels. *)
Lemma scale_functional_fit :
  exists gp,
    Functional.fit scale_forward gp_quantities backend_jacobians
      cholesky SoD_data_loader scale_loader scale_functional = (gp, Ok tt)
    /\ Functional.K_MM gp = Some (Functional.Dense [[1; 0]; [0; 0]])
    /\ Functional.Sigma_inv gp
       = Some (Functional.Dense [[sqrt 2; 0]; [0; 1]])
    /\ Functional._kernel_star backend_jacobians [[[0]; [1]]] [[0; 1]] gp
       = Ok (Functional.StarDense [[[0; 0]; [0; 1]]])
    /\ Functional._kernel_batch_star backend_jacobians [[[0]; [1]]]
         [[1; 0]] gp
       = Ok (Functional.BatchStarDense [[[[0; 0]; [1; 0]]]])
    /\ Functional.__call__ backend_jacobians solve mvn_sample Dirichlet_mean
         [[0; 1]] "gp" "probit" 100 gp
       = Ok (Gaussian [[0; 1]] [[[-1; 0]; [0; 1]]]).
Proof.
  eexists. split.
  { unfold Functional.fit. unfold scale_loader at 1. cbn [batches].
    repeat gp_step.
    match goal with
    | |- context [cholesky ?A] =>
        replace A with (Torch.diag [2; 1])
          by (reals; repeat (f_equal; try lra))
    end.
    rewrite cholesky_diag by (repeat constructor; lra).
    simpl. reflexivity. }
  split; [reals; repeat (f_equal; try lra)|].
  split; [reals; rewrite sqrt_1; reflexivity|].
  split.
  { unfold Functional._kernel_star. repeat gp_step.
    reals. repeat (f_equal; try lra). }
  split.
  { unfold Functional._kernel_batch_star. repeat gp_step.
    reals. repeat (f_equal; try lra). }
  unfold Functional.__call__, Functional.gp_posterior,
    Functional._gp_posterior_variance, Functional._kernel_star,
    Functional._kernel_batch_star, Functional._build_K_star_M,
    Functional._check_fit.
  repeat gp_step.
  match goal with
  | |- context [solve ?A ?B] =>
      change A with (Torch.diag [sqrt 2; sqrt 1]);
      replace B with [[0; 0]; [1; 0]]
        by (reals; repeat (f_equal; try lra))
  end.
  rewrite solve_diag
    by (try reflexivity; rewrite sqrt_1; repeat constructor;
        try lra; apply sqrt_2_neq_0).
  reals. rewrite sqrt_1.
  repeat (f_equal; try (field; exact sqrt_2_neq_0)).
Qed.

(** The fit of the parametric instance and its GLM predictive. *)
Lemma scale_full_fit :
  exists full,
    fit (cls := full_cls) scale_forward scale_loader scale_full
    = (full, Ok tt)
    /\ H full = Some [[1]]
    /\ snd (__call__ mvn_sample Dirichlet_mean (cls := full_cls)
              scale_forward [[0; 1]] "glm" "probit" 100 full)
       = Ok (Gaussian [[0; 1]] [[[0; 0]; [0; 1 / 2]]]).
Proof.
  eexists. split.
  { unfold fit, GGN_FullLaplace. simpl. repeat gp_step. reflexivity. }
  split; [reals; repeat (f_equal; try lra)|].
  unfold __call__, _glm_predictive_distribution, GGN_FullLaplace. simpl.
  repeat gp_step.
  match goal with
  | |- context [invsqrt_precision ?A] =>
      replace A with (Torch.diag [2])
        by (reals; repeat (f_equal; try lra))
  end.
  rewrite invsqrt_precision_diag by (repeat constructor; lra).
  reals. rewrite inv_sqrt_2_sqr.
  repeat (f_equal; try lra).
Qed.

(** C1, where the code departs from it.  The model
    [f(x; theta) = theta * x] has two outputs and one parameter and is
    linear in it.  A FullLaplace and a FunctionalLaplace with [M] the size
    of the training set and [diagonal_kernel=False] are built on it with
    the same prior precision and noise scale and fitted on the training
    point [(1, 0)].  At the test point [(0, 1)] both predictives return
    the mean [(0, 1)]; the GLM predictive returns the covariance
    [[[0, 0], [0, 1/2]]], the GP predictive returns
    [[[-1, 0], [0, 1]]], whose first variance is negative.  The formula of
    the docstring of [gp_posterior], on the kernels the instance computes,
    gives the covariance of the GLM predictive: [_build_K_star_M] stacks
    the blocks of [K_M*] with the test output as row index where the
    Cholesky factor has the training output. *)
Theorem gp_variance_differs_from_glm :
  Base.__init__ scale_model "regression" (PyFloat 1) (PyFloat 1) (PyFloat 0)
    1 = Ok scale_base
  /\ Functional.__init__ vec scale_model "regression" (Some 1%nat)
       (PyFloat 1) (PyFloat 1) (PyFloat 0) 1 false true
     = Ok scale_functional
  /\ exists full gp,
       fit (cls := GGN_FullLaplace Jacobians MSELoss CrossEntropyLoss
                     "regression" backend_jacobians invsqrt_precision
                     mvn_sample_tril)
         scale_forward scale_loader scale_full = (full, Ok tt)
       /\ Functional.fit scale_forward gp_quantities backend_jacobians
            cholesky SoD_data_loader scale_loader scale_functional
          = (gp, Ok tt)
       /\ H full = Some [[1]]
       /\ Functional.K_MM gp = Some (Functional.Dense [[1; 0]; [0; 0]])
       /\ Functional.Sigma_inv gp
          = Some (Functional.Dense [[sqrt 2; 0]; [0; 1]])
       /\ snd (__call__ mvn_sample Dirichlet_mean
                 (cls := GGN_FullLaplace Jacobians MSELoss CrossEntropyLoss
                           "regression" backend_jacobians invsqrt_precision
                           mvn_sample_tril)
                 scale_forward [[0; 1]] "glm" "probit" 100 full)
          = Ok (Gaussian [[0; 1]] [[[0; 0]; [0; 1 / 2]]])
       /\ Functional.__call__ backend_jacobians solve mvn_sample
            Dirichlet_mean [[0; 1]] "gp" "probit" 100 gp
          = Ok (Gaussian [[0; 1]] [[[-1; 0]; [0; 1]]])
       /\ Functional._kernel_star backend_jacobians [[[0]; [1]]] [[0; 1]] gp
          = Ok (Functional.StarDense [[[0; 0]; [0; 1]]])
       /\ Functional._kernel_batch_star backend_jacobians [[[0]; [1]]]
            [[1; 0]] gp
          = Ok (Functional.BatchStarDense [[[[0; 0]; [1; 0]]]])
       /\ gp_variance_docstring solve [[sqrt 2; 0]; [0; 1]]
            [[0; 0]; [0; 1]] [[[0; 0]; [1; 0]]]
          = Ok [[0; 0]; [0; 1 / 2]].
Proof.
  split.
  { unfold Base.__init__. simpl.
    unfold Base.prior_precision_setter, Base.prior_mean_setter,
      Base.sigma_noise_setter.
    run_method. rewrite Rneb_refl. reflexivity. }
  split.
  { unfold Functional.__init__, Base.__init__. simpl.
    unfold Base.prior_precision_setter, Base.prior_mean_setter,
      Base.sigma_noise_setter.
    run_method. rewrite Rneb_refl. reflexivity. }
  destruct scale_full_fit as [full [Hfit [HH Hglm]]].
  destruct scale_functional_fit
    as [gp [Hgfit [HK [HS [Hks [Hkbs Hgp]]]]]].
  exists full, gp.
  do 9 (split; [assumption|]).
  unfold gp_variance_docstring.
  change [[sqrt 2; 0]; [0; 1]] with (Torch.diag [sqrt 2; 1]).
  rewrite solve_diag
    by (try reflexivity; repeat constructor; try lra; apply sqrt_2_neq_0).
  reals. rewrite inv_sqrt_2_sqr.
  repeat (f_equal; try (field; exact sqrt_2_neq_0)).
Qed.

End GPEquivalence.

(** The hypotheses hold of the Jacobians of the model, the sum of squared
    errors and the numerical routines on diagonal matrices; with them the
    two predictives of the fitted instances disagree as stated. *)
Lemma gp_variance_differs_from_glm_witness :
  (forall d, Forall (fun x => 0 < x) d ->
     diag_cholesky (Torch.diag d) = Ok (Torch.diag (map sqrt d)))
  /\ (forall d B, Forall (fun x => x <> 0) d -> length B = length d ->
        diag_linalg_solve (Torch.diag d) B = Ok (diag_solve d B))
  /\ (forall d, Forall (fun x => 0 < x) d ->
        diag_invsqrt_precision (Torch.diag d)
        = Ok (Torch.diag (map (fun x => 1 / sqrt x) d)))
  /\ exists full gp,
       fit (cls := GGN_FullLaplace scale_jacobians sum_squared_error
                     (fun _ _ => 0) "regression" scale_jacobians
                     diag_invsqrt_precision (fun loc _ n => repeat loc n))
         scale_forward scale_loader scale_full = (full, Ok tt)
       /\ Functional.fit scale_forward
            (scale_gp_quantities sum_squared_error) scale_jacobians
            diag_cholesky (fun _ l => l) scale_loader scale_functional
          = (gp, Ok tt)
       /\ snd (__call__ (fun mu _ n => repeat mu n) (fun a => Ok a)
                 (cls := GGN_FullLaplace scale_jacobians sum_squared_error
                           (fun _ _ => 0) "regression" scale_jacobians
                           diag_invsqrt_precision
                           (fun loc _ n => repeat loc n))
                 scale_forward [[0; 1]] "glm" "probit" 100 full)
          = Ok (Gaussian [[0; 1]] [[[0; 0]; [0; 1 / 2]]])
       /\ Functional.__call__ scale_jacobians diag_linalg_solve
            (fun mu _ n => repeat mu n) (fun a => Ok a)
            [[0; 1]] "gp" "probit" 100 gp
          = Ok (Gaussian [[0; 1]] [[[-1; 0]; [0; 1]]]).
Proof.
  assert (Hc : forall d, Forall (fun x => 0 < x) d ->
                 diag_cholesky (Torch.diag d)
                 = Ok (Torch.diag (map sqrt d))).
  { intros d _. unfold diag_cholesky. now rewrite diagonal_diag. }
  assert (Hs : forall d B, Forall (fun x => x <> 0) d ->
                 length B = length d ->
                 diag_linalg_solve (Torch.diag d) B = Ok (diag_solve d B)).
  { intros d B _ _. unfold diag_linalg_solve. now rewrite diagonal_diag. }
  assert (Hi : forall d, Forall (fun x => 0 < x) d ->
                 diag_invsqrt_precision (Torch.diag d)
                 = Ok (Torch.diag (map (fun x => 1 / sqrt x) d))).
  { intros d _. unfold diag_invsqrt_precision. now rewrite diagonal_diag. }
  split; [exact Hc|]. split; [exact Hs|]. split; [exact Hi|].
  destruct (@gp_variance_differs_from_glm
              scale_jacobians scale_jacobians sum_squared_error
              (fun _ _ => 0) (scale_gp_quantities sum_squared_error)
              diag_cholesky diag_linalg_solve diag_invsqrt_precision
              (fun loc _ n => repeat loc n) (fun mu _ n => repeat mu n)
              (fun a => Ok a) (fun _ l => l)
              (fun _ _ => eq_refl) (fun _ _ => eq_refl)
              (fun _ _ _ _ => eq_refl) eq_refl Hc Hs Hi)
    as [_ [_ [full [gp [Hfit [Hgfit [_ [_ [_ [Hglm [Hgp _]]]]]]]]]]].
  exists full, gp. repeat split; assumption.
Defined.
